(** * EdgeML recurrent cells: a model of [tf/edgeml/graph/rnn.py]

    The development embeds the nonlinearity selector, the FastGRNN and
    FastRNN cells and the [addBaseAssignOps] methods of the EMI wrappers,
    and proves the properties of their documentation against that model.

    Tensor entries are real numbers: the float32 rounding of the numeric
    substrate is not part of the model. *)

From Stdlib Require Import Reals Lra Lia List String Bool Arith.
Import ListNotations.

Local Open Scope string_scope.
Local Open Scope R_scope.

(** ** Python results *)

(** The exceptions the modelled code can raise. *)
Inductive exn : Type :=
| AssertionError
| IndexError
| NameError
| KeyError
| AttributeError
| ValueError.

Inductive result (A : Type) : Type :=
| Ok (a : A)
| Raise (e : exn).

Arguments Ok {A} a.
Arguments Raise {A} e.

Definition is_ok {A : Type} (r : result A) : bool :=
  match r with Ok _ => true | Raise _ => false end.

(** ** Rank-2 tensors

    Every tensor the cells handle has rank 2: a batch of rows, a weight
    matrix, a [1, hiddenSize] bias, a [1, 1] scalar.  A tensor is its
    static shape and its entries. *)

Record Tensor : Type := mkTensor {
  dim0 : nat;
  dim1 : nat;
  val : nat -> nat -> R
}.

Definition shape (t : Tensor) : nat * nat := (dim0 t, dim1 t).

(** Two tensors are the same value when their shapes agree and their
    entries agree inside the shape. *)
Definition tensor_eq (a b : Tensor) : Prop :=
  dim0 a = dim0 b /\ dim1 a = dim1 b /\
  forall i j, (i < dim0 a)%nat -> (j < dim1 a)%nat -> val a i j = val b i j.

(** [sum_n n f] is f 0 + ... + f (n-1). *)
Fixpoint sum_n (n : nat) (f : nat -> R) : R :=
  match n with
  | O => 0
  | S k => sum_n k f + f k
  end.

(** [math_ops.matmul]: the inner dimensions must agree. *)
Definition matmul (a b : Tensor) : result Tensor :=
  if (dim1 a =? dim0 b)%nat then
    Ok (mkTensor (dim0 a) (dim1 b)
          (fun i j => sum_n (dim1 a) (fun k => val a i k * val b k j)))
  else Raise ValueError.

(** Broadcasting of one dimension: equal sizes, or one of them is 1. *)
Definition bdim (da db : nat) : result nat :=
  if (da =? db)%nat then Ok da
  else if (da =? 1)%nat then Ok db
  else if (db =? 1)%nat then Ok da
  else Raise ValueError.

(** The index read in an operand of size [d] for the result index [i]. *)
Definition bidx (d i : nat) : nat := if (d =? 1)%nat then O else i.

(** An elementwise binary operator with broadcasting, as [+] and [*] on
    tensors. *)
Definition bcast2 (f : R -> R -> R) (a b : Tensor) : result Tensor :=
  match bdim (dim0 a) (dim0 b), bdim (dim1 a) (dim1 b) with
  | Ok d0, Ok d1 =>
      Ok (mkTensor d0 d1
            (fun i j => f (val a (bidx (dim0 a) i) (bidx (dim1 a) j))
                          (val b (bidx (dim0 b) i) (bidx (dim1 b) j))))
  | _, _ => Raise ValueError
  end.

Definition tadd : Tensor -> Tensor -> result Tensor := bcast2 Rplus.
Definition tmul : Tensor -> Tensor -> result Tensor := bcast2 Rmult.

(** An elementwise unary operator; also a binary operator one of whose
    operands is a Python float, which broadcasts to every entry. *)
Definition tmap (f : R -> R) (a : Tensor) : Tensor :=
  mkTensor (dim0 a) (dim1 a) (fun i j => f (val a i j)).

Definition sigmoid (x : R) : R := 1 / (1 + exp (- x)).

Module math_ops.
Definition tanh (A : Tensor) : Tensor := tmap Rtrigo_def.tanh A.
Definition sigmoid (A : Tensor) : Tensor := tmap sigmoid A.
End math_ops.

Module gen_math_ops.
(** [maximum(A, c)] and [minimum(A, c)] with a float [c]. *)
Definition maximum (A : Tensor) (c : R) : Tensor := tmap (fun x => Rmax x c) A.
Definition minimum (A : Tensor) (c : R) : Tensor := tmap (fun x => Rmin x c) A.
End gen_math_ops.

(** ** The nonlinearity selector *)

Definition gen_non_linearity (A : Tensor) (non_linearity : string) : Tensor :=
  if non_linearity =? "tanh" then math_ops.tanh A
  else if non_linearity =? "sigmoid" then math_ops.sigmoid A
  else if non_linearity =? "relu" then gen_math_ops.maximum A 0
  else if non_linearity =? "quantTanh" then
    gen_math_ops.maximum (gen_math_ops.minimum A 1) (-1)
  else if non_linearity =? "quantSigm" then
    let A := tmap (fun x => (x + 1) / 2) A in
    gen_math_ops.maximum (gen_math_ops.minimum A 1) 0
  else math_ops.tanh A.

(** The selector on one entry: what [gen_non_linearity] does to each
    entry of its argument (lemma [gen_non_linearity_val]). *)
Definition unit_non_linearity (non_linearity : string) (x : R) : R :=
  val (gen_non_linearity (mkTensor 1 1 (fun _ _ => x)) non_linearity) 0 0.

(** [clip x lo hi], as the documentation uses it: [x] limited to the
    interval from [lo] to [hi]. *)
Definition clip (x lo hi : R) : R :=
  if Rlt_dec x lo then lo else if Rlt_dec hi x then hi else x.

(** ** Methods that update their object

    A method is a function of the object's state that returns the state
    it leaves behind together with its result: an exception keeps the
    updates made before it was raised. *)

Definition M (S A : Type) : Type := S -> S * result A.

Definition ret {S A : Type} (a : A) : M S A := fun s => (s, Ok a).

Definition bind {S A B : Type} (c : M S A) (k : A -> M S B) : M S B :=
  fun s =>
    match c s with
    | (s', Ok a) => k a s'
    | (s', Raise e) => (s', Raise e)
    end.

Definition lift {S A : Type} (r : result A) : M S A := fun s => (s, r).

Definition get_self {S : Type} : M S S := fun s => (s, Ok s).

Definition modify {S : Type} (f : S -> S) : M S unit := fun s => (f s, Ok tt).

Notation "x <- c ;; k" := (bind c (fun x => k))
  (at level 61, c at next level, right associativity).
Notation "c ;;; k" := (bind c (fun _ => k))
  (at level 61, right associativity).

(** [assert b]. *)
Definition assert {S : Type} (b : bool) : M S unit :=
  if b then ret tt else lift (Raise AssertionError).

(** ** Variables of the graph *)

Record Var : Type := mkVar {
  var_name : string;
  var_value : Tensor
}.

(** The contents of the variables of the enclosing model, by full name:
    freshly initialised, trained or restored. *)
Definition VarEnv : Type := string -> nat -> nat -> R.

Inductive initializer : Type :=
| random_normal_initializer (mean stddev : R)
| constant_initializer (value : R).

Module vs.
(** [vs.get_variable(name, shape, initializer=...)] inside the scope
    [scope]: the variable of that name, of the requested shape.  The
    initializer only matters when the variable is created; its current
    contents are those of the environment. *)
Definition get_variable (env : VarEnv) (scope name : string)
    (shape : nat * nat) (init : initializer) : Var :=
  let full := scope ++ "/" ++ name in
  mkVar full (mkTensor (fst shape) (snd shape) (env full)).
End vs.

(** The attributes that [call] binds on a cell ([self.W], [self.zeta],
    ...), by attribute name. *)
Definition Attrs : Type := string -> option Var.

Definition no_attrs : Attrs := fun _ => None.

Definition setattr (a : Attrs) (k : string) (v : Var) : Attrs :=
  fun k' => if k' =? k then Some v else a k'.

Definition getattr (a : Attrs) (k : string) : result Var :=
  match a k with
  | Some v => Ok v
  | None => Raise AttributeError
  end.

(** [l[i]] on a Python list, for an index that is not negative. *)
Definition getitem {A : Type} (l : list A) (i : nat) : result A :=
  match nth_error l i with
  | Some x => Ok x
  | None => Raise IndexError
  end.

(** [l[-k]] on a Python list, for [k] positive. *)
Definition getitem_neg {A : Type} (l : list A) (k : nat) : result A :=
  if (k <=? List.length l)%nat then getitem l (List.length l - k) else Raise IndexError.

(** [l[i] += 1] on a Python list of integers, for an index inside it. *)
Fixpoint incr (i : nat) (l : list nat) : list nat :=
  match l, i with
  | [], _ => []
  | a :: r, O => (a + 1)%nat :: r
  | a :: r, S i' => a :: incr i' r
  end.

(** ** FastGRNNCell *)

Module FastGRNNCell.

Record t : Type := mk {
  _hidden_size : nat;
  _gate_non_linearity : string;
  _update_non_linearity : string;
  _num_weight_matrices : list nat;
  _wRank : option nat;
  _uRank : option nat;
  _zetaInit : R;
  _nuInit : R;
  _name : string;
  attrs : Attrs
}.

Definition set (k : string) (v : Var) : M t Var :=
  fun self =>
    (mk (_hidden_size self) (_gate_non_linearity self)
        (_update_non_linearity self) (_num_weight_matrices self)
        (_wRank self) (_uRank self) (_zetaInit self) (_nuInit self)
        (_name self) (setattr (attrs self) k v),
     Ok v).

Definition __init__ (hidden_size : nat)
    (gate_non_linearity update_non_linearity : string)
    (wRank uRank : option nat) (zetaInit nuInit : R) (name : string) : t :=
  let nwm := [1; 1]%nat in
  let nwm := match wRank with Some _ => incr 0 nwm | None => nwm end in
  let nwm := match uRank with Some _ => incr 1 nwm | None => nwm end in
  mk hidden_size gate_non_linearity update_non_linearity nwm
     wRank uRank zetaInit nuInit name no_attrs.

Definition state_size (self : t) : nat := _hidden_size self.
Definition output_size (self : t) : nat := _hidden_size self.
Definition gate_non_linearity (self : t) : string := _gate_non_linearity self.
Definition update_non_linearity (self : t) : string := _update_non_linearity self.
Definition wRank (self : t) : option nat := _wRank self.
Definition uRank (self : t) : option nat := _uRank self.
Definition num_weight_matrices (self : t) : list nat := _num_weight_matrices self.
Definition name (self : t) : string := _name self.

Definition cellType (self : t) : string := "FastGRNN".

Definition call (env : VarEnv) (inputs state : Tensor) : M t (Tensor * Tensor) :=
  self <- get_self ;;
  let scope := _name self ++ "/FastGRNNcell" in
  wComp <-
    match _wRank self with
    | None =>
        W <- set "W" (vs.get_variable env scope "W"
                        (dim1 inputs, _hidden_size self)
                        (random_normal_initializer 0 (1/10))) ;;
        lift (matmul inputs (var_value W))
    | Some wr =>
        W1 <- set "W1" (vs.get_variable env scope "W1"
                          (dim1 inputs, wr)
                          (random_normal_initializer 0 (1/10))) ;;
        W2 <- set "W2" (vs.get_variable env scope "W2"
                          (wr, _hidden_size self)
                          (random_normal_initializer 0 (1/10))) ;;
        xW1 <- lift (matmul inputs (var_value W1)) ;;
        lift (matmul xW1 (var_value W2))
    end ;;
  uComp <-
    match _uRank self with
    | None =>
        U <- set "U" (vs.get_variable env scope "U"
                        (_hidden_size self, _hidden_size self)
                        (random_normal_initializer 0 (1/10))) ;;
        lift (matmul state (var_value U))
    | Some ur =>
        U1 <- set "U1" (vs.get_variable env scope "U1"
                          (_hidden_size self, ur)
                          (random_normal_initializer 0 (1/10))) ;;
        U2 <- set "U2" (vs.get_variable env scope "U2"
                          (ur, _hidden_size self)
                          (random_normal_initializer 0 (1/10))) ;;
        hU1 <- lift (matmul state (var_value U1)) ;;
        lift (matmul hU1 (var_value U2))
    end ;;
  zeta <- set "zeta" (vs.get_variable env scope "zeta" (1, 1)%nat
                        (constant_initializer (_zetaInit self))) ;;
  nu <- set "nu" (vs.get_variable env scope "nu" (1, 1)%nat
                    (constant_initializer (_nuInit self))) ;;
  pre_comp <- lift (tadd wComp uComp) ;;
  bias_gate <- set "bias_gate" (vs.get_variable env scope "B_g"
                                  (1%nat, _hidden_size self)
                                  (constant_initializer 1)) ;;
  pg <- lift (tadd pre_comp (var_value bias_gate)) ;;
  let z := gen_non_linearity pg (_gate_non_linearity self) in
  bias_update <- set "bias_update" (vs.get_variable env scope "B_h"
                                      (1%nat, _hidden_size self)
                                      (constant_initializer 1)) ;;
  pu <- lift (tadd pre_comp (var_value bias_update)) ;;
  let c := gen_non_linearity pu (_update_non_linearity self) in
  zs <- lift (tmul z state) ;;
  sz <- lift (tmul (math_ops.sigmoid (var_value zeta))
                   (tmap (fun x => 1 - x) z)) ;;
  g <- lift (tadd sz (math_ops.sigmoid (var_value nu))) ;;
  gc <- lift (tmul g c) ;;
  new_h <- lift (tadd zs gc) ;;
  ret (new_h, new_h).

Definition getVars : M t (list Var) :=
  self <- get_self ;;
  let Vars := [] in
  n0 <- lift (getitem (_num_weight_matrices self) 0) ;;
  Vars <-
    (if (n0 =? 1)%nat then
       W <- lift (getattr (attrs self) "W") ;;
       ret (Vars ++ [W])%list
     else
       W1 <- lift (getattr (attrs self) "W1") ;;
       W2 <- lift (getattr (attrs self) "W2") ;;
       ret (Vars ++ [W1; W2])%list) ;;
  n1 <- lift (getitem (_num_weight_matrices self) 1) ;;
  Vars <-
    (if (n1 =? 1)%nat then
       U <- lift (getattr (attrs self) "U") ;;
       ret (Vars ++ [U])%list
     else
       U1 <- lift (getattr (attrs self) "U1") ;;
       U2 <- lift (getattr (attrs self) "U2") ;;
       ret (Vars ++ [U1; U2])%list) ;;
  bias_gate <- lift (getattr (attrs self) "bias_gate") ;;
  bias_update <- lift (getattr (attrs self) "bias_update") ;;
  let Vars := (Vars ++ [bias_gate; bias_update])%list in
  zeta <- lift (getattr (attrs self) "zeta") ;;
  nu <- lift (getattr (attrs self) "nu") ;;
  let Vars := (Vars ++ [zeta; nu])%list in
  ret Vars.

End FastGRNNCell.


(** ** FastRNNCell *)

Module FastRNNCell.

Record t : Type := mk {
  _hidden_size : nat;
  _update_non_linearity : string;
  _num_weight_matrices : list nat;
  _wRank : option nat;
  _uRank : option nat;
  _alphaInit : R;
  _betaInit : R;
  _name : string;
  attrs : Attrs
}.

Definition set (k : string) (v : Var) : M t Var :=
  fun self =>
    (mk (_hidden_size self) (_update_non_linearity self)
        (_num_weight_matrices self) (_wRank self) (_uRank self)
        (_alphaInit self) (_betaInit self) (_name self)
        (setattr (attrs self) k v),
     Ok v).

Definition __init__ (hidden_size : nat) (update_non_linearity : string)
    (wRank uRank : option nat) (alphaInit betaInit : R) (name : string) : t :=
  let nwm := [1; 1]%nat in
  let nwm := match wRank with Some _ => incr 0 nwm | None => nwm end in
  let nwm := match uRank with Some _ => incr 1 nwm | None => nwm end in
  mk hidden_size update_non_linearity nwm wRank uRank alphaInit betaInit
     name no_attrs.

Definition state_size (self : t) : nat := _hidden_size self.
Definition output_size (self : t) : nat := _hidden_size self.
Definition update_non_linearity (self : t) : string := _update_non_linearity self.
Definition wRank (self : t) : option nat := _wRank self.
Definition uRank (self : t) : option nat := _uRank self.
Definition num_weight_matrices (self : t) : list nat := _num_weight_matrices self.
Definition name (self : t) : string := _name self.

Definition cellType (self : t) : string := "FastRNN".

Definition call (env : VarEnv) (inputs state : Tensor) : M t (Tensor * Tensor) :=
  self <- get_self ;;
  let scope := _name self ++ "/FastRNNcell" in
  wComp <-
    match _wRank self with
    | None =>
        W <- set "W" (vs.get_variable env scope "W"
                        (dim1 inputs, _hidden_size self)
                        (random_normal_initializer 0 (1/10))) ;;
        lift (matmul inputs (var_value W))
    | Some wr =>
        W1 <- set "W1" (vs.get_variable env scope "W1"
                          (dim1 inputs, wr)
                          (random_normal_initializer 0 (1/10))) ;;
        W2 <- set "W2" (vs.get_variable env scope "W2"
                          (wr, _hidden_size self)
                          (random_normal_initializer 0 (1/10))) ;;
        xW1 <- lift (matmul inputs (var_value W1)) ;;
        lift (matmul xW1 (var_value W2))
    end ;;
  uComp <-
    match _uRank self with
    | None =>
        U <- set "U" (vs.get_variable env scope "U"
                        (_hidden_size self, _hidden_size self)
                        (random_normal_initializer 0 (1/10))) ;;
        lift (matmul state (var_value U))
    | Some ur =>
        U1 <- set "U1" (vs.get_variable env scope "U1"
                          (_hidden_size self, ur)
                          (random_normal_initializer 0 (1/10))) ;;
        U2 <- set "U2" (vs.get_variable env scope "U2"
                          (ur, _hidden_size self)
                          (random_normal_initializer 0 (1/10))) ;;
        hU1 <- lift (matmul state (var_value U1)) ;;
        lift (matmul hU1 (var_value U2))
    end ;;
  alpha <- set "alpha" (vs.get_variable env scope "alpha" (1, 1)%nat
                          (constant_initializer (_alphaInit self))) ;;
  beta <- set "beta" (vs.get_variable env scope "beta" (1, 1)%nat
                        (constant_initializer (_betaInit self))) ;;
  pre_comp <- lift (tadd wComp uComp) ;;
  bias_update <- set "bias_update" (vs.get_variable env scope "B_h"
                                      (1%nat, _hidden_size self)
                                      (constant_initializer 1)) ;;
  pu <- lift (tadd pre_comp (var_value bias_update)) ;;
  let c := gen_non_linearity pu (_update_non_linearity self) in
  bs <- lift (tmul (math_ops.sigmoid (var_value beta)) state) ;;
  ac <- lift (tmul (math_ops.sigmoid (var_value alpha)) c) ;;
  new_h <- lift (tadd bs ac) ;;
  ret (new_h, new_h).

Definition getVars : M t (list Var) :=
  self <- get_self ;;
  let Vars := [] in
  n0 <- lift (getitem (_num_weight_matrices self) 0) ;;
  Vars <-
    (if (n0 =? 1)%nat then
       W <- lift (getattr (attrs self) "W") ;;
       ret (Vars ++ [W])%list
     else
       W1 <- lift (getattr (attrs self) "W1") ;;
       W2 <- lift (getattr (attrs self) "W2") ;;
       ret (Vars ++ [W1; W2])%list) ;;
  n1 <- lift (getitem (_num_weight_matrices self) 1) ;;
  Vars <-
    (if (n1 =? 1)%nat then
       U <- lift (getattr (attrs self) "U") ;;
       ret (Vars ++ [U])%list
     else
       U1 <- lift (getattr (attrs self) "U1") ;;
       U2 <- lift (getattr (attrs self) "U2") ;;
       ret (Vars ++ [U1; U2])%list) ;;
  bias_update <- lift (getattr (attrs self) "bias_update") ;;
  let Vars := (Vars ++ [bias_update])%list in
  alpha <- lift (getattr (attrs self) "alpha") ;;
  beta <- lift (getattr (attrs self) "beta") ;;
  let Vars := (Vars ++ [alpha; beta])%list in
  ret Vars.

End FastRNNCell.

(** ** The EMI wrappers: [addBaseAssignOps]

    The methods read the name [graph], which is neither a parameter nor
    an attribute: it is looked up among the module's globals, and the
    module binds no such name.  [globals_graph] is that binding, when a
    caller has put one there. *)

Record Graph : Type := mkGraph {
  tensor_names : list string
}.

(** [tf.assign(ref, value)]: the op that stores [value] in the tensor
    named [ref]. *)
Record AssignOp : Type := assign {
  assign_ref : string;
  assign_value : Tensor
}.

Definition name_lookup_graph {S : Type} (globals_graph : option Graph) : M S Graph :=
  match globals_graph with
  | Some g => ret g
  | None => lift (Raise NameError)
  end.

Definition get_tensor_by_name {S : Type} (globals_graph : option Graph)
    (name : string) : M S string :=
  g <- name_lookup_graph globals_graph ;;
  if existsb (String.eqb name) (tensor_names g) then ret name
  else lift (Raise KeyError).

(** [assert initVarList is not None], giving the list. *)
Definition assert_not_None {S A : Type} (x : option A) : M S A :=
  match x with
  | Some a => ret a
  | None => lift (Raise AssertionError)
  end.

Module EMI_BasicLSTM.

Record t : Type := mk {
  assignOps : list AssignOp
}.

Definition extend_assignOps (ops : list AssignOp) : M t unit :=
  modify (fun self => mk (assignOps self ++ ops)%list).

Definition addBaseAssignOps (globals_graph : option Graph)
    (initVarList : option (list Tensor)) : M t unit :=
  initVarList <- assert_not_None initVarList ;;
  assert (List.length initVarList =? 2)%nat ;;;
  k_ <- get_tensor_by_name globals_graph "rnn/EMI-LSTM-Cell/kernel:0" ;;
  b_ <- get_tensor_by_name globals_graph "rnn/EMI-LSTM-Cell/bias:0" ;;
  kernel <- lift (getitem_neg initVarList 2) ;;
  bias <- lift (getitem_neg initVarList 1) ;;
  let k_op := assign k_ kernel in
  let b_op := assign b_ bias in
  extend_assignOps [k_op; b_op].

End EMI_BasicLSTM.

Module EMI_GRU.

Record t : Type := mk {
  assignOps : list AssignOp
}.

Definition extend_assignOps (ops : list AssignOp) : M t unit :=
  modify (fun self => mk (assignOps self ++ ops)%list).

Definition addBaseAssignOps (globals_graph : option Graph)
    (initVarList : option (list Tensor)) : M t unit :=
  initVarList <- assert_not_None initVarList ;;
  assert (List.length initVarList =? 2)%nat ;;;
  kernel1_ <- get_tensor_by_name globals_graph "rnn/EMI-GRU-Cell/gates/kernel:0" ;;
  bias1_ <- get_tensor_by_name globals_graph "rnn/EMI-GRU-Cell/gates/bias:0" ;;
  kernel2_ <- get_tensor_by_name globals_graph "rnn/EMI-GRU-Cell/candidate/kernel:0" ;;
  bias2_ <- get_tensor_by_name globals_graph "rnn/EMI-GRU-Cell/candidate/bias:0" ;;
  kernel1 <- lift (getitem initVarList 0) ;;
  bias1 <- lift (getitem initVarList 1) ;;
  kernel2 <- lift (getitem initVarList 2) ;;
  bias2 <- lift (getitem initVarList 3) ;;
  let kernel1_op := assign kernel1_ kernel1 in
  let bias1_op := assign bias1_ bias1 in
  let kernel2_op := assign kernel2_ kernel2 in
  let bias2_op := assign bias2_ bias2 in
  extend_assignOps [kernel1_op; bias1_op; kernel2_op; bias2_op].

(** The length that [getHyperParams] asserts of the wrapper's own
    variable list, and that [_restoreBaseGraph] builds. *)
Definition varList_length : nat := 4.

End EMI_GRU.

Module EMI_FastRNN.

Record t : Type := mk {
  wRank : option nat;
  uRank : option nat;
  assignOps : list AssignOp
}.

Definition extend_assignOps (ops : list AssignOp) : M t unit :=
  modify (fun self => mk (wRank self) (uRank self) (assignOps self ++ ops)%list).

Definition cell_scope : string := "rnn/fast_rnn_cell/EMI-FastRNN-Cell/FastRNNcell/".

Definition addBaseAssignOps (globals_graph : option Graph)
    (initVarList : option (list Tensor)) : M t unit :=
  initVarList <- assert_not_None initVarList ;;
  self <- get_self ;;
  let index := O in
  index <-
    match wRank self with
    | None =>
        W_ <- get_tensor_by_name globals_graph (cell_scope ++ "W:0") ;;
        W <- lift (getitem initVarList 0) ;;
        let w_op := assign W_ W in
        extend_assignOps [w_op] ;;;
        ret (index + 1)%nat
    | Some _ =>
        W1_ <- get_tensor_by_name globals_graph (cell_scope ++ "W1:0") ;;
        W2_ <- get_tensor_by_name globals_graph (cell_scope ++ "W2:0") ;;
        W1 <- lift (getitem initVarList 0) ;;
        W2 <- lift (getitem initVarList 1) ;;
        let w1_op := assign W1_ W1 in
        let w2_op := assign W2_ W2 in
        extend_assignOps [w1_op; w2_op] ;;;
        ret (index + 2)%nat
    end ;;
  index <-
    match uRank self with
    | None =>
        U_ <- get_tensor_by_name globals_graph (cell_scope ++ "U:0") ;;
        U <- lift (getitem initVarList index) ;;
        let u_op := assign U_ U in
        extend_assignOps [u_op] ;;;
        ret (index + 1)%nat
    | Some _ =>
        U1_ <- get_tensor_by_name globals_graph (cell_scope ++ "U1:0") ;;
        U2_ <- get_tensor_by_name globals_graph (cell_scope ++ "U2:0") ;;
        U1 <- lift (getitem initVarList index) ;;
        U2 <- lift (getitem initVarList (index + 1)) ;;
        let u1_op := assign U1_ U1 in
        let u2_op := assign U2_ U2 in
        extend_assignOps [u1_op; u2_op] ;;;
        ret (index + 2)%nat
    end ;;
  alpha_ <- get_tensor_by_name globals_graph (cell_scope ++ "alpha:0") ;;
  beta_ <- get_tensor_by_name globals_graph (cell_scope ++ "beta:0") ;;
  bias_ <- get_tensor_by_name globals_graph (cell_scope ++ "B_h:0") ;;
  alpha <- lift (getitem initVarList index) ;;
  beta <- lift (getitem initVarList (index + 1)) ;;
  bias <- lift (getitem initVarList (index + 2)) ;;
  let alpha_op := assign alpha_ alpha in
  let beta_op := assign beta_ beta in
  let bias_op := assign bias_ bias in
  extend_assignOps [alpha_op; beta_op; bias_op].

(** The number of tensors the rank configuration calls for: the length
    of the list [_restoreBaseGraph] builds. *)
Definition varList_length (self : t) : nat :=
  ((match wRank self with None => 1 | Some _ => 2 end) +
   (match uRank self with None => 1 | Some _ => 2 end) + 3)%nat.

End EMI_FastRNN.

Module EMI_UGRNN.

Record t : Type := mk {
  assignOps : list AssignOp
}.

Definition extend_assignOps (ops : list AssignOp) : M t unit :=
  modify (fun self => mk (assignOps self ++ ops)%list).

Definition addBaseAssignOps (globals_graph : option Graph)
    (initVarList : option (list Tensor)) : M t unit :=
  initVarList <- assert_not_None initVarList ;;
  assert (List.length initVarList =? 2)%nat ;;;
  k_ <- get_tensor_by_name globals_graph "rnn/ugrnn_cell/kernel:0" ;;
  b_ <- get_tensor_by_name globals_graph "rnn/ugrnn_cell/bias:0" ;;
  kernel <- lift (getitem_neg initVarList 2) ;;
  bias <- lift (getitem_neg initVarList 1) ;;
  let k_op := assign k_ kernel in
  let b_op := assign b_ bias in
  extend_assignOps [k_op; b_op].

End EMI_UGRNN.

Module EMI_FastGRNN.

Record t : Type := mk {
  wRank : option nat;
  uRank : option nat;
  assignOps : list AssignOp
}.

Definition extend_assignOps (ops : list AssignOp) : M t unit :=
  modify (fun self => mk (wRank self) (uRank self) (assignOps self ++ ops)%list).

Definition cell_scope : string :=
  "rnn/fast_grnn_cell/EMI-FastGRNN-Cell/FastGRNNcell/".

Definition addBaseAssignOps (globals_graph : option Graph)
    (initVarList : option (list Tensor)) : M t unit :=
  initVarList <- assert_not_None initVarList ;;
  self <- get_self ;;
  let index := O in
  index <-
    match wRank self with
    | None =>
        W_ <- get_tensor_by_name globals_graph (cell_scope ++ "W:0") ;;
        W <- lift (getitem initVarList 0) ;;
        let w_op := assign W_ W in
        extend_assignOps [w_op] ;;;
        ret (index + 1)%nat
    | Some _ =>
        W1_ <- get_tensor_by_name globals_graph (cell_scope ++ "W1:0") ;;
        W2_ <- get_tensor_by_name globals_graph (cell_scope ++ "W2:0") ;;
        W1 <- lift (getitem initVarList 0) ;;
        W2 <- lift (getitem initVarList 1) ;;
        let w1_op := assign W1_ W1 in
        let w2_op := assign W2_ W2 in
        extend_assignOps [w1_op; w2_op] ;;;
        ret (index + 2)%nat
    end ;;
  index <-
    match uRank self with
    | None =>
        U_ <- get_tensor_by_name globals_graph (cell_scope ++ "U:0") ;;
        U <- lift (getitem initVarList index) ;;
        let u_op := assign U_ U in
        extend_assignOps [u_op] ;;;
        ret (index + 1)%nat
    | Some _ =>
        U1_ <- get_tensor_by_name globals_graph (cell_scope ++ "U1:0") ;;
        U2_ <- get_tensor_by_name globals_graph (cell_scope ++ "U2:0") ;;
        U1 <- lift (getitem initVarList index) ;;
        U2 <- lift (getitem initVarList (index + 1)) ;;
        let u1_op := assign U1_ U1 in
        let u2_op := assign U2_ U2 in
        extend_assignOps [u1_op; u2_op] ;;;
        ret (index + 2)%nat
    end ;;
  zeta_ <- get_tensor_by_name globals_graph (cell_scope ++ "zeta:0") ;;
  nu_ <- get_tensor_by_name globals_graph (cell_scope ++ "nu:0") ;;
  gate_bias_ <- get_tensor_by_name globals_graph (cell_scope ++ "B_g:0") ;;
  update_bias_ <- get_tensor_by_name globals_graph (cell_scope ++ "B_h:0") ;;
  zeta <- lift (getitem initVarList index) ;;
  nu <- lift (getitem initVarList (index + 1)) ;;
  gate_bias <- lift (getitem initVarList (index + 2)) ;;
  update_bias <- lift (getitem initVarList (index + 3)) ;;
  let zeta_op := assign zeta_ zeta in
  let nu_op := assign nu_ nu in
  let gate_bias_op := assign gate_bias_ gate_bias in
  let update_bias_op := assign update_bias_ update_bias in
  extend_assignOps [zeta_op; nu_op; gate_bias_op; update_bias_op].

(** The number of tensors the rank configuration calls for: the length
    of the list [_restoreBaseGraph] builds. *)
Definition varList_length (self : t) : nat :=
  ((match wRank self with None => 1 | Some _ => 2 end) +
   (match uRank self with None => 1 | Some _ => 2 end) + 4)%nat.

End EMI_FastGRNN.

(** A graph that holds every tensor the wrappers look up. *)
Definition full_graph : Graph :=
  mkGraph
    [ "rnn/EMI-LSTM-Cell/kernel:0"; "rnn/EMI-LSTM-Cell/bias:0";
      "rnn/EMI-GRU-Cell/gates/kernel:0"; "rnn/EMI-GRU-Cell/gates/bias:0";
      "rnn/EMI-GRU-Cell/candidate/kernel:0"; "rnn/EMI-GRU-Cell/candidate/bias:0";
      "rnn/ugrnn_cell/kernel:0"; "rnn/ugrnn_cell/bias:0";
      EMI_FastRNN.cell_scope ++ "W:0"; EMI_FastRNN.cell_scope ++ "W1:0";
      EMI_FastRNN.cell_scope ++ "W2:0"; EMI_FastRNN.cell_scope ++ "U:0";
      EMI_FastRNN.cell_scope ++ "U1:0"; EMI_FastRNN.cell_scope ++ "U2:0";
      EMI_FastRNN.cell_scope ++ "alpha:0"; EMI_FastRNN.cell_scope ++ "beta:0";
      EMI_FastRNN.cell_scope ++ "B_h:0";
      EMI_FastGRNN.cell_scope ++ "W:0"; EMI_FastGRNN.cell_scope ++ "W1:0";
      EMI_FastGRNN.cell_scope ++ "W2:0"; EMI_FastGRNN.cell_scope ++ "U:0";
      EMI_FastGRNN.cell_scope ++ "U1:0"; EMI_FastGRNN.cell_scope ++ "U2:0";
      EMI_FastGRNN.cell_scope ++ "zeta:0"; EMI_FastGRNN.cell_scope ++ "nu:0";
      EMI_FastGRNN.cell_scope ++ "B_g:0"; EMI_FastGRNN.cell_scope ++ "B_h:0" ].

(** ** The tensor a step returns

    [call] interleaves the arithmetic of a step with the binding of the
    cell's attributes.  [step_output] below is the arithmetic alone;
    [call] returns it twice (lemmas [FastGRNN_call_output] and
    [FastRNN_call_output]). *)

Definition rbind {A B : Type} (r : result A) (k : A -> result B) : result B :=
  match r with
  | Ok a => k a
  | Raise e => Raise e
  end.

(** The tensor of the variable [name] of the scope [scope], of shape
    [d0, d1]. *)
Definition param (env : VarEnv) (scope name : string) (d0 d1 : nat) : Tensor :=
  mkTensor d0 d1 (env (scope ++ "/" ++ name)).

(** The variable [name] of the scope [scope], of shape [d0, d1]: what
    [vs.get_variable] returns for it. *)
Definition scoped_var (env : VarEnv) (scope name : string) (d0 d1 : nat) : Var :=
  mkVar (scope ++ "/" ++ name) (param env scope name d0 d1).

(** The projection of [x] to [out] columns by the weights of a cell:
    one product with the matrix [full] when no rank is set, two chained
    products with [f1] then [f2] when a rank is. *)
Definition project (env : VarEnv) (scope : string) (x : Tensor)
    (rank : option nat) (full f1 f2 : string) (inner out : nat) : result Tensor :=
  match rank with
  | None => matmul x (param env scope full inner out)
  | Some r =>
      rbind (matmul x (param env scope f1 inner r))
            (fun y => matmul y (param env scope f2 r out))
  end.

Module FastGRNNStep.
Import FastGRNNCell.

Definition scope (self : t) : string := _name self ++ "/FastGRNNcell".

Definition wComp (env : VarEnv) (self : t) (inputs : Tensor) : result Tensor :=
  project env (scope self) inputs (_wRank self) "W" "W1" "W2"
    (dim1 inputs) (_hidden_size self).

Definition uComp (env : VarEnv) (self : t) (state : Tensor) : result Tensor :=
  project env (scope self) state (_uRank self) "U" "U1" "U2"
    (_hidden_size self) (_hidden_size self).

Definition blend (env : VarEnv) (self : t) (state wComp uComp : Tensor)
    : result Tensor :=
  let h := _hidden_size self in
  rbind (tadd wComp uComp) (fun pre_comp =>
  rbind (tadd pre_comp (param env (scope self) "B_g" 1 h)) (fun pg =>
  let z := gen_non_linearity pg (_gate_non_linearity self) in
  rbind (tadd pre_comp (param env (scope self) "B_h" 1 h)) (fun pu =>
  let c := gen_non_linearity pu (_update_non_linearity self) in
  rbind (tmul z state) (fun zs =>
  rbind (tmul (math_ops.sigmoid (param env (scope self) "zeta" 1 1))
              (tmap (fun x => 1 - x) z)) (fun sz =>
  rbind (tadd sz (math_ops.sigmoid (param env (scope self) "nu" 1 1))) (fun g =>
  rbind (tmul g c) (fun gc =>
  tadd zs gc))))))).

Definition step_output (env : VarEnv) (self : t) (inputs state : Tensor)
    : result Tensor :=
  rbind (wComp env self inputs) (fun w =>
  rbind (uComp env self state) (fun u =>
  blend env self state w u)).

End FastGRNNStep.

Module FastRNNStep.
Import FastRNNCell.

Definition scope (self : t) : string := _name self ++ "/FastRNNcell".

Definition wComp (env : VarEnv) (self : t) (inputs : Tensor) : result Tensor :=
  project env (scope self) inputs (_wRank self) "W" "W1" "W2"
    (dim1 inputs) (_hidden_size self).

Definition uComp (env : VarEnv) (self : t) (state : Tensor) : result Tensor :=
  project env (scope self) state (_uRank self) "U" "U1" "U2"
    (_hidden_size self) (_hidden_size self).

Definition blend (env : VarEnv) (self : t) (state wComp uComp : Tensor)
    : result Tensor :=
  let h := _hidden_size self in
  rbind (tadd wComp uComp) (fun pre_comp =>
  rbind (tadd pre_comp (param env (scope self) "B_h" 1 h)) (fun pu =>
  let c := gen_non_linearity pu (_update_non_linearity self) in
  rbind (tmul (math_ops.sigmoid (param env (scope self) "beta" 1 1)) state)
        (fun bs =>
  rbind (tmul (math_ops.sigmoid (param env (scope self) "alpha" 1 1)) c)
        (fun ac =>
  tadd bs ac)))).

Definition step_output (env : VarEnv) (self : t) (inputs state : Tensor)
    : result Tensor :=
  rbind (wComp env self inputs) (fun w =>
  rbind (uComp env self state) (fun u =>
  blend env self state w u)).

End FastRNNStep.

(** The cell after a step that returned: its configuration as before,
    its attributes bound to the variables of its scope, in the order in
    which [call] binds them. *)
Definition FastGRNN_bound (env : VarEnv) (self : FastGRNNCell.t)
    (inputs : Tensor) : FastGRNNCell.t :=
  let V := scoped_var env (FastGRNNStep.scope self) in
  let h := FastGRNNCell._hidden_size self in
  let a := FastGRNNCell.attrs self in
  let a := match FastGRNNCell._wRank self with
           | None => setattr a "W" (V "W" (dim1 inputs) h)
           | Some r => setattr (setattr a "W1" (V "W1" (dim1 inputs) r))
                               "W2" (V "W2" r h)
           end in
  let a := match FastGRNNCell._uRank self with
           | None => setattr a "U" (V "U" h h)
           | Some r => setattr (setattr a "U1" (V "U1" h r)) "U2" (V "U2" r h)
           end in
  let a := setattr a "zeta" (V "zeta" 1 1)%nat in
  let a := setattr a "nu" (V "nu" 1 1)%nat in
  let a := setattr a "bias_gate" (V "B_g" 1%nat h) in
  let a := setattr a "bias_update" (V "B_h" 1%nat h) in
  FastGRNNCell.mk h (FastGRNNCell._gate_non_linearity self)
    (FastGRNNCell._update_non_linearity self)
    (FastGRNNCell._num_weight_matrices self)
    (FastGRNNCell._wRank self) (FastGRNNCell._uRank self)
    (FastGRNNCell._zetaInit self) (FastGRNNCell._nuInit self)
    (FastGRNNCell._name self) a.

Definition FastRNN_bound (env : VarEnv) (self : FastRNNCell.t)
    (inputs : Tensor) : FastRNNCell.t :=
  let V := scoped_var env (FastRNNStep.scope self) in
  let h := FastRNNCell._hidden_size self in
  let a := FastRNNCell.attrs self in
  let a := match FastRNNCell._wRank self with
           | None => setattr a "W" (V "W" (dim1 inputs) h)
           | Some r => setattr (setattr a "W1" (V "W1" (dim1 inputs) r))
                               "W2" (V "W2" r h)
           end in
  let a := match FastRNNCell._uRank self with
           | None => setattr a "U" (V "U" h h)
           | Some r => setattr (setattr a "U1" (V "U1" h r)) "U2" (V "U2" r h)
           end in
  let a := setattr a "alpha" (V "alpha" 1 1)%nat in
  let a := setattr a "beta" (V "beta" 1 1)%nat in
  let a := setattr a "bias_update" (V "B_h" 1%nat h) in
  FastRNNCell.mk h (FastRNNCell._update_non_linearity self)
    (FastRNNCell._num_weight_matrices self)
    (FastRNNCell._wRank self) (FastRNNCell._uRank self)
    (FastRNNCell._alphaInit self) (FastRNNCell._betaInit self)
    (FastRNNCell._name self) a.

(** Results that agree: the same exception, or tensors that are the
    same value. *)
Definition result_eq (r1 r2 : result Tensor) : Prop :=
  match r1, r2 with
  | Ok a, Ok b => tensor_eq a b
  | Raise e1, Raise e2 => e1 = e2
  | _, _ => False
  end.



(** A tensor of zeros, for concrete runs. *)
Definition zeros (d0 d1 : nat) : Tensor := mkTensor d0 d1 (fun _ _ => 0).

(** ** The lifecycle of the EMI wrappers

    [EMI_RNN] keeps, for every wrapper, whether the graph was created,
    the graph to restore from, the variables of the cell, the output
    tensor and the assign ops.  Tensors of a graph are known by name. *)

Module tfGraph.

(** [graph.get_tensor_by_name(name)] on a graph passed as an argument;
    [None] has no such method. *)
Definition get_tensor_by_name {S : Type} (graph : option Graph) (name : string)
    : M S string :=
  match graph with
  | None => lift (Raise AttributeError)
  | Some g =>
      if existsb (String.eqb name) (tensor_names g) then ret name
      else lift (Raise KeyError)
  end.

End tfGraph.

Module EMI_RNN.

Record t : Type := mk {
  graphCreated : bool;
  graph : option Graph;
  useDropout : bool;
  keep_prob : option string;
  varList : list string;
  output : option string;
  assignOps : list AssignOp;
  (* attributes of the FastRNN and FastGRNN wrappers *)
  wRank : option nat;
  uRank : option nat
}.

Definition set_keep_prob (v : string) : M t unit :=
  modify (fun s => mk (graphCreated s) (graph s) (useDropout s) (Some v)
                      (varList s) (output s) (assignOps s) (wRank s) (uRank s)).

Definition set_output (v : option string) : M t unit :=
  modify (fun s => mk (graphCreated s) (graph s) (useDropout s) (keep_prob s)
                      (varList s) v (assignOps s) (wRank s) (uRank s)).

Definition set_varList (v : list string) : M t unit :=
  modify (fun s => mk (graphCreated s) (graph s) (useDropout s) (keep_prob s)
                      v (output s) (assignOps s) (wRank s) (uRank s)).

Definition extend_varList (v : list string) : M t unit :=
  modify (fun s => mk (graphCreated s) (graph s) (useDropout s) (keep_prob s)
                      (varList s ++ v)%list (output s) (assignOps s)
                      (wRank s) (uRank s)).

Definition set_graphCreated (b : bool) : M t unit :=
  modify (fun s => mk b (graph s) (useDropout s) (keep_prob s)
                      (varList s) (output s) (assignOps s) (wRank s) (uRank s)).

Definition set_graph (g : option Graph) : M t unit :=
  modify (fun s => mk (graphCreated s) g (useDropout s) (keep_prob s)
                      (varList s) (output s) (assignOps s) (wRank s) (uRank s)).

Definition set_assignOps (ops : list AssignOp) : M t unit :=
  modify (fun s => mk (graphCreated s) (graph s) (useDropout s) (keep_prob s)
                      (varList s) (output s) ops (wRank s) (uRank s)).

(** The methods a wrapper supplies. *)
Record methods : Type := mk_methods {
  _restoreBaseGraph : option Graph -> M t unit;
  _restoreExtendedGraph : option Graph -> M t unit
}.

(** [restoreFromGraph(self, graph, *args)] *)
Definition restoreFromGraph (m : methods) (graph_arg : option Graph) : M t unit :=
  set_graphCreated false ;;;
  set_varList [] ;;;
  set_output None ;;;
  set_assignOps [] ;;;
  set_graph graph_arg ;;;
  self <- get_self ;;
  _restoreBaseGraph m (graph self) ;;;
  self <- get_self ;;
  assert (negb (graphCreated self)) ;;;
  self <- get_self ;;
  _restoreExtendedGraph m (graph self) ;;;
  self <- get_self ;;
  assert (graphCreated self).

(** The common opening of every [_restoreBaseGraph]: the two assertions,
    the dropout placeholder and the output tensor. *)
Definition restore_prelude (scope : string) (graph_arg : option Graph) : M t unit :=
  self <- get_self ;;
  assert (negb (graphCreated self)) ;;;
  assert (match graph self with Some _ => true | None => false end) ;;;
  (if useDropout self then
     kp <- tfGraph.get_tensor_by_name graph_arg (scope ++ "keep-prob:0") ;;
     set_keep_prob kp
   else ret tt) ;;;
  out <- tfGraph.get_tensor_by_name graph_arg (scope ++ "bag-output:0") ;;
  set_output (Some out).

(** [assert len(self.varList) is 0] *)
Definition assert_varList_empty : M t unit :=
  self <- get_self ;;
  assert (List.length (varList self) =? 0)%nat.

End EMI_RNN.

Module EMI_BasicLSTM_graph.
Import EMI_RNN.

Definition _scope : string := "EMI/BasicLSTM/".

Definition _restoreBaseGraph (graph_arg : option Graph) : M t unit :=
  restore_prelude _scope graph_arg ;;;
  kernel <- tfGraph.get_tensor_by_name graph_arg "rnn/EMI-LSTM-Cell/kernel:0" ;;
  bias <- tfGraph.get_tensor_by_name graph_arg "rnn/EMI-LSTM-Cell/bias:0" ;;
  assert_varList_empty ;;;
  set_varList [kernel; bias].

Definition getHyperParams : M t (list string) :=
  self <- get_self ;;
  assert (graphCreated self) ;;;
  assert (List.length (varList self) =? 2)%nat ;;;
  ret (varList self).

End EMI_BasicLSTM_graph.

Module EMI_GRU_graph.
Import EMI_RNN.

Definition _scope : string := "EMI/GRU/".

Definition _restoreBaseGraph (graph_arg : option Graph) : M t unit :=
  restore_prelude _scope graph_arg ;;;
  kernel1 <- tfGraph.get_tensor_by_name graph_arg "rnn/EMI-GRU-Cell/gates/kernel:0" ;;
  bias1 <- tfGraph.get_tensor_by_name graph_arg "rnn/EMI-GRU-Cell/gates/bias:0" ;;
  kernel2 <- tfGraph.get_tensor_by_name graph_arg "rnn/EMI-GRU-Cell/candidate/kernel:0" ;;
  bias2 <- tfGraph.get_tensor_by_name graph_arg "rnn/EMI-GRU-Cell/candidate/bias:0" ;;
  assert_varList_empty ;;;
  set_varList [kernel1; bias1; kernel2; bias2].

Definition getHyperParams : M t (list string) :=
  self <- get_self ;;
  assert (graphCreated self) ;;;
  assert (List.length (varList self) =? 4)%nat ;;;
  ret (varList self).

End EMI_GRU_graph.

Module EMI_UGRNN_graph.
Import EMI_RNN.

Definition _scope : string := "EMI/UGRNN/".

Definition _restoreBaseGraph (graph_arg : option Graph) : M t unit :=
  restore_prelude _scope graph_arg ;;;
  kernel <- tfGraph.get_tensor_by_name graph_arg "rnn/ugrnn_cell/kernel:0" ;;
  bias <- tfGraph.get_tensor_by_name graph_arg "rnn/ugrnn_cell/bias:0" ;;
  assert_varList_empty ;;;
  set_varList [kernel; bias].

Definition getHyperParams : M t (list string) :=
  self <- get_self ;;
  assert (graphCreated self) ;;;
  assert (List.length (varList self) =? 2)%nat ;;;
  ret (varList self).

End EMI_UGRNN_graph.

Module EMI_FastRNN_graph.
Import EMI_RNN.

Definition _scope : string := "EMI/FastRNN/".

Definition _restoreBaseGraph (graph_arg : option Graph) : M t unit :=
  restore_prelude _scope graph_arg ;;;
  assert_varList_empty ;;;
  self <- get_self ;;
  match wRank self with
  | None =>
      W <- tfGraph.get_tensor_by_name graph_arg (EMI_FastRNN.cell_scope ++ "W:0") ;;
      set_varList [W]
  | Some _ =>
      W1 <- tfGraph.get_tensor_by_name graph_arg (EMI_FastRNN.cell_scope ++ "W1:0") ;;
      W2 <- tfGraph.get_tensor_by_name graph_arg (EMI_FastRNN.cell_scope ++ "W2:0") ;;
      set_varList [W1; W2]
  end ;;;
  match uRank self with
  | None =>
      U <- tfGraph.get_tensor_by_name graph_arg (EMI_FastRNN.cell_scope ++ "U:0") ;;
      extend_varList [U]
  | Some _ =>
      U1 <- tfGraph.get_tensor_by_name graph_arg (EMI_FastRNN.cell_scope ++ "U1:0") ;;
      U2 <- tfGraph.get_tensor_by_name graph_arg (EMI_FastRNN.cell_scope ++ "U2:0") ;;
      extend_varList [U1; U2]
  end ;;;
  alpha <- tfGraph.get_tensor_by_name graph_arg (EMI_FastRNN.cell_scope ++ "alpha:0") ;;
  beta <- tfGraph.get_tensor_by_name graph_arg (EMI_FastRNN.cell_scope ++ "beta:0") ;;
  bias <- tfGraph.get_tensor_by_name graph_arg (EMI_FastRNN.cell_scope ++ "B_h:0") ;;
  extend_varList [alpha; beta; bias].

Definition getHyperParams : M t (list string) :=
  self <- get_self ;;
  assert (graphCreated self) ;;;
  ret (varList self).

End EMI_FastRNN_graph.

Module EMI_FastGRNN_graph.
Import EMI_RNN.

Definition _scope : string := "EMI/FastGRNN/".

Definition _restoreBaseGraph (graph_arg : option Graph) : M t unit :=
  restore_prelude _scope graph_arg ;;;
  assert_varList_empty ;;;
  self <- get_self ;;
  match wRank self with
  | None =>
      W <- tfGraph.get_tensor_by_name graph_arg (EMI_FastGRNN.cell_scope ++ "W:0") ;;
      set_varList [W]
  | Some _ =>
      W1 <- tfGraph.get_tensor_by_name graph_arg (EMI_FastGRNN.cell_scope ++ "W1:0") ;;
      W2 <- tfGraph.get_tensor_by_name graph_arg (EMI_FastGRNN.cell_scope ++ "W2:0") ;;
      set_varList [W1; W2]
  end ;;;
  match uRank self with
  | None =>
      U <- tfGraph.get_tensor_by_name graph_arg (EMI_FastGRNN.cell_scope ++ "U:0") ;;
      extend_varList [U]
  | Some _ =>
      U1 <- tfGraph.get_tensor_by_name graph_arg (EMI_FastGRNN.cell_scope ++ "U1:0") ;;
      U2 <- tfGraph.get_tensor_by_name graph_arg (EMI_FastGRNN.cell_scope ++ "U2:0") ;;
      extend_varList [U1; U2]
  end ;;;
  zeta <- tfGraph.get_tensor_by_name graph_arg (EMI_FastGRNN.cell_scope ++ "zeta:0") ;;
  nu <- tfGraph.get_tensor_by_name graph_arg (EMI_FastGRNN.cell_scope ++ "nu:0") ;;
  gate_bias <- tfGraph.get_tensor_by_name graph_arg (EMI_FastGRNN.cell_scope ++ "B_g:0") ;;
  update_bias <- tfGraph.get_tensor_by_name graph_arg (EMI_FastGRNN.cell_scope ++ "B_h:0") ;;
  extend_varList [zeta; nu; gate_bias; update_bias].

Definition getHyperParams : M t (list string) :=
  self <- get_self ;;
  assert (graphCreated self) ;;;
  ret (varList self).

End EMI_FastGRNN_graph.

(** The names of the cell's variables in the order in which the FastRNN
    and FastGRNN wrappers restore and assign them. *)
Definition weight_names (scope : string) (wRank uRank : option nat)
    : list string :=
  let w := match wRank with
           | None => [scope ++ "W:0"]
           | Some _ => [scope ++ "W1:0"; scope ++ "W2:0"]
           end in
  let u := match uRank with
           | None => [scope ++ "U:0"]
           | Some _ => [scope ++ "U1:0"; scope ++ "U2:0"]
           end in
  (w ++ u)%list.

(** The variables of the FastRNN and FastGRNN wrappers, in that order. *)
Definition EMI_FastRNN_names (wRank uRank : option nat) : list string :=
  let sc := EMI_FastRNN.cell_scope in
  let scalars := [sc ++ "alpha:0"; sc ++ "beta:0"; sc ++ "B_h:0"] in
  (weight_names sc wRank uRank ++ scalars)%list.

Definition EMI_FastGRNN_names (wRank uRank : option nat) : list string :=
  let sc := EMI_FastGRNN.cell_scope in
  let scalars := [sc ++ "zeta:0"; sc ++ "nu:0"; sc ++ "B_g:0"; sc ++ "B_h:0"] in
  (weight_names sc wRank uRank ++ scalars)%list.

(** The assign ops that pair the names with the tensors of a list,
    position by position. *)
Fixpoint assign_all (names : list string) (values : list Tensor)
    : list AssignOp :=
  match names, values with
  | n :: names', v :: values' => assign n v :: assign_all names' values'
  | _, _ => []
  end.

(** ** EMI_DataPipeline

    Of a restored graph the pipeline reads tensors and one operation by
    name, and two collections. *)

Record MetaGraph : Type := mkMetaGraph {
  mg_tensors : list string;
  mg_operations : list string;
  mg_collections : string -> list string
}.

(** The attribute [x_batch] (and [y_batch]): [None] at construction, the
    list a collection holds while the graph is restored, one tensor
    after. *)
Inductive batch_attr : Type :=
| BatchNone
| BatchList (l : list string)
| BatchTensor (x : string).

(** What building the input graph gives: the four placeholders, the
    initializer of the iterator and the two tensors of its next element. *)
Record pipeline_graph : Type := mkPipelineGraph {
  new_X : string;
  new_Y : string;
  new_batchSize : string;
  new_numEpochs : string;
  new_ds_init : string;
  new_x_batch : string;
  new_y_batch : string
}.

(** A numpy array, as far as [runInitializer] looks at it: its shape. *)
Record ndarray : Type := mkArray {
  nd_shape : list nat
}.

(** The call [sess.run(self.dataset_init, feed_dict=feed_dict)]. *)
Record session_run : Type := mkRun {
  run_op : string;
  feed_X : option string * ndarray;
  feed_Y : option string * ndarray;
  feed_batchSize : option string * nat;
  feed_numEpochs : option string * nat
}.

Module EMI_DataPipeline.

Record t : Type := mk {
  numSubinstance : nat;
  numTimesteps : nat;
  numFeats : nat;
  graph : option MetaGraph;
  prefetchNum : nat;
  numOutput : nat;
  graphCreated : bool;
  X : option string;
  Y : option string;
  batchSize : option string;
  numEpochs : option string;
  dataset_init : option string;
  x_batch : batch_attr;
  y_batch : batch_attr;
  scope : string
}.

Definition __init__ (numSubinstance numTimesteps numFeats numOutput : nat)
    (graph : option MetaGraph) (prefetchNum : nat) : t :=
  mk numSubinstance numTimesteps numFeats graph prefetchNum numOutput
     false None None None None None BatchNone BatchNone "EMI/".

Definition set_graphCreated (b : bool) : M t unit :=
  modify (fun s => mk (numSubinstance s) (numTimesteps s) (numFeats s) (graph s)
    (prefetchNum s) (numOutput s) b (X s) (Y s) (batchSize s) (numEpochs s)
    (dataset_init s) (x_batch s) (y_batch s) (scope s)).

Definition set_graph (g : option MetaGraph) : M t unit :=
  modify (fun s => mk (numSubinstance s) (numTimesteps s) (numFeats s) g
    (prefetchNum s) (numOutput s) (graphCreated s) (X s) (Y s) (batchSize s)
    (numEpochs s) (dataset_init s) (x_batch s) (y_batch s) (scope s)).

Definition set_X (v : string) : M t unit :=
  modify (fun s => mk (numSubinstance s) (numTimesteps s) (numFeats s) (graph s)
    (prefetchNum s) (numOutput s) (graphCreated s) (Some v) (Y s) (batchSize s)
    (numEpochs s) (dataset_init s) (x_batch s) (y_batch s) (scope s)).

Definition set_Y (v : string) : M t unit :=
  modify (fun s => mk (numSubinstance s) (numTimesteps s) (numFeats s) (graph s)
    (prefetchNum s) (numOutput s) (graphCreated s) (X s) (Some v) (batchSize s)
    (numEpochs s) (dataset_init s) (x_batch s) (y_batch s) (scope s)).

Definition set_batchSize (v : string) : M t unit :=
  modify (fun s => mk (numSubinstance s) (numTimesteps s) (numFeats s) (graph s)
    (prefetchNum s) (numOutput s) (graphCreated s) (X s) (Y s) (Some v)
    (numEpochs s) (dataset_init s) (x_batch s) (y_batch s) (scope s)).

Definition set_numEpochs (v : string) : M t unit :=
  modify (fun s => mk (numSubinstance s) (numTimesteps s) (numFeats s) (graph s)
    (prefetchNum s) (numOutput s) (graphCreated s) (X s) (Y s) (batchSize s)
    (Some v) (dataset_init s) (x_batch s) (y_batch s) (scope s)).

Definition set_dataset_init (v : string) : M t unit :=
  modify (fun s => mk (numSubinstance s) (numTimesteps s) (numFeats s) (graph s)
    (prefetchNum s) (numOutput s) (graphCreated s) (X s) (Y s) (batchSize s)
    (numEpochs s) (Some v) (x_batch s) (y_batch s) (scope s)).

Definition set_x_batch (v : batch_attr) : M t unit :=
  modify (fun s => mk (numSubinstance s) (numTimesteps s) (numFeats s) (graph s)
    (prefetchNum s) (numOutput s) (graphCreated s) (X s) (Y s) (batchSize s)
    (numEpochs s) (dataset_init s) v (y_batch s) (scope s)).

Definition set_y_batch (v : batch_attr) : M t unit :=
  modify (fun s => mk (numSubinstance s) (numTimesteps s) (numFeats s) (graph s)
    (prefetchNum s) (numOutput s) (graphCreated s) (X s) (Y s) (batchSize s)
    (numEpochs s) (dataset_init s) (x_batch s) v (scope s)).

(** Lookups in the graph passed as an argument; [None] has no such
    methods. *)
Definition get_tensor_by_name (g : option MetaGraph) (name : string) : M t string :=
  match g with
  | None => lift (Raise AttributeError)
  | Some g =>
      if existsb (String.eqb name) (mg_tensors g) then ret name
      else lift (Raise KeyError)
  end.

Definition get_operation_by_name (g : option MetaGraph) (name : string) : M t string :=
  match g with
  | None => lift (Raise AttributeError)
  | Some g =>
      if existsb (String.eqb name) (mg_operations g) then ret name
      else lift (Raise KeyError)
  end.

Definition get_collection (g : option MetaGraph) (name : string)
    : M t (list string) :=
  match g with
  | None => lift (Raise AttributeError)
  | Some g => ret (mg_collections g name)
  end.

(** [__createGraph]: the tensors are those the graph construction
    [built] gives. *)
Definition __createGraph (built : pipeline_graph) : M t unit :=
  self <- get_self ;;
  assert (negb (graphCreated self)) ;;;
  set_X (new_X built) ;;;
  set_Y (new_Y built) ;;;
  set_batchSize (new_batchSize built) ;;;
  set_numEpochs (new_numEpochs built) ;;;
  set_dataset_init (new_ds_init built) ;;;
  set_x_batch (BatchTensor (new_x_batch built)) ;;;
  set_y_batch (BatchTensor (new_y_batch built)) ;;;
  set_graphCreated true.

(** [len(self.x_batch)] and [self.x_batch[0]] on the attribute, which
    holds the list of the collection at that point. *)
Definition batch_list (b : batch_attr) : list string :=
  match b with
  | BatchList l => l
  | _ => []
  end.

Definition __restoreGraph (graph_arg : option MetaGraph) : M t unit :=
  self <- get_self ;;
  assert (negb (graphCreated self)) ;;;
  let scope := "EMI/input-pipeline/" in
  v <- get_tensor_by_name graph_arg (scope ++ "inpX:0") ;;
  set_X v ;;;
  v <- get_tensor_by_name graph_arg (scope ++ "inpY:0") ;;
  set_Y v ;;;
  v <- get_tensor_by_name graph_arg (scope ++ "batch-size:0") ;;
  set_batchSize v ;;;
  v <- get_tensor_by_name graph_arg (scope ++ "num-epochs:0") ;;
  set_numEpochs v ;;;
  v <- get_operation_by_name graph_arg (scope ++ "dataset-init") ;;
  set_dataset_init v ;;;
  l <- get_collection graph_arg "next-x-batch" ;;
  set_x_batch (BatchList l) ;;;
  l <- get_collection graph_arg "next-y-batch" ;;
  set_y_batch (BatchList l) ;;;
  self <- get_self ;;
  assert (List.length (batch_list (x_batch self)) =? 1)%nat ;;;
  assert (List.length (batch_list (y_batch self)) =? 1)%nat ;;;
  x0 <- lift (getitem (batch_list (x_batch self)) 0) ;;
  set_x_batch (BatchTensor x0) ;;;
  y0 <- lift (getitem (batch_list (y_batch self)) 0) ;;
  set_y_batch (BatchTensor y0) ;;;
  set_graphCreated true.

Definition __call__ (built : pipeline_graph) : M t (batch_attr * batch_attr) :=
  self <- get_self ;;
  if graphCreated self then ret (x_batch self, y_batch self)
  else
    match graph self with
    | None => __createGraph built
    | Some g => __restoreGraph (Some g)
    end ;;;
    self <- get_self ;;
    assert (graphCreated self) ;;;
    ret (x_batch self, y_batch self).

Definition restoreFromGraph (graph_arg : option MetaGraph) : M t unit :=
  set_graphCreated false ;;;
  set_graph graph_arg ;;;
  __restoreGraph graph_arg ;;;
  self <- get_self ;;
  assert (graphCreated self).

(** [a.shape[i]] on the shape tuple of an array. *)
Definition shape_at (a : ndarray) (i : nat) : M t nat :=
  lift (getitem (nd_shape a) i).

Definition runInitializer (x_data y_data : ndarray) (batchSize_arg numEpochs_arg : nat)
    : M t session_run :=
  self <- get_self ;;
  assert (graphCreated self) ;;;
  assert (List.length (nd_shape x_data) =? 4)%nat ;;;
  d <- shape_at x_data 1 ;;
  assert (d =? numSubinstance self)%nat ;;;
  d <- shape_at x_data 2 ;;
  assert (d =? numTimesteps self)%nat ;;;
  d <- shape_at x_data 3 ;;
  assert (d =? numFeats self)%nat ;;;
  dy <- shape_at y_data 0 ;;
  dx <- shape_at x_data 0 ;;
  assert (dy =? dx)%nat ;;;
  d <- shape_at y_data 1 ;;
  assert (d =? numSubinstance self)%nat ;;;
  d <- shape_at y_data 2 ;;
  assert (d =? numOutput self)%nat ;;;
  let feed_dict :=
    ((X self, x_data), (Y self, y_data),
     (batchSize self, batchSize_arg), (numEpochs self, numEpochs_arg)) in
  init <- assert_not_None (dataset_init self) ;;
  let '(fx, fy, fb, fe) := feed_dict in
  ret (mkRun init fx fy fb fe).

End EMI_DataPipeline.

(** A restored graph that holds, besides the variables of every cell,
    the output tensor and the dropout placeholder of every wrapper. *)
Definition checkpoint_graph : Graph :=
  mkGraph
    (tensor_names full_graph ++
     [ "EMI/BasicLSTM/bag-output:0"; "EMI/BasicLSTM/keep-prob:0";
       "EMI/GRU/bag-output:0"; "EMI/GRU/keep-prob:0";
       "EMI/FastRNN/bag-output:0"; "EMI/FastRNN/keep-prob:0";
       "EMI/UGRNN/bag-output:0"; "EMI/UGRNN/keep-prob:0";
       "EMI/FastGRNN/bag-output:0"; "EMI/FastGRNN/keep-prob:0" ])%list.

(** A wrapper as its constructor leaves it. *)
Definition EMI_fresh (graph : option Graph) (useDropout : bool)
    (wRank uRank : option nat) : EMI_RNN.t :=
  EMI_RNN.mk false graph useDropout None [] None [] wRank uRank.

(** The five wrappers of the module: what each supplies to [EMI_RNN], its
    scope, and the variables it restores for a rank configuration. *)
Record EMI_wrapper : Type := mk_wrapper {
  w_restoreBaseGraph : option Graph -> M EMI_RNN.t unit;
  w_getHyperParams : M EMI_RNN.t (list string);
  w_scope : string;
  w_names : option nat -> option nat -> list string
}.

Definition EMI_wrappers : list EMI_wrapper :=
  [ mk_wrapper EMI_BasicLSTM_graph._restoreBaseGraph
      EMI_BasicLSTM_graph.getHyperParams EMI_BasicLSTM_graph._scope
      (fun _ _ => ["rnn/EMI-LSTM-Cell/kernel:0"; "rnn/EMI-LSTM-Cell/bias:0"]);
    mk_wrapper EMI_GRU_graph._restoreBaseGraph
      EMI_GRU_graph.getHyperParams EMI_GRU_graph._scope
      (fun _ _ => ["rnn/EMI-GRU-Cell/gates/kernel:0";
                   "rnn/EMI-GRU-Cell/gates/bias:0";
                   "rnn/EMI-GRU-Cell/candidate/kernel:0";
                   "rnn/EMI-GRU-Cell/candidate/bias:0"]);
    mk_wrapper EMI_FastRNN_graph._restoreBaseGraph
      EMI_FastRNN_graph.getHyperParams EMI_FastRNN_graph._scope
      EMI_FastRNN_names;
    mk_wrapper EMI_UGRNN_graph._restoreBaseGraph
      EMI_UGRNN_graph.getHyperParams EMI_UGRNN_graph._scope
      (fun _ _ => ["rnn/ugrnn_cell/kernel:0"; "rnn/ugrnn_cell/bias:0"]);
    mk_wrapper EMI_FastGRNN_graph._restoreBaseGraph
      EMI_FastGRNN_graph.getHyperParams EMI_FastGRNN_graph._scope
      EMI_FastGRNN_names ].

(** The graph holds what a wrapper with the attributes of [self] looks
    up when it is restored. *)
Definition restorable (e : EMI_wrapper) (g : Graph) (self : EMI_RNN.t) : Prop :=
  (EMI_RNN.useDropout self = true ->
   In (w_scope e ++ "keep-prob:0") (tensor_names g)) /\
  In (w_scope e ++ "bag-output:0") (tensor_names g) /\
  incl (w_names e (EMI_RNN.wRank self) (EMI_RNN.uRank self)) (tensor_names g).

(** The wrapper [_restoreBaseGraph] leaves when it returns. *)
Definition restored_state (e : EMI_wrapper) (self : EMI_RNN.t) : EMI_RNN.t :=
  EMI_RNN.mk false (EMI_RNN.graph self) (EMI_RNN.useDropout self)
    (if EMI_RNN.useDropout self then Some (w_scope e ++ "keep-prob:0")
     else EMI_RNN.keep_prob self)
    (w_names e (EMI_RNN.wRank self) (EMI_RNN.uRank self))
    (Some (w_scope e ++ "bag-output:0")) (EMI_RNN.assignOps self)
    (EMI_RNN.wRank self) (EMI_RNN.uRank self).

(** The graph holds what the pipeline reads when it is restored: the four
    placeholders, the initializer, and one tensor in each collection. *)
Definition pipeline_restorable (g : MetaGraph) (x y : string) : Prop :=
  In "EMI/input-pipeline/inpX:0" (mg_tensors g) /\
  In "EMI/input-pipeline/inpY:0" (mg_tensors g) /\
  In "EMI/input-pipeline/batch-size:0" (mg_tensors g) /\
  In "EMI/input-pipeline/num-epochs:0" (mg_tensors g) /\
  In "EMI/input-pipeline/dataset-init" (mg_operations g) /\
  mg_collections g "next-x-batch" = [x] /\
  mg_collections g "next-y-batch" = [y].

(** The pipeline a restore from [g] leaves. *)
Definition pipeline_restored (self : EMI_DataPipeline.t) (g : MetaGraph)
    (x y : string) : EMI_DataPipeline.t :=
  EMI_DataPipeline.mk
    (EMI_DataPipeline.numSubinstance self) (EMI_DataPipeline.numTimesteps self)
    (EMI_DataPipeline.numFeats self) (Some g)
    (EMI_DataPipeline.prefetchNum self) (EMI_DataPipeline.numOutput self)
    true
    (Some "EMI/input-pipeline/inpX:0") (Some "EMI/input-pipeline/inpY:0")
    (Some "EMI/input-pipeline/batch-size:0")
    (Some "EMI/input-pipeline/num-epochs:0")
    (Some "EMI/input-pipeline/dataset-init")
    (BatchTensor x) (BatchTensor y) (EMI_DataPipeline.scope self).

(** A graph saved from a pipeline. *)
Definition saved_pipeline : MetaGraph :=
  mkMetaGraph
    [ "EMI/input-pipeline/inpX:0"; "EMI/input-pipeline/inpY:0";
      "EMI/input-pipeline/batch-size:0"; "EMI/input-pipeline/num-epochs:0";
      "EMI/input-pipeline/IteratorGetNext:0";
      "EMI/input-pipeline/IteratorGetNext:1" ]
    [ "EMI/input-pipeline/dataset-init" ]
    (fun c =>
       if c =? "next-x-batch" then ["EMI/input-pipeline/IteratorGetNext:0"]
       else if c =? "next-y-batch" then ["EMI/input-pipeline/IteratorGetNext:1"]
       else []).

(** The number of entries of a tensor, and of a list of variables: the
    number of trainable scalars. *)
Definition numel (t : Tensor) : nat := (dim0 t * dim1 t)%nat.

Definition parameter_count (Vars : list Var) : nat :=
  fold_right (fun v n => (numel (var_value v) + n)%nat) O Vars.

(** ** Properties *)

(** *** Tensor operations *)

Lemma bdim_same d : bdim d d = Ok d.
Proof. unfold bdim. now rewrite Nat.eqb_refl. Qed.

Lemma bdim_1_r d : bdim d 1 = Ok d.
Proof.
  unfold bdim. destruct (d =? 1)%nat eqn:E; [|reflexivity].
  apply Nat.eqb_eq in E. now subst.
Qed.

Lemma bdim_1_l d : bdim 1 d = Ok d.
Proof.
  unfold bdim. destruct (1 =? d)%nat eqn:E; [|reflexivity].
  apply Nat.eqb_eq in E. now subst.
Qed.

Lemma bidx_lt d i : (i < d)%nat -> bidx d i = i.
Proof.
  unfold bidx. destruct (d =? 1)%nat eqn:E; [|reflexivity].
  apply Nat.eqb_eq in E. lia.
Qed.

Lemma bidx_1 i : bidx 1 i = O.
Proof. reflexivity. Qed.

Lemma matmul_ok a b :
  dim1 a = dim0 b ->
  matmul a b =
  Ok (mkTensor (dim0 a) (dim1 b)
        (fun i j => sum_n (dim1 a) (fun k => val a i k * val b k j))).
Proof. intros H. unfold matmul. rewrite H, Nat.eqb_refl. reflexivity. Qed.

Lemma bcast2_ok f a b d0 d1 :
  bdim (dim0 a) (dim0 b) = Ok d0 ->
  bdim (dim1 a) (dim1 b) = Ok d1 ->
  bcast2 f a b =
  Ok (mkTensor d0 d1
        (fun i j => f (val a (bidx (dim0 a) i) (bidx (dim1 a) j))
                      (val b (bidx (dim0 b) i) (bidx (dim1 b) j)))).
Proof. intros H0 H1. unfold bcast2. now rewrite H0, H1. Qed.

(** *** [call] returns the step's tensor twice *)

Ltac run_call :=
  unfold bind, lift, ret, get_self, rbind; simpl;
  repeat match goal with
  | |- context [match ?r with Ok _ => _ | Raise _ => _ end] =>
      destruct r; simpl
  end.

Lemma FastGRNN_call_output env inputs state self :
  snd (FastGRNNCell.call env inputs state self) =
  rbind (FastGRNNStep.step_output env self inputs state)
        (fun new_h => Ok (new_h, new_h)).
Proof.
  destruct self as [h g u nwm wr ur ze nu n ats].
  unfold FastGRNNCell.call, FastGRNNStep.step_output, FastGRNNStep.wComp,
    FastGRNNStep.uComp, FastGRNNStep.blend, FastGRNNStep.scope, project, param,
    FastGRNNCell.set.
  destruct wr, ur; run_call; reflexivity.
Qed.

Lemma FastRNN_call_output env inputs state self :
  snd (FastRNNCell.call env inputs state self) =
  rbind (FastRNNStep.step_output env self inputs state)
        (fun new_h => Ok (new_h, new_h)).
Proof.
  destruct self as [h u nwm wr ur al be n ats].
  unfold FastRNNCell.call, FastRNNStep.step_output, FastRNNStep.wComp,
    FastRNNStep.uComp, FastRNNStep.blend, FastRNNStep.scope, project, param,
    FastRNNCell.set.
  destruct wr, ur; run_call; reflexivity.
Qed.

(** *** The attributes [call] leaves on the cell, and [getVars] *)

Ltac run_ok :=
  unfold bind, lift, ret, get_self; simpl;
  repeat match goal with
  | |- context [match ?r with Ok _ => _ | Raise _ => _ end] =>
      destruct r; simpl; [|discriminate]
  end.

Lemma FastGRNN_call_state env inputs state self out :
  snd (FastGRNNCell.call env inputs state self) = Ok out ->
  fst (FastGRNNCell.call env inputs state self) = FastGRNN_bound env self inputs.
Proof.
  destruct self as [h g u nwm wr ur ze nu n ats].
  unfold FastGRNNCell.call, FastGRNN_bound, FastGRNNStep.scope, FastGRNNCell.set.
  destruct wr, ur; run_ok; reflexivity.
Qed.

Lemma FastRNN_call_state env inputs state self out :
  snd (FastRNNCell.call env inputs state self) = Ok out ->
  fst (FastRNNCell.call env inputs state self) = FastRNN_bound env self inputs.
Proof.
  destruct self as [h u nwm wr ur al be n ats].
  unfold FastRNNCell.call, FastRNN_bound, FastRNNStep.scope, FastRNNCell.set.
  destruct wr, ur; run_ok; reflexivity.
Qed.

Lemma FastGRNN_getVars_bound h g u wRank uRank ze nu name env inputs :
  let self := FastGRNNCell.__init__ h g u wRank uRank ze nu name in
  let V := scoped_var env (name ++ "/FastGRNNcell") in
  FastGRNNCell.getVars (FastGRNN_bound env self inputs) =
  (FastGRNN_bound env self inputs,
   Ok ((match wRank with
        | None => [V "W" (dim1 inputs) h]
        | Some r => [V "W1" (dim1 inputs) r; V "W2" r h]
        end ++
        match uRank with
        | None => [V "U" h h]
        | Some r => [V "U1" h r; V "U2" r h]
        end ++
        [V "B_g" 1%nat h; V "B_h" 1%nat h] ++
        [V "zeta" 1%nat 1%nat; V "nu" 1%nat 1%nat])%list)).
Proof. destruct wRank, uRank; reflexivity. Qed.

Lemma FastRNN_getVars_bound h u wRank uRank al be name env inputs :
  let self := FastRNNCell.__init__ h u wRank uRank al be name in
  let V := scoped_var env (name ++ "/FastRNNcell") in
  FastRNNCell.getVars (FastRNN_bound env self inputs) =
  (FastRNN_bound env self inputs,
   Ok ((match wRank with
        | None => [V "W" (dim1 inputs) h]
        | Some r => [V "W1" (dim1 inputs) r; V "W2" r h]
        end ++
        match uRank with
        | None => [V "U" h h]
        | Some r => [V "U1" h r; V "U2" r h]
        end ++
        [V "B_h" 1%nat h] ++
        [V "alpha" 1%nat 1%nat; V "beta" 1%nat 1%nat])%list)).
Proof. destruct wRank, uRank; reflexivity. Qed.

(** Before any step the attributes are unbound: [getVars] raises. *)
Lemma FastRNN_getVars_unbound h u wRank uRank al be name :
  snd (FastRNNCell.getVars (FastRNNCell.__init__ h u wRank uRank al be name)) =
  Raise AttributeError.
Proof. destruct wRank, uRank; reflexivity. Qed.

Lemma num_weight_matrices_init h u wRank uRank al be name :
  FastRNNCell.num_weight_matrices
    (FastRNNCell.__init__ h u wRank uRank al be name) =
  [match wRank with Some _ => 2 | None => 1 end;
   match uRank with Some _ => 2 | None => 1 end]%nat.
Proof. destruct wRank, uRank; reflexivity. Qed.

(** *** The nonlinearity selector *)

Lemma gen_non_linearity_shape A name :
  dim0 (gen_non_linearity A name) = dim0 A /\
  dim1 (gen_non_linearity A name) = dim1 A.
Proof.
  unfold gen_non_linearity.
  repeat match goal with
  | |- context [if ?b then _ else _] => destruct b
  end; split; reflexivity.
Qed.

Lemma gen_non_linearity_val A name i j :
  val (gen_non_linearity A name) i j = unit_non_linearity name (val A i j).
Proof.
  unfold unit_non_linearity, gen_non_linearity.
  repeat match goal with
  | |- context [if ?b then _ else _] => destruct b
  end; reflexivity.
Qed.

Lemma unit_non_linearity_cases x :
  unit_non_linearity "tanh" x = Rtrigo_def.tanh x /\
  unit_non_linearity "sigmoid" x = sigmoid x /\
  unit_non_linearity "relu" x = Rmax x 0 /\
  unit_non_linearity "quantTanh" x = Rmax (Rmin x 1) (-1) /\
  unit_non_linearity "quantSigm" x = Rmax (Rmin ((x + 1) / 2) 1) 0.
Proof. repeat split. Qed.

(** C5: for every tensor [A] and every entry of it, the selector with the
    name "quantTanh" returns [clip x (-1) 1] of the entry [x], and with
    the name "quantSigm" it returns [clip ((x + 1) / 2) 0 1]; both keep
    the shape of [A]. *)
Theorem quant_non_linearity_is_clip :
  forall (A : Tensor) (i j : nat),
    shape (gen_non_linearity A "quantTanh") = shape A /\
    val (gen_non_linearity A "quantTanh") i j = clip (val A i j) (-1) 1 /\
    shape (gen_non_linearity A "quantSigm") = shape A /\
    val (gen_non_linearity A "quantSigm") i j = clip ((val A i j + 1) / 2) 0 1.
Proof.
  intros A i j. repeat split; try reflexivity; simpl; unfold clip, Rmax, Rmin.
  - destruct (Rle_dec (val A i j) 1);
      destruct (Rle_dec _ (-1)); destruct (Rlt_dec (val A i j) (-1));
      destruct (Rlt_dec 1 (val A i j)); lra.
  - destruct (Rle_dec ((val A i j + 1) / 2) 1);
      destruct (Rle_dec _ 0); destruct (Rlt_dec ((val A i j + 1) / 2) 0);
      destruct (Rlt_dec 1 ((val A i j + 1) / 2)); lra.
Qed.

(** C8: for every name outside "tanh", "sigmoid", "relu", "quantTanh" and
    "quantSigm" and every tensor [A], the selector returns [tanh A]: it is
    a total function and the unrecognised name is not an error. *)
Theorem gen_non_linearity_unrecognized :
  forall (A : Tensor) (name : string),
    ~ In name ["tanh"; "sigmoid"; "relu"; "quantTanh"; "quantSigm"] ->
    gen_non_linearity A name = math_ops.tanh A.
Proof.
  intros A name H. unfold gen_non_linearity.
  repeat match goal with
  | |- context [(name =? ?s)%string] =>
      destruct (String.eqb_spec name s) as [->|_];
      [exfalso; apply H; simpl; tauto|]
  end.
  reflexivity.
Qed.

Lemma gen_non_linearity_unrecognized_witness :
  gen_non_linearity (zeros 2 3) "softmax" = math_ops.tanh (zeros 2 3).
Proof.
  apply (gen_non_linearity_unrecognized (zeros 2 3) "softmax").
  simpl. intros H.
  repeat match goal with
  | H : _ \/ _ |- _ => destruct H as [H|H]; [discriminate H|]
  end.
  exact H.
Defined.

Lemma project_shape env scope x rank full f1 f2 inner out :
  dim1 x = inner ->
  exists t,
    project env scope x rank full f1 f2 inner out = Ok t /\
    dim0 t = dim0 x /\ dim1 t = out.
Proof.
  intros H. unfold project, param. destruct rank as [r|].
  - rewrite (matmul_ok x) by (simpl; assumption). simpl rbind.
    rewrite matmul_ok by reflexivity. eexists; repeat split.
  - rewrite matmul_ok by (simpl; assumption). eexists; repeat split.
Qed.

Lemma gen_non_linearity_dim0 A name : dim0 (gen_non_linearity A name) = dim0 A.
Proof. apply gen_non_linearity_shape. Qed.

Lemma gen_non_linearity_dim1 A name : dim1 (gen_non_linearity A name) = dim1 A.
Proof. apply gen_non_linearity_shape. Qed.

Lemma bcast2_spec f a b d0 d1 :
  bdim (dim0 a) (dim0 b) = Ok d0 ->
  bdim (dim1 a) (dim1 b) = Ok d1 ->
  exists t,
    bcast2 f a b = Ok t /\ dim0 t = d0 /\ dim1 t = d1 /\
    forall i j,
      val t i j = f (val a (bidx (dim0 a) i) (bidx (dim1 a) j))
                    (val b (bidx (dim0 b) i) (bidx (dim1 b) j)).
Proof.
  intros H0 H1. rewrite (bcast2_ok f a b d0 d1 H0 H1).
  eexists; repeat split.
Qed.

Ltac solve_bdim :=
  simpl; rewrite ?gen_non_linearity_dim0, ?gen_non_linearity_dim1; simpl;
  repeat match goal with H : dim0 _ = _ |- _ => rewrite H end;
  repeat match goal with H : dim1 _ = _ |- _ => rewrite H end;
  auto using bdim_same, bdim_1_r, bdim_1_l.

Tactic Notation "bcast_intro" constr(f) constr(a) constr(b) constr(d0) constr(d1) ident(t) :=
  let E := fresh "E" t in
  let D0 := fresh "D0" t in
  let D1 := fresh "D1" t in
  let V := fresh "V" t in
  destruct (bcast2_spec f a b d0 d1) as (t & E & D0 & D1 & V);
  [solve_bdim | solve_bdim |].

Lemma FastRNN_blend_spec env self state w u b :
  let h := FastRNNCell._hidden_size self in
  let P := fun name => env (FastRNNStep.scope self ++ "/" ++ name) in
  dim0 w = b -> dim1 w = h -> dim0 u = b -> dim1 u = h ->
  dim0 state = b -> dim1 state = h ->
  exists pre_comp pu new_h,
    tadd w u = Ok pre_comp /\
    tadd pre_comp (param env (FastRNNStep.scope self) "B_h" 1 h) = Ok pu /\
    FastRNNStep.blend env self state w u = Ok new_h /\
    shape pu = (b, h) /\ shape new_h = (b, h) /\
    forall i j, (i < b)%nat -> (j < h)%nat ->
      let c := val (gen_non_linearity pu (FastRNNCell._update_non_linearity self)) i j in
      c = unit_non_linearity (FastRNNCell._update_non_linearity self)
            (val w i j + val u i j + P "B_h" O j) /\
      val new_h i j =
      sigmoid (P "beta" O O) * val state i j + sigmoid (P "alpha" O O) * c.
Proof.
  intros h P Hw0 Hw1 Hu0 Hu1 Hs0 Hs1.
  set (sc := FastRNNStep.scope self) in *.
  set (nl := FastRNNCell._update_non_linearity self).
  bcast_intro Rplus w u b h pre.
  bcast_intro Rplus pre (param env sc "B_h" 1 h) b h pu.
  bcast_intro Rmult (math_ops.sigmoid (param env sc "beta" 1 1)) state b h bs.
  bcast_intro Rmult (math_ops.sigmoid (param env sc "alpha" 1 1))
    (gen_non_linearity pu nl) b h ac.
  bcast_intro Rplus bs ac b h new_h.
  exists pre, pu, new_h.
  unfold FastRNNStep.blend, tadd, tmul. fold h sc nl.
  rewrite Epre. simpl rbind. rewrite Epu. simpl rbind.
  rewrite Ebs. simpl rbind. rewrite Eac. simpl rbind.
  repeat (split; [first [assumption | unfold shape; congruence]|]).
  intros i j Hi Hj.
  assert (Hc : val (gen_non_linearity pu nl) i j =
               unit_non_linearity nl (val w i j + val u i j + P "B_h" O j)).
  { rewrite gen_non_linearity_val, Vpu, Vpre. simpl.
    rewrite D0pre, D1pre, Hw0, Hw1, Hu0, Hu1.
    rewrite !(bidx_lt b i), !(bidx_lt h j) by assumption. reflexivity. }
  split; [exact Hc|].
  rewrite Vnew_h, Vbs, Vac. simpl.
  rewrite ?gen_non_linearity_dim0, ?gen_non_linearity_dim1.
  rewrite D0bs, D1bs, D0ac, D1ac, D0pu, D1pu, Hs0, Hs1.
  rewrite !(bidx_lt b i), !(bidx_lt h j) by assumption.
  rewrite Hc. reflexivity.
Qed.

Lemma FastGRNN_blend_spec env self state w u b :
  let h := FastGRNNCell._hidden_size self in
  let P := fun name => env (FastGRNNStep.scope self ++ "/" ++ name) in
  dim0 w = b -> dim1 w = h -> dim0 u = b -> dim1 u = h ->
  dim0 state = b -> dim1 state = h ->
  exists pre_comp pg pu new_h,
    tadd w u = Ok pre_comp /\
    tadd pre_comp (param env (FastGRNNStep.scope self) "B_g" 1 h) = Ok pg /\
    tadd pre_comp (param env (FastGRNNStep.scope self) "B_h" 1 h) = Ok pu /\
    FastGRNNStep.blend env self state w u = Ok new_h /\
    shape pg = (b, h) /\ shape pu = (b, h) /\ shape new_h = (b, h) /\
    forall i j, (i < b)%nat -> (j < h)%nat ->
      let z := val (gen_non_linearity pg (FastGRNNCell._gate_non_linearity self)) i j in
      let c := val (gen_non_linearity pu (FastGRNNCell._update_non_linearity self)) i j in
      z = unit_non_linearity (FastGRNNCell._gate_non_linearity self)
            (val w i j + val u i j + P "B_g" O j) /\
      c = unit_non_linearity (FastGRNNCell._update_non_linearity self)
            (val w i j + val u i j + P "B_h" O j) /\
      val new_h i j =
      z * val state i j +
      (sigmoid (P "zeta" O O) * (1 - z) + sigmoid (P "nu" O O)) * c.
Proof.
  intros h P Hw0 Hw1 Hu0 Hu1 Hs0 Hs1.
  set (sc := FastGRNNStep.scope self) in *.
  set (gnl := FastGRNNCell._gate_non_linearity self).
  set (unl := FastGRNNCell._update_non_linearity self).
  bcast_intro Rplus w u b h pre.
  bcast_intro Rplus pre (param env sc "B_g" 1 h) b h pg.
  bcast_intro Rplus pre (param env sc "B_h" 1 h) b h pu.
  bcast_intro Rmult (gen_non_linearity pg gnl) state b h zs.
  bcast_intro Rmult (math_ops.sigmoid (param env sc "zeta" 1 1))
    (tmap (fun x => 1 - x) (gen_non_linearity pg gnl)) b h sz.
  bcast_intro Rplus sz (math_ops.sigmoid (param env sc "nu" 1 1)) b h g.
  bcast_intro Rmult g (gen_non_linearity pu unl) b h gc.
  bcast_intro Rplus zs gc b h new_h.
  exists pre, pg, pu, new_h.
  unfold FastGRNNStep.blend, tadd, tmul. fold h sc gnl unl.
  rewrite Epre. simpl rbind. rewrite Epg. simpl rbind.
  rewrite Epu. simpl rbind. rewrite Ezs. simpl rbind.
  rewrite Esz. simpl rbind. rewrite Eg. simpl rbind.
  rewrite Egc. simpl rbind.
  repeat (split; [first [assumption | unfold shape; congruence]|]).
  intros i j Hi Hj.
  assert (Hz : val (gen_non_linearity pg gnl) i j =
               unit_non_linearity gnl (val w i j + val u i j + P "B_g" O j)).
  { rewrite gen_non_linearity_val, Vpg, Vpre. simpl.
    rewrite D0pre, D1pre, Hw0, Hw1, Hu0, Hu1.
    rewrite !(bidx_lt b i), !(bidx_lt h j) by assumption. reflexivity. }
  assert (Hc : val (gen_non_linearity pu unl) i j =
               unit_non_linearity unl (val w i j + val u i j + P "B_h" O j)).
  { rewrite gen_non_linearity_val, Vpu, Vpre. simpl.
    rewrite D0pre, D1pre, Hw0, Hw1, Hu0, Hu1.
    rewrite !(bidx_lt b i), !(bidx_lt h j) by assumption. reflexivity. }
  split; [exact Hz|]. split; [exact Hc|].
  rewrite Vnew_h, Vzs, Vgc, Vg, Vsz. simpl.
  rewrite ?gen_non_linearity_dim0, ?gen_non_linearity_dim1.
  rewrite D0zs, D1zs, D0gc, D1gc, D0g, D1g, D0sz, D1sz, D0pg, D1pg, D0pu, D1pu,
    Hs0, Hs1.
  rewrite !(bidx_lt b i), !(bidx_lt h j) by assumption.
  rewrite Hz, Hc. reflexivity.
Qed.

(** *** Tensors that are the same value *)

Lemma tensor_eq_refl a : tensor_eq a a.
Proof. repeat split. Qed.

Lemma tensor_eq_sym a b : tensor_eq a b -> tensor_eq b a.
Proof.
  intros (H0 & H1 & H). repeat split; try congruence.
  intros i j Hi Hj. symmetry. apply H; congruence.
Qed.


Lemma result_eq_refl r : result_eq r r.
Proof. destruct r; simpl; [apply tensor_eq_refl | reflexivity]. Qed.








(** *** Sums and the product of three matrices *)

Lemma sum_n_ext n f g :
  (forall k, (k < n)%nat -> f k = g k) -> sum_n n f = sum_n n g.
Proof.
  induction n as [|n IH]; intros H; simpl; [reflexivity|].
  rewrite IH by (intros k Hk; apply H; lia).
  rewrite H by lia. reflexivity.
Qed.







Lemma matmul_congr_l x x' w :
  tensor_eq x x' -> result_eq (matmul x w) (matmul x' w).
Proof.
  intros (H0 & H1 & H). unfold matmul. rewrite <- H1.
  destruct (dim1 x =? dim0 w)%nat eqn:E; [|reflexivity].
  simpl. repeat split; simpl; try assumption.
  intros i j Hi Hj. apply sum_n_ext. intros k Hk.
  rewrite H by lia. reflexivity.
Qed.


(** *** Low-rank and full-rank projections *)







(** *** One step of each cell on well-shaped arguments *)

Lemma FastGRNN_step_spec env self inputs state b :
  let h := FastGRNNCell._hidden_size self in
  let sc := FastGRNNStep.scope self in
  let P := fun name => env (sc ++ "/" ++ name) in
  dim0 inputs = b -> dim0 state = b -> dim1 state = h ->
  exists wComp uComp pre_comp pg pu new_h,
    FastGRNNStep.wComp env self inputs = Ok wComp /\
    FastGRNNStep.uComp env self state = Ok uComp /\
    tadd wComp uComp = Ok pre_comp /\
    tadd pre_comp (param env sc "B_g" 1 h) = Ok pg /\
    tadd pre_comp (param env sc "B_h" 1 h) = Ok pu /\
    FastGRNNStep.step_output env self inputs state = Ok new_h /\
    shape pg = (b, h) /\ shape pu = (b, h) /\ shape new_h = (b, h) /\
    forall i j, (i < b)%nat -> (j < h)%nat ->
      let z := val (gen_non_linearity pg (FastGRNNCell._gate_non_linearity self)) i j in
      let c := val (gen_non_linearity pu (FastGRNNCell._update_non_linearity self)) i j in
      z = unit_non_linearity (FastGRNNCell._gate_non_linearity self)
            (val wComp i j + val uComp i j + P "B_g" O j) /\
      c = unit_non_linearity (FastGRNNCell._update_non_linearity self)
            (val wComp i j + val uComp i j + P "B_h" O j) /\
      val new_h i j =
      z * val state i j +
      (sigmoid (P "zeta" O O) * (1 - z) + sigmoid (P "nu" O O)) * c.
Proof.
  intros h sc P Hi0 Hs0 Hs1.
  destruct (project_shape env sc inputs (FastGRNNCell._wRank self)
              "W" "W1" "W2" (dim1 inputs) h eq_refl) as (w & Ew & Dw0 & Dw1).
  destruct (project_shape env sc state (FastGRNNCell._uRank self)
              "U" "U1" "U2" h h Hs1) as (u & Eu & Du0 & Du1).
  assert (Hw0 : dim0 w = b) by congruence.
  assert (Hu0 : dim0 u = b) by congruence.
  destruct (FastGRNN_blend_spec env self state w u b Hw0 Dw1 Hu0 Du1 Hs0 Hs1)
    as (pre & pg & pu & new_h & E1 & E2 & E3 & E4 & S1 & S2 & S3 & V).
  exists w, u, pre, pg, pu, new_h.
  unfold FastGRNNStep.step_output, FastGRNNStep.wComp, FastGRNNStep.uComp.
  fold h sc. rewrite Ew, Eu. simpl rbind.
  repeat (split; [first [reflexivity | assumption]|]). exact V.
Qed.

Lemma FastRNN_step_spec env self inputs state b :
  let h := FastRNNCell._hidden_size self in
  let sc := FastRNNStep.scope self in
  let P := fun name => env (sc ++ "/" ++ name) in
  dim0 inputs = b -> dim0 state = b -> dim1 state = h ->
  exists wComp uComp pre_comp pu new_h,
    FastRNNStep.wComp env self inputs = Ok wComp /\
    FastRNNStep.uComp env self state = Ok uComp /\
    tadd wComp uComp = Ok pre_comp /\
    tadd pre_comp (param env sc "B_h" 1 h) = Ok pu /\
    FastRNNStep.step_output env self inputs state = Ok new_h /\
    shape pu = (b, h) /\ shape new_h = (b, h) /\
    forall i j, (i < b)%nat -> (j < h)%nat ->
      let c := val (gen_non_linearity pu (FastRNNCell._update_non_linearity self)) i j in
      c = unit_non_linearity (FastRNNCell._update_non_linearity self)
            (val wComp i j + val uComp i j + P "B_h" O j) /\
      val new_h i j =
      sigmoid (P "beta" O O) * val state i j + sigmoid (P "alpha" O O) * c.
Proof.
  intros h sc P Hi0 Hs0 Hs1.
  destruct (project_shape env sc inputs (FastRNNCell._wRank self)
              "W" "W1" "W2" (dim1 inputs) h eq_refl) as (w & Ew & Dw0 & Dw1).
  destruct (project_shape env sc state (FastRNNCell._uRank self)
              "U" "U1" "U2" h h Hs1) as (u & Eu & Du0 & Du1).
  assert (Hw0 : dim0 w = b) by congruence.
  assert (Hu0 : dim0 u = b) by congruence.
  destruct (FastRNN_blend_spec env self state w u b Hw0 Dw1 Hu0 Du1 Hs0 Hs1)
    as (pre & pu & new_h & E1 & E2 & E3 & S1 & S2 & V).
  exists w, u, pre, pu, new_h.
  unfold FastRNNStep.step_output, FastRNNStep.wComp, FastRNNStep.uComp.
  fold h sc. rewrite Ew, Eu. simpl rbind.
  repeat (split; [first [reflexivity | assumption]|]). exact V.
Qed.

(** A step on well-shaped arguments returns. *)
Lemma FastGRNN_call_ok env self inputs state :
  dim0 state = dim0 inputs -> dim1 state = FastGRNNCell._hidden_size self ->
  exists new_h, snd (FastGRNNCell.call env inputs state self) = Ok (new_h, new_h).
Proof.
  intros H0 H1.
  destruct (FastGRNN_step_spec env self inputs state (dim0 inputs) eq_refl H0 H1)
    as (w & u & pre & pg & pu & new_h & _ & _ & _ & _ & _ & E & _).
  exists new_h. rewrite FastGRNN_call_output, E. reflexivity.
Qed.

Lemma FastRNN_call_ok env self inputs state :
  dim0 state = dim0 inputs -> dim1 state = FastRNNCell._hidden_size self ->
  exists new_h, snd (FastRNNCell.call env inputs state self) = Ok (new_h, new_h).
Proof.
  intros H0 H1.
  destruct (FastRNN_step_spec env self inputs state (dim0 inputs) eq_refl H0 H1)
    as (w & u & pre & pu & new_h & _ & _ & _ & _ & E & _).
  exists new_h. rewrite FastRNN_call_output, E. reflexivity.
Qed.

Lemma shape_inv t d0 d1 : shape t = (d0, d1) -> dim0 t = d0 /\ dim1 t = d1.
Proof. unfold shape. intros H. inversion H. split; reflexivity. Qed.

Lemma call_pair {S A : Type} (c : M S A) (s s' : S) (r : result A) :
  fst (c s) = s' -> snd (c s) = r -> c s = (s', r).
Proof. destruct (c s). simpl. congruence. Qed.

(** *** The claims on the cells *)

(** C1: on inputs of shape [batch, inputDim] and a state of shape
    [batch, hiddenSize], one step of FastGRNNCell.call computes
    preComp = wComp + uComp, the gate z = gateNonlinearity(preComp +
    biasGate), which has the shape [batch, hiddenSize] of the state and
    is no scalar, the candidate c = updateNonlinearity(preComp +
    biasUpdate), and returns, as output and as new state alike, the tensor
    whose entries are z * state + (sigmoid(zeta) * (1 - z) + sigmoid(nu)) * c. *)
Theorem FastGRNN_call_formula :
  forall env self inputs state batch inputDim,
    let h := FastGRNNCell._hidden_size self in
    let sc := FastGRNNStep.scope self in
    let zeta := env (sc ++ "/" ++ "zeta") O O in
    let nu := env (sc ++ "/" ++ "nu") O O in
    shape inputs = (batch, inputDim) ->
    shape state = (batch, h) ->
    exists wComp uComp preComp pg pu newState,
      FastGRNNStep.wComp env self inputs = Ok wComp /\
      FastGRNNStep.uComp env self state = Ok uComp /\
      tadd wComp uComp = Ok preComp /\
      tadd preComp (param env sc "B_g" 1 h) = Ok pg /\
      tadd preComp (param env sc "B_h" 1 h) = Ok pu /\
      let z := gen_non_linearity pg (FastGRNNCell._gate_non_linearity self) in
      let c := gen_non_linearity pu (FastGRNNCell._update_non_linearity self) in
      shape z = (batch, h) /\ shape c = (batch, h) /\
      FastGRNNCell.call env inputs state self =
        (FastGRNN_bound env self inputs, Ok (newState, newState)) /\
      shape newState = (batch, h) /\
      forall i j, (i < batch)%nat -> (j < h)%nat ->
        val newState i j =
        val z i j * val state i j +
        (sigmoid zeta * (1 - val z i j) + sigmoid nu) * val c i j.
Proof.
  intros env self inputs state batch inputDim h sc zeta nu Hi Hs.
  apply shape_inv in Hi, Hs. destruct Hi as (Hi0 & _), Hs as (Hs0 & Hs1).
  destruct (FastGRNN_step_spec env self inputs state batch Hi0 Hs0 Hs1)
    as (w & u & pre & pg & pu & new_h &
        Ew & Eu & E1 & E2 & E3 & E4 & S1 & S2 & S3 & V).
  exists w, u, pre, pg, pu, new_h.
  assert (Hout : snd (FastGRNNCell.call env inputs state self) = Ok (new_h, new_h)).
  { rewrite FastGRNN_call_output, E4. reflexivity. }
  repeat (split; [assumption|]).
  apply shape_inv in S1, S2.
  split; [unfold shape; rewrite gen_non_linearity_dim0, gen_non_linearity_dim1;
          f_equal; tauto|].
  split; [unfold shape; rewrite gen_non_linearity_dim0, gen_non_linearity_dim1;
          f_equal; tauto|].
  split.
  { apply call_pair; [|exact Hout]. eapply FastGRNN_call_state. exact Hout. }
  split; [assumption|].
  intros i j Hi Hj. apply (V i j Hi Hj).
Qed.

Lemma FastGRNN_call_formula_witness :
  exists newState,
    FastGRNNCell.call (fun _ _ _ => 0) (zeros 3 4) (zeros 3 2)
      (FastGRNNCell.__init__ 2 "sigmoid" "tanh" None (Some 1%nat) 1 (-4) "FastGRNN")
    = (FastGRNN_bound (fun _ _ _ => 0)
         (FastGRNNCell.__init__ 2 "sigmoid" "tanh" None (Some 1%nat) 1 (-4) "FastGRNN")
         (zeros 3 4),
       Ok (newState, newState)) /\
    shape newState = (3, 2)%nat.
Proof.
  destruct (FastGRNN_call_formula (fun _ _ _ => 0)
              (FastGRNNCell.__init__ 2 "sigmoid" "tanh" None (Some 1%nat) 1 (-4) "FastGRNN")
              (zeros 3 4) (zeros 3 2) 3%nat 4%nat eq_refl eq_refl)
    as (w & u & pre & pg & pu & new_h & _ & _ & _ & _ & _ & _ & _ & E & S & _).
  exists new_h. split; assumption.
Defined.

(** C2: on inputs and a previous state of matching shapes, one step of
    FastRNNCell.call returns, as output and as new state alike, the tensor
    whose entries are sigmoid(beta) * prevState + sigmoid(alpha) *
    candidate, where candidate = updateNonlinearity(wComp + uComp +
    biasUpdate) and sigmoid(beta), sigmoid(alpha) are the same two scalars
    at every entry. *)
Theorem FastRNN_call_formula :
  forall env self inputs state batch inputDim,
    let h := FastRNNCell._hidden_size self in
    let sc := FastRNNStep.scope self in
    let alpha := env (sc ++ "/" ++ "alpha") O O in
    let beta := env (sc ++ "/" ++ "beta") O O in
    shape inputs = (batch, inputDim) ->
    shape state = (batch, h) ->
    exists wComp uComp preComp pu newState,
      FastRNNStep.wComp env self inputs = Ok wComp /\
      FastRNNStep.uComp env self state = Ok uComp /\
      tadd wComp uComp = Ok preComp /\
      tadd preComp (param env sc "B_h" 1 h) = Ok pu /\
      let candidate :=
        gen_non_linearity pu (FastRNNCell._update_non_linearity self) in
      FastRNNCell.call env inputs state self =
        (FastRNN_bound env self inputs, Ok (newState, newState)) /\
      shape newState = (batch, h) /\
      forall i j, (i < batch)%nat -> (j < h)%nat ->
        val candidate i j =
          unit_non_linearity (FastRNNCell._update_non_linearity self)
            (val wComp i j + val uComp i j + env (sc ++ "/" ++ "B_h") O j) /\
        val newState i j =
          sigmoid beta * val state i j + sigmoid alpha * val candidate i j.
Proof.
  intros env self inputs state batch inputDim h sc alpha beta Hi Hs.
  apply shape_inv in Hi, Hs. destruct Hi as (Hi0 & _), Hs as (Hs0 & Hs1).
  destruct (FastRNN_step_spec env self inputs state batch Hi0 Hs0 Hs1)
    as (w & u & pre & pu & new_h & Ew & Eu & E1 & E2 & E3 & S1 & S2 & V).
  exists w, u, pre, pu, new_h.
  assert (Hout : snd (FastRNNCell.call env inputs state self) = Ok (new_h, new_h)).
  { rewrite FastRNN_call_output, E3. reflexivity. }
  repeat (split; [assumption|]).
  split.
  { apply call_pair; [|exact Hout]. eapply FastRNN_call_state. exact Hout. }
  split; [assumption|].
  intros i j Hi Hj. apply (V i j Hi Hj).
Qed.

Lemma FastRNN_call_formula_witness :
  exists newState,
    FastRNNCell.call (fun _ _ _ => 0) (zeros 3 4) (zeros 3 2)
      (FastRNNCell.__init__ 2 "tanh" (Some 1%nat) None (-3) 3 "FastRNN")
    = (FastRNN_bound (fun _ _ _ => 0)
         (FastRNNCell.__init__ 2 "tanh" (Some 1%nat) None (-3) 3 "FastRNN")
         (zeros 3 4),
       Ok (newState, newState)) /\
    shape newState = (3, 2)%nat.
Proof.
  destruct (FastRNN_call_formula (fun _ _ _ => 0)
              (FastRNNCell.__init__ 2 "tanh" (Some 1%nat) None (-3) 3 "FastRNN")
              (zeros 3 4) (zeros 3 2) 3%nat 4%nat eq_refl eq_refl)
    as (w & u & pre & pu & new_h & _ & _ & _ & _ & E & S & _).
  exists new_h. split; assumption.
Defined.

(** C7: for every batch, inputDim and hiddenSize and every setting of
    wRank and uRank, one step of FastRNNCell on inputs of shape [batch,
    inputDim] and a state of shape [batch, hiddenSize] returns an output
    of shape [batch, hiddenSize]. *)
Theorem FastRNN_output_shape :
  forall env hiddenSize update_non_linearity wRank uRank alphaInit betaInit name
         inputs state batch inputDim,
    shape inputs = (batch, inputDim) ->
    shape state = (batch, hiddenSize) ->
    exists output new_state,
      snd (FastRNNCell.call env inputs state
             (FastRNNCell.__init__ hiddenSize update_non_linearity wRank uRank
                alphaInit betaInit name))
      = Ok (output, new_state) /\
      shape output = (batch, hiddenSize).
Proof.
  intros env hiddenSize unl wRank uRank al be name inputs state batch inputDim Hi Hs.
  apply shape_inv in Hi, Hs. destruct Hi as (Hi0 & _), Hs as (Hs0 & Hs1).
  set (self := FastRNNCell.__init__ hiddenSize unl wRank uRank al be name).
  destruct (FastRNN_step_spec env self inputs state batch Hi0 Hs0 Hs1)
    as (w & u & pre & pu & new_h & _ & _ & _ & _ & E & _ & S & _).
  exists new_h, new_h. rewrite FastRNN_call_output, E. split; [reflexivity|exact S].
Qed.

Lemma FastRNN_output_shape_witness :
  exists output new_state,
    snd (FastRNNCell.call (fun _ _ _ => 1) (zeros 5 7) (zeros 5 3)
           (FastRNNCell.__init__ 3 "relu" (Some 2%nat) (Some 2%nat) (-3) 3 "FastRNN"))
    = Ok (output, new_state) /\
    shape output = (5, 3)%nat.
Proof.
  apply (FastRNN_output_shape (fun _ _ _ => 1) 3%nat "relu" (Some 2%nat) (Some 2%nat)
           (-3) 3 "FastRNN" (zeros 5 7) (zeros 5 3) 5%nat 7%nat);
    reflexivity.
Defined.




(** C9: whatever arguments the constructor is given, the [name] among
    them, [cellType] returns the constant "FastGRNN" for a FastGRNNCell and
    "FastRNN" for a FastRNNCell.  The [name] argument is kept as the cell's
    name and only scopes the variables of a step: a cell built with another
    name returns the same step result when the variables of its scope hold
    the same contents. *)
Theorem cellType_constant :
  forall h g u wRank uRank ze nu al be name,
    let grnn := FastGRNNCell.__init__ h g u wRank uRank ze nu name in
    let rnn := FastRNNCell.__init__ h u wRank uRank al be name in
    FastGRNNCell.cellType grnn = "FastGRNN" /\
    FastRNNCell.cellType rnn = "FastRNN" /\
    FastGRNNCell.name grnn = name /\
    FastRNNCell.name rnn = name /\
    (forall name' env env' inputs state,
        (forall v, env' ((name' ++ "/FastGRNNcell") ++ "/" ++ v) =
                   env ((name ++ "/FastGRNNcell") ++ "/" ++ v)) ->
        snd (FastGRNNCell.call env' inputs state
               (FastGRNNCell.__init__ h g u wRank uRank ze nu name')) =
        snd (FastGRNNCell.call env inputs state grnn)) /\
    (forall name' env env' inputs state,
        (forall v, env' ((name' ++ "/FastRNNcell") ++ "/" ++ v) =
                   env ((name ++ "/FastRNNcell") ++ "/" ++ v)) ->
        snd (FastRNNCell.call env' inputs state
               (FastRNNCell.__init__ h u wRank uRank al be name')) =
        snd (FastRNNCell.call env inputs state rnn)).
Proof.
  intros. do 4 (split; [reflexivity|]). split.
  - intros name' env env' inputs state H. subst grnn.
    rewrite !FastGRNN_call_output. f_equal.
    unfold FastGRNNStep.step_output, FastGRNNStep.wComp, FastGRNNStep.uComp,
      FastGRNNStep.blend, FastGRNNStep.scope, project, param.
    cbv [FastGRNNCell.__init__ FastGRNNCell._name FastGRNNCell._wRank
         FastGRNNCell._uRank FastGRNNCell._hidden_size
         FastGRNNCell._gate_non_linearity FastGRNNCell._update_non_linearity].
    rewrite !H. reflexivity.
  - intros name' env env' inputs state H. subst rnn.
    rewrite !FastRNN_call_output. f_equal.
    unfold FastRNNStep.step_output, FastRNNStep.wComp, FastRNNStep.uComp,
      FastRNNStep.blend, FastRNNStep.scope, project, param.
    cbv [FastRNNCell.__init__ FastRNNCell._name FastRNNCell._wRank
         FastRNNCell._uRank FastRNNCell._hidden_size
         FastRNNCell._update_non_linearity].
    rewrite !H. reflexivity.
Qed.

Lemma cellType_constant_witness :
  snd (FastGRNNCell.call (fun _ _ _ => 0) (zeros 3 4) (zeros 3 2)
         (FastGRNNCell.__init__ 2 "sigmoid" "tanh" None None 1 (-4) "other")) =
  snd (FastGRNNCell.call (fun _ _ _ => 0) (zeros 3 4) (zeros 3 2)
         (FastGRNNCell.__init__ 2 "sigmoid" "tanh" None None 1 (-4) "FastGRNN")).
Proof.
  apply (proj1 (proj2 (proj2 (proj2 (proj2
           (cellType_constant 2%nat "sigmoid" "tanh" None None 1 (-4) (-3) 3
              "FastGRNN")))))
           "other" (fun _ _ _ => 0) (fun _ _ _ => 0) (zeros 3 4) (zeros 3 2)).
  reflexivity.
Defined.


(** C4: after a step that returned, [getVars] lists the input weight(s),
    then the recurrent weight(s), then the bias(es), then the scalars, in
    FastGRNNCell and in FastRNNCell alike and for every rank
    configuration; in FastGRNNCell these are the 6 tensors W, U, B_g, B_h,
    zeta, nu when no rank is set and the 8 tensors W1, W2, U1, U2, B_g,
    B_h, zeta, nu when both are. *)
Theorem getVars_order :
  (forall h g u wRank uRank ze nu name env inputs state out,
      let self := FastGRNNCell.__init__ h g u wRank uRank ze nu name in
      let V := scoped_var env (name ++ "/FastGRNNcell") in
      let input_weights :=
        match wRank with
        | None => [V "W" (dim1 inputs) h]
        | Some r => [V "W1" (dim1 inputs) r; V "W2" r h]
        end in
      let recurrent_weights :=
        match uRank with
        | None => [V "U" h h]
        | Some r => [V "U1" h r; V "U2" r h]
        end in
      let biases := [V "B_g" 1%nat h; V "B_h" 1%nat h] in
      let scalars := [V "zeta" 1%nat 1%nat; V "nu" 1%nat 1%nat] in
      snd (FastGRNNCell.call env inputs state self) = Ok out ->
      exists Vars,
        snd (FastGRNNCell.getVars (fst (FastGRNNCell.call env inputs state self)))
        = Ok Vars /\
        Vars = (input_weights ++ recurrent_weights ++ biases ++ scalars)%list /\
        (wRank = None -> uRank = None ->
         List.length Vars = 6%nat /\
         Vars = [V "W" (dim1 inputs) h; V "U" h h; V "B_g" 1%nat h;
                 V "B_h" 1%nat h; V "zeta" 1%nat 1%nat; V "nu" 1%nat 1%nat]) /\
        (forall rw ru, wRank = Some rw -> uRank = Some ru ->
         List.length Vars = 8%nat /\
         Vars = [V "W1" (dim1 inputs) rw; V "W2" rw h; V "U1" h ru; V "U2" ru h;
                 V "B_g" 1%nat h; V "B_h" 1%nat h;
                 V "zeta" 1%nat 1%nat; V "nu" 1%nat 1%nat])) /\
  (forall h u wRank uRank al be name env inputs state out,
      let self := FastRNNCell.__init__ h u wRank uRank al be name in
      let V := scoped_var env (name ++ "/FastRNNcell") in
      let input_weights :=
        match wRank with
        | None => [V "W" (dim1 inputs) h]
        | Some r => [V "W1" (dim1 inputs) r; V "W2" r h]
        end in
      let recurrent_weights :=
        match uRank with
        | None => [V "U" h h]
        | Some r => [V "U1" h r; V "U2" r h]
        end in
      let biases := [V "B_h" 1%nat h] in
      let scalars := [V "alpha" 1%nat 1%nat; V "beta" 1%nat 1%nat] in
      snd (FastRNNCell.call env inputs state self) = Ok out ->
      snd (FastRNNCell.getVars (fst (FastRNNCell.call env inputs state self)))
      = Ok (input_weights ++ recurrent_weights ++ biases ++ scalars)%list).
Proof.
  split.
  - intros h g u wRank uRank ze nu name env inputs state out
      self V input_weights recurrent_weights biases scalars H.
    rewrite (FastGRNN_call_state _ _ _ _ _ H).
    subst self. rewrite FastGRNN_getVars_bound. simpl snd.
    eexists; split; [reflexivity|].
    split; [reflexivity|].
    split.
    + intros -> ->. split; reflexivity.
    + intros rw ru -> ->. split; reflexivity.
  - intros h u wRank uRank al be name env inputs state out
      self V input_weights recurrent_weights biases scalars H.
    rewrite (FastRNN_call_state _ _ _ _ _ H).
    subst self. rewrite FastRNN_getVars_bound. reflexivity.
Qed.

Lemma getVars_order_witness :
  exists Vars,
    snd (FastGRNNCell.getVars
           (fst (FastGRNNCell.call (fun _ _ _ => 0) (zeros 3 4) (zeros 3 2)
                   (FastGRNNCell.__init__ 2 "sigmoid" "tanh" None None 1 (-4) "FastGRNN"))))
    = Ok Vars /\
    List.length Vars = 6%nat.
Proof.
  destruct (FastGRNN_call_ok (fun _ _ _ => 0)
              (FastGRNNCell.__init__ 2 "sigmoid" "tanh" None None 1 (-4) "FastGRNN")
              (zeros 3 4) (zeros 3 2) eq_refl eq_refl) as (new_h & Hok).
  destruct (proj1 getVars_order 2%nat "sigmoid" "tanh" None None 1 (-4) "FastGRNN"
              (fun _ _ _ => 0) (zeros 3 4) (zeros 3 2) (new_h, new_h) Hok)
    as (Vars & HV & _ & H6 & _).
  exists Vars. split; [assumption|]. apply (H6 eq_refl eq_refl).
Defined.

(** C10: after a step that returned, [FastRNNCell.getVars] returns the 5
    tensors W, U, B_h, alpha, beta when no rank is set, the 7 tensors W1,
    W2, U1, U2, B_h, alpha, beta when both are, and in every
    configuration [num_weight_matrices[0] + num_weight_matrices[1] + 3]
    tensors, where [num_weight_matrices[i]] is 2 exactly when the
    corresponding rank was set at construction and 1 otherwise. *)
Theorem FastRNN_getVars_count :
  forall h u wRank uRank al be name env inputs state out,
    let self := FastRNNCell.__init__ h u wRank uRank al be name in
    let self' := fst (FastRNNCell.call env inputs state self) in
    let V := scoped_var env (name ++ "/FastRNNcell") in
    snd (FastRNNCell.call env inputs state self) = Ok out ->
    exists Vars n0 n1,
      snd (FastRNNCell.getVars self') = Ok Vars /\
      FastRNNCell.num_weight_matrices self' = [n0; n1] /\
      List.length Vars = (n0 + n1 + 3)%nat /\
      (n0 = match wRank with Some _ => 2%nat | None => 1%nat end) /\
      (n1 = match uRank with Some _ => 2%nat | None => 1%nat end) /\
      (wRank = None -> uRank = None ->
       Vars = [V "W" (dim1 inputs) h; V "U" h h; V "B_h" 1%nat h;
               V "alpha" 1%nat 1%nat; V "beta" 1%nat 1%nat]) /\
      (forall rw ru, wRank = Some rw -> uRank = Some ru ->
       Vars = [V "W1" (dim1 inputs) rw; V "W2" rw h; V "U1" h ru; V "U2" ru h;
               V "B_h" 1%nat h; V "alpha" 1%nat 1%nat; V "beta" 1%nat 1%nat]).
Proof.
  intros h u wRank uRank al be name env inputs state out self self' V H.
  subst self'. rewrite (FastRNN_call_state _ _ _ _ _ H).
  subst self. rewrite FastRNN_getVars_bound. simpl snd.
  eexists. exists (match wRank with Some _ => 2%nat | None => 1%nat end), (match uRank with Some _ => 2%nat | None => 1%nat end).
  split; [reflexivity|].
  split; [destruct wRank, uRank; reflexivity|].
  split; [destruct wRank, uRank; reflexivity|].
  split; [reflexivity|]. split; [reflexivity|].
  split.
  - intros -> ->. reflexivity.
  - intros rw ru -> ->. reflexivity.
Qed.

Lemma FastRNN_getVars_count_witness :
  exists Vars,
    snd (FastRNNCell.getVars
           (fst (FastRNNCell.call (fun _ _ _ => 0) (zeros 3 4) (zeros 3 2)
                   (FastRNNCell.__init__ 2 "tanh" (Some 1%nat) None (-3) 3 "FastRNN"))))
    = Ok Vars /\
    List.length Vars = 6%nat.
Proof.
  destruct (FastRNN_call_ok (fun _ _ _ => 0)
              (FastRNNCell.__init__ 2 "tanh" (Some 1%nat) None (-3) 3 "FastRNN")
              (zeros 3 4) (zeros 3 2) eq_refl eq_refl) as (new_h & Hok).
  destruct (FastRNN_getVars_count 2%nat "tanh" (Some 1%nat) None (-3) 3 "FastRNN"
              (fun _ _ _ => 0) (zeros 3 4) (zeros 3 2) (new_h, new_h) Hok)
    as (Vars & n0 & n1 & HV & Hn & HL & -> & -> & _).
  exists Vars. split; assumption.
Defined.


(** *** The EMI wrappers *)

(** The indices of [initVarList] that [EMI_GRU.addBaseAssignOps] reads
    after its length check has admitted a list of length 2. *)
Lemma EMI_GRU_index_2_out_of_range (t1 t2 : Tensor) :
  getitem [t1; t2] 0 = Ok t1 /\ getitem [t1; t2] 1 = Ok t2 /\
  getitem [t1; t2] 2 = Raise IndexError /\
  getitem [t1; t2] 3 = Raise IndexError.
Proof. repeat split. Qed.

Lemma EMI_GRU_never_returns globals_graph initVarList self :
  is_ok (snd (EMI_GRU.addBaseAssignOps globals_graph initVarList self)) = false.
Proof.
  unfold EMI_GRU.addBaseAssignOps.
  destruct initVarList as [l|]; [|reflexivity].
  destruct l as [|a [|b [|c l]]]; try reflexivity.
  destruct globals_graph as [g|]; [|reflexivity].
  unfold bind, get_tensor_by_name, name_lookup_graph, assert_not_None, assert,
    ret, lift, bind. simpl.
  repeat match goal with
  | |- context [if ?b then _ else _] => destruct b; simpl
  end; reflexivity.
Qed.

(** In the sibling wrapper for the LSTM the two indices read are the two
    the length check admits. *)
Lemma EMI_BasicLSTM_consistent (l : list Tensor) self :
  is_ok (snd (EMI_BasicLSTM.addBaseAssignOps (Some full_graph) (Some l) self))
  = (List.length l =? 2)%nat.
Proof.
  destruct l as [|a [|b [|c l]]]; reflexivity.
Qed.

Lemma EMI_UGRNN_consistent (l : list Tensor) self :
  is_ok (snd (EMI_UGRNN.addBaseAssignOps (Some full_graph) (Some l) self))
  = (List.length l =? 2)%nat.
Proof.
  destruct l as [|a [|b [|c l]]]; reflexivity.
Qed.

(** C6: [addBaseAssignOps] does not fail fast on a list of the wrong
    length.  [EMI_GRU.addBaseAssignOps] admits exactly the lists of length
    2 and then reads the indices 0 to 3: on a list of length 2 the read of
    index 2 raises IndexError, the list of the 4 tensors it assigns is
    turned down by the length check, and no call returns.
    [EMI_FastRNN.addBaseAssignOps] and [EMI_FastGRNN.addBaseAssignOps]
    check no length: a list longer than the rank configuration calls for
    is accepted, and a shorter one raises IndexError after assign ops were
    already appended. *)
Theorem addBaseAssignOps_length_mismatch :
  (forall t1 t2 self,
      EMI_GRU.addBaseAssignOps (Some full_graph) (Some [t1; t2]) self
      = (self, Raise IndexError)) /\
  (forall globals_graph t1 t2 t3 t4 self,
      List.length [t1; t2; t3; t4] = EMI_GRU.varList_length /\
      EMI_GRU.addBaseAssignOps globals_graph (Some [t1; t2; t3; t4]) self
      = (self, Raise AssertionError)) /\
  (forall globals_graph initVarList self,
      is_ok (snd (EMI_GRU.addBaseAssignOps globals_graph initVarList self))
      = false) /\
  (forall t1 t2 t3 t4 t5 t6,
      let self := EMI_FastRNN.mk None None [] in
      List.length [t1; t2; t3; t4; t5; t6] <> EMI_FastRNN.varList_length self /\
      snd (EMI_FastRNN.addBaseAssignOps (Some full_graph)
             (Some [t1; t2; t3; t4; t5; t6]) self) = Ok tt) /\
  (forall t1,
      let self := EMI_FastRNN.mk None None [] in
      EMI_FastRNN.addBaseAssignOps (Some full_graph) (Some [t1]) self
      = (EMI_FastRNN.mk None None
           [assign (EMI_FastRNN.cell_scope ++ "W:0") t1],
         Raise IndexError)) /\
  (forall t1 t2 t3 t4 t5 t6 t7,
      let self := EMI_FastGRNN.mk None None [] in
      List.length [t1; t2; t3; t4; t5; t6; t7] <> EMI_FastGRNN.varList_length self /\
      snd (EMI_FastGRNN.addBaseAssignOps (Some full_graph)
             (Some [t1; t2; t3; t4; t5; t6; t7]) self) = Ok tt).
Proof.
  split; [|split; [|split; [|split; [|split]]]].
  - intros t1 t2 [ops]. reflexivity.
  - intros g t1 t2 t3 t4 self. split; reflexivity.
  - apply EMI_GRU_never_returns.
  - intros. split; [cbv; discriminate | reflexivity].
  - intros. reflexivity.
  - intros. split; [cbv; discriminate | reflexivity].
Qed.

(** With the name [graph] unbound among the module's globals, a list that
    passes the checks raises NameError at the first lookup. *)
Lemma addBaseAssignOps_graph_unbound (t1 t2 : Tensor) (l : list Tensor) gru rnn grnn :
  EMI_GRU.addBaseAssignOps None (Some [t1; t2]) gru = (gru, Raise NameError) /\
  EMI_FastRNN.addBaseAssignOps None (Some l) rnn = (rnn, Raise NameError) /\
  EMI_FastGRNN.addBaseAssignOps None (Some l) grnn = (grnn, Raise NameError).
Proof.
  split; [reflexivity|].
  destruct rnn as [[w|] [u|] ops], grnn as [[w'|] [u'|] ops']; split; reflexivity.
Qed.


(** *** Ranges of the nonlinearities *)

Lemma sigmoid_range x : 0 < sigmoid x < 1.
Proof.
  unfold sigmoid. pose proof (exp_pos (- x)) as H.
  split.
  - apply Rdiv_lt_0_compat; lra.
  - apply (Rmult_lt_reg_r (1 + exp (- x))); [lra|].
    unfold Rdiv. rewrite Rmult_assoc, Rinv_l by lra. lra.
Qed.

Lemma tanh_range x : -1 < Rtrigo_def.tanh x < 1.
Proof.
  unfold Rtrigo_def.tanh, sinh, cosh.
  pose proof (exp_pos x) as Ha. pose proof (exp_pos (- x)) as Hb.
  set (a := exp x) in *. set (b := exp (- x)) in *.
  assert (Hc : 0 < (a + b) / 2) by lra.
  assert (E : (a - b) / 2 / ((a + b) / 2) * ((a + b) / 2) = (a - b) / 2)
    by (field; lra).
  split; apply (Rmult_lt_reg_r ((a + b) / 2)); try exact Hc; rewrite E; lra.
Qed.

Lemma unit_non_linearity_bounded name x :
  name <> "relu" -> -1 <= unit_non_linearity name x <= 1.
Proof.
  intros Hrelu. unfold unit_non_linearity, gen_non_linearity.
  pose proof (tanh_range x) as Ht. pose proof (sigmoid_range x) as Hs.
  destruct (String.eqb_spec name "tanh"); [simpl; lra|].
  destruct (String.eqb_spec name "sigmoid"); [simpl; lra|].
  destruct (String.eqb_spec name "relu"); [contradiction|].
  destruct (String.eqb_spec name "quantTanh").
  { simpl. unfold Rmax, Rmin.
    destruct (Rle_dec x 1); destruct (Rle_dec _ (-1)); lra. }
  destruct (String.eqb_spec name "quantSigm").
  { simpl. unfold Rmax, Rmin.
    destruct (Rle_dec ((x + 1) / 2) 1); destruct (Rle_dec _ 0); lra. }
  simpl; lra.
Qed.

Lemma gen_non_linearity_range_aux A name i j :
  name = "sigmoid" \/ name = "quantSigm" ->
  0 <= val (gen_non_linearity A name) i j <= 1.
Proof.
  rewrite gen_non_linearity_val. intros [-> | ->].
  - pose proof (sigmoid_range (val A i j)). cbn. lra.
  - cbn. unfold Rmax, Rmin.
    destruct (Rle_dec ((val A i j + 1) / 2) 1); destruct (Rle_dec _ 0); lra.
Qed.

(** X1 *)
Theorem gen_non_linearity_range :
  forall A name i j,
    shape (gen_non_linearity A name) = shape A /\
    (name <> "relu" -> -1 <= val (gen_non_linearity A name) i j <= 1) /\
    (name = "sigmoid" \/ name = "quantSigm" ->
     0 <= val (gen_non_linearity A name) i j <= 1) /\
    (name = "relu" ->
     0 <= val (gen_non_linearity A name) i j /\
     val (gen_non_linearity A name) i j = Rmax (val A i j) 0).
Proof.
  intros A name i j.
  split.
  { unfold shape. now rewrite gen_non_linearity_dim0, gen_non_linearity_dim1. }
  rewrite gen_non_linearity_val.
  split; [apply unit_non_linearity_bounded|].
  split.
  - intros [-> | ->].
    + pose proof (sigmoid_range (val A i j)). cbn. lra.
    + cbn. unfold Rmax, Rmin.
      destruct (Rle_dec ((val A i j + 1) / 2) 1); destruct (Rle_dec _ 0); lra.
  - intros ->. cbn. split; [apply Rmax_r|reflexivity].
Qed.

(** *** When a step returns *)

Lemma bdim_absorb_l a b d : bdim a b = Ok d -> bdim d b = Ok d.
Proof.
  unfold bdim.
  destruct (a =? b)%nat eqn:E, (a =? 1)%nat eqn:E1, (b =? 1)%nat eqn:E2;
    intros H; inversion H; subst;
    repeat match goal with
    | H : (_ =? _)%nat = true |- _ => apply Nat.eqb_eq in H; subst
    end;
    rewrite ?Nat.eqb_refl, ?E, ?E1, ?E2; try reflexivity.
Qed.

Lemma bdim_absorb_r a b d : bdim a b = Ok d -> bdim b d = Ok d.
Proof.
  unfold bdim.
  destruct (a =? b)%nat eqn:E, (a =? 1)%nat eqn:E1, (b =? 1)%nat eqn:E2;
    intros H; inversion H; subst;
    repeat match goal with
    | H : (_ =? _)%nat = true |- _ => apply Nat.eqb_eq in H; subst
    end;
    rewrite ?Nat.eqb_refl, ?E, ?E1, ?E2; try reflexivity.
  - rewrite Nat.eqb_sym, E. reflexivity.
Qed.

Lemma bdim_error a b e : bdim a b = Raise e -> e = ValueError.
Proof.
  unfold bdim.
  destruct (a =? b)%nat, (a =? 1)%nat, (b =? 1)%nat; intros H; inversion H;
    reflexivity.
Qed.

Lemma bcast2_raise f a b e :
  bdim (dim0 a) (dim0 b) = Raise e -> bcast2 f a b = Raise ValueError.
Proof. intros H. unfold bcast2. rewrite H. reflexivity. Qed.

Lemma project_raise env scope x rank full f1 f2 inner out :
  dim1 x <> inner ->
  project env scope x rank full f1 f2 inner out = Raise ValueError.
Proof.
  intros H. apply Nat.eqb_neq in H.
  unfold project, param, matmul. destruct rank; simpl; rewrite H; reflexivity.
Qed.

Ltac solve_bdim2 :=
  simpl; rewrite ?gen_non_linearity_dim0, ?gen_non_linearity_dim1; simpl;
  repeat match goal with H : dim0 _ = _ |- _ => rewrite H end;
  repeat match goal with H : dim1 _ = _ |- _ => rewrite H end;
  eauto using bdim_same, bdim_1_r, bdim_1_l, bdim_absorb_l, bdim_absorb_r.

Tactic Notation "bcast_intro2" constr(f) constr(a) constr(b) constr(d0) constr(d1) ident(t) :=
  let E := fresh "E" t in
  let D0 := fresh "D0" t in
  let D1 := fresh "D1" t in
  let V := fresh "V" t in
  destruct (bcast2_spec f a b d0 d1) as (t & E & D0 & D1 & V);
  [solve_bdim2 | solve_bdim2 |].

Lemma FastRNN_blend_broadcast env self state w u di ds d :
  let h := FastRNNCell._hidden_size self in
  dim0 w = di -> dim1 w = h -> dim0 u = ds -> dim1 u = h ->
  dim0 state = ds -> dim1 state = h ->
  bdim di ds = Ok d ->
  exists new_h,
    FastRNNStep.blend env self state w u = Ok new_h /\ shape new_h = (d, h).
Proof.
  intros h Hw0 Hw1 Hu0 Hu1 Hs0 Hs1 Hd.
  set (sc := FastRNNStep.scope self) in *.
  set (nl := FastRNNCell._update_non_linearity self).
  bcast_intro2 Rplus w u d h pre.
  bcast_intro2 Rplus pre (param env sc "B_h" 1 h) d h pu.
  bcast_intro2 Rmult (math_ops.sigmoid (param env sc "beta" 1 1)) state ds h bs.
  bcast_intro2 Rmult (math_ops.sigmoid (param env sc "alpha" 1 1))
    (gen_non_linearity pu nl) d h ac.
  bcast_intro2 Rplus bs ac d h new_h.
  exists new_h.
  unfold FastRNNStep.blend, tadd, tmul. fold h sc nl.
  rewrite Epre. simpl rbind. rewrite Epu. simpl rbind.
  rewrite Ebs. simpl rbind. rewrite Eac. simpl rbind.
  split; [assumption | unfold shape; congruence].
Qed.

Lemma FastGRNN_blend_broadcast env self state w u di ds d :
  let h := FastGRNNCell._hidden_size self in
  dim0 w = di -> dim1 w = h -> dim0 u = ds -> dim1 u = h ->
  dim0 state = ds -> dim1 state = h ->
  bdim di ds = Ok d ->
  exists new_h,
    FastGRNNStep.blend env self state w u = Ok new_h /\ shape new_h = (d, h).
Proof.
  intros h Hw0 Hw1 Hu0 Hu1 Hs0 Hs1 Hd.
  set (sc := FastGRNNStep.scope self) in *.
  set (gnl := FastGRNNCell._gate_non_linearity self).
  set (unl := FastGRNNCell._update_non_linearity self).
  bcast_intro2 Rplus w u d h pre.
  bcast_intro2 Rplus pre (param env sc "B_g" 1 h) d h pg.
  bcast_intro2 Rplus pre (param env sc "B_h" 1 h) d h pu.
  bcast_intro2 Rmult (gen_non_linearity pg gnl) state d h zs.
  bcast_intro2 Rmult (math_ops.sigmoid (param env sc "zeta" 1 1))
    (tmap (fun x => 1 - x) (gen_non_linearity pg gnl)) d h sz.
  bcast_intro2 Rplus sz (math_ops.sigmoid (param env sc "nu" 1 1)) d h g.
  bcast_intro2 Rmult g (gen_non_linearity pu unl) d h gc.
  bcast_intro2 Rplus zs gc d h new_h.
  exists new_h.
  unfold FastGRNNStep.blend, tadd, tmul. fold h sc gnl unl.
  rewrite Epre. simpl rbind. rewrite Epg. simpl rbind.
  rewrite Epu. simpl rbind. rewrite Ezs. simpl rbind.
  rewrite Esz. simpl rbind. rewrite Eg. simpl rbind.
  rewrite Egc. simpl rbind.
  split; [assumption | unfold shape; congruence].
Qed.

Lemma FastRNN_step_result env self inputs state :
  let h := FastRNNCell._hidden_size self in
  (forall d, dim1 state = h -> bdim (dim0 inputs) (dim0 state) = Ok d ->
     exists new_h,
       FastRNNStep.step_output env self inputs state = Ok new_h /\
       shape new_h = (d, h)) /\
  (dim1 state <> h \/ (exists e, bdim (dim0 inputs) (dim0 state) = Raise e) ->
     FastRNNStep.step_output env self inputs state = Raise ValueError).
Proof.
  intros h.
  destruct (project_shape env (FastRNNStep.scope self) inputs
              (FastRNNCell._wRank self) "W" "W1" "W2" (dim1 inputs) h eq_refl)
    as (w & Ew & Dw0 & Dw1).
  unfold FastRNNStep.step_output, FastRNNStep.wComp, FastRNNStep.uComp.
  fold h. rewrite Ew. simpl rbind.
  split.
  - intros d Hs1 Hd.
    destruct (project_shape env (FastRNNStep.scope self) state
                (FastRNNCell._uRank self) "U" "U1" "U2" h h Hs1)
      as (u & Eu & Du0 & Du1).
    rewrite Eu. simpl rbind.
    eapply (FastRNN_blend_broadcast env self state w u); eauto.
  - destruct (Nat.eq_dec (dim1 state) h) as [Hs1|Hs1].
    + intros [Hn | (e & He)]; [contradiction|].
      destruct (project_shape env (FastRNNStep.scope self) state
                  (FastRNNCell._uRank self) "U" "U1" "U2" h h Hs1)
        as (u & Eu & Du0 & Du1).
      rewrite Eu. simpl rbind. unfold FastRNNStep.blend, tadd.
      rewrite (bcast2_raise _ w u e) by (rewrite Dw0, Du0; exact He).
      reflexivity.
    + intros _. rewrite project_raise by exact Hs1. reflexivity.
Qed.

Lemma FastGRNN_step_result env self inputs state :
  let h := FastGRNNCell._hidden_size self in
  (forall d, dim1 state = h -> bdim (dim0 inputs) (dim0 state) = Ok d ->
     exists new_h,
       FastGRNNStep.step_output env self inputs state = Ok new_h /\
       shape new_h = (d, h)) /\
  (dim1 state <> h \/ (exists e, bdim (dim0 inputs) (dim0 state) = Raise e) ->
     FastGRNNStep.step_output env self inputs state = Raise ValueError).
Proof.
  intros h.
  destruct (project_shape env (FastGRNNStep.scope self) inputs
              (FastGRNNCell._wRank self) "W" "W1" "W2" (dim1 inputs) h eq_refl)
    as (w & Ew & Dw0 & Dw1).
  unfold FastGRNNStep.step_output, FastGRNNStep.wComp, FastGRNNStep.uComp.
  fold h. rewrite Ew. simpl rbind.
  split.
  - intros d Hs1 Hd.
    destruct (project_shape env (FastGRNNStep.scope self) state
                (FastGRNNCell._uRank self) "U" "U1" "U2" h h Hs1)
      as (u & Eu & Du0 & Du1).
    rewrite Eu. simpl rbind.
    eapply (FastGRNN_blend_broadcast env self state w u); eauto.
  - destruct (Nat.eq_dec (dim1 state) h) as [Hs1|Hs1].
    + intros [Hn | (e & He)]; [contradiction|].
      destruct (project_shape env (FastGRNNStep.scope self) state
                  (FastGRNNCell._uRank self) "U" "U1" "U2" h h Hs1)
        as (u & Eu & Du0 & Du1).
      rewrite Eu. simpl rbind. unfold FastGRNNStep.blend, tadd.
      rewrite (bcast2_raise _ w u e) by (rewrite Dw0, Du0; exact He).
      reflexivity.
    + intros _. rewrite project_raise by exact Hs1. reflexivity.
Qed.

Lemma bdim_cases a b :
  (exists d, bdim a b = Ok d /\ (a = b \/ a = 1%nat \/ b = 1%nat)) \/
  (bdim a b = Raise ValueError /\ a <> b /\ a <> 1%nat /\ b <> 1%nat).
Proof.
  unfold bdim.
  destruct (a =? b)%nat eqn:E, (a =? 1)%nat eqn:E1, (b =? 1)%nat eqn:E2;
    repeat match goal with
    | H : (_ =? _)%nat = true |- _ => apply Nat.eqb_eq in H
    | H : (_ =? _)%nat = false |- _ => apply Nat.eqb_neq in H
    end;
    first [ left; eexists; split; [reflexivity|]; tauto
          | right; repeat split; assumption ].
Qed.

Lemma FastGRNN_call_ok_iff env inputs state self :
  let h := FastGRNNCell._hidden_size self in
  (is_ok (snd (FastGRNNCell.call env inputs state self)) = true <->
   dim1 state = h /\
   (dim0 inputs = dim0 state \/ dim0 inputs = 1%nat \/ dim0 state = 1%nat)) /\
  (is_ok (snd (FastGRNNCell.call env inputs state self)) = false ->
   snd (FastGRNNCell.call env inputs state self) = Raise ValueError).
Proof.
  intros h. rewrite FastGRNN_call_output.
  destruct (FastGRNN_step_result env self inputs state) as (Hok & Hbad).
  fold h in Hok, Hbad.
  destruct (Nat.eq_dec (dim1 state) h) as [Hs|Hs];
    [destruct (bdim_cases (dim0 inputs) (dim0 state))
       as [(d & Hd & Hc) | (Hd & Hc)]|].
  - destruct (Hok d Hs Hd) as (t & -> & _). simpl. split; [tauto|discriminate].
  - rewrite Hbad by (right; eauto). simpl.
    split; [split; [discriminate|tauto]|reflexivity].
  - rewrite Hbad by (left; exact Hs). simpl.
    split; [split; [discriminate|tauto]|reflexivity].
Qed.

Lemma FastRNN_call_ok_iff env inputs state self :
  let h := FastRNNCell._hidden_size self in
  (is_ok (snd (FastRNNCell.call env inputs state self)) = true <->
   dim1 state = h /\
   (dim0 inputs = dim0 state \/ dim0 inputs = 1%nat \/ dim0 state = 1%nat)) /\
  (is_ok (snd (FastRNNCell.call env inputs state self)) = false ->
   snd (FastRNNCell.call env inputs state self) = Raise ValueError).
Proof.
  intros h. rewrite FastRNN_call_output.
  destruct (FastRNN_step_result env self inputs state) as (Hok & Hbad).
  fold h in Hok, Hbad.
  destruct (Nat.eq_dec (dim1 state) h) as [Hs|Hs];
    [destruct (bdim_cases (dim0 inputs) (dim0 state))
       as [(d & Hd & Hc) | (Hd & Hc)]|].
  - destruct (Hok d Hs Hd) as (t & -> & _). simpl. split; [tauto|discriminate].
  - rewrite Hbad by (right; eauto). simpl.
    split; [split; [discriminate|tauto]|reflexivity].
  - rewrite Hbad by (left; exact Hs). simpl.
    split; [split; [discriminate|tauto]|reflexivity].
Qed.

(** X2 *)
Theorem call_returns_iff_shapes_fit :
  forall env inputs state,
    (forall self,
        let h := FastGRNNCell._hidden_size self in
        (is_ok (snd (FastGRNNCell.call env inputs state self)) = true <->
         dim1 state = h /\
         (dim0 inputs = dim0 state \/ dim0 inputs = 1%nat \/ dim0 state = 1%nat)) /\
        (is_ok (snd (FastGRNNCell.call env inputs state self)) = false ->
         snd (FastGRNNCell.call env inputs state self) = Raise ValueError)) /\
    (forall self,
        let h := FastRNNCell._hidden_size self in
        (is_ok (snd (FastRNNCell.call env inputs state self)) = true <->
         dim1 state = h /\
         (dim0 inputs = dim0 state \/ dim0 inputs = 1%nat \/ dim0 state = 1%nat)) /\
        (is_ok (snd (FastRNNCell.call env inputs state self)) = false ->
         snd (FastRNNCell.call env inputs state self) = Raise ValueError)).
Proof.
  intros env inputs state. split; intros self.
  - apply FastGRNN_call_ok_iff.
  - apply FastRNN_call_ok_iff.
Qed.

Lemma call_returns_iff_shapes_fit_witness :
  snd (FastRNNCell.call (fun _ _ _ => 0) (zeros 3 4) (zeros 3 5)
         (FastRNNCell.__init__ 2 "tanh" None None (-3) 3 "FastRNN"))
  = Raise ValueError.
Proof.
  apply (proj2 (proj2 (call_returns_iff_shapes_fit (fun _ _ _ => 0)
                         (zeros 3 4) (zeros 3 5))
                  (FastRNNCell.__init__ 2 "tanh" None None (-3) 3 "FastRNN"))).
  reflexivity.
Defined.

(** X3 *)
Theorem call_broadcasts_single_row_state :
  forall env inputs state,
    dim0 state = 1%nat ->
    (forall self, dim1 state = FastGRNNCell._hidden_size self ->
       exists new_h,
         snd (FastGRNNCell.call env inputs state self) = Ok (new_h, new_h) /\
         shape new_h = (dim0 inputs, FastGRNNCell._hidden_size self)) /\
    (forall self, dim1 state = FastRNNCell._hidden_size self ->
       exists new_h,
         snd (FastRNNCell.call env inputs state self) = Ok (new_h, new_h) /\
         shape new_h = (dim0 inputs, FastRNNCell._hidden_size self)).
Proof.
  intros env inputs state H1. split; intros self Hs.
  - destruct (FastGRNN_step_result env self inputs state) as (Hok & _).
    destruct (Hok (dim0 inputs) Hs) as (t & E & S).
    { rewrite H1. apply bdim_1_r. }
    exists t. rewrite FastGRNN_call_output, E. split; [reflexivity|exact S].
  - destruct (FastRNN_step_result env self inputs state) as (Hok & _).
    destruct (Hok (dim0 inputs) Hs) as (t & E & S).
    { rewrite H1. apply bdim_1_r. }
    exists t. rewrite FastRNN_call_output, E. split; [reflexivity|exact S].
Qed.

Lemma call_broadcasts_single_row_state_witness :
  exists new_h,
    snd (FastRNNCell.call (fun _ _ _ => 0) (zeros 3 4) (zeros 1 2)
           (FastRNNCell.__init__ 2 "tanh" None None (-3) 3 "FastRNN"))
    = Ok (new_h, new_h) /\
    shape new_h = (3, 2)%nat /\ shape (zeros 1 2) = (1, 2)%nat.
Proof.
  destruct (proj2 (call_broadcasts_single_row_state (fun _ _ _ => 0)
                     (zeros 3 4) (zeros 1 2) eq_refl)
              (FastRNNCell.__init__ 2 "tanh" None None (-3) 3 "FastRNN") eq_refl)
    as (t & E & S).
  exists t. repeat split; assumption.
Defined.

(** *** [getVars] and the cell it is called on *)

Lemma matmul_raise a b : dim1 a <> dim0 b -> matmul a b = Raise ValueError.
Proof. intros H. apply Nat.eqb_neq in H. unfold matmul. now rewrite H. Qed.

Lemma getVars_keeps_cell :
  (forall self, fst (FastGRNNCell.getVars self) = self) /\
  (forall self, fst (FastRNNCell.getVars self) = self).
Proof.
  split; intros self.
  - unfold FastGRNNCell.getVars, bind, lift, ret, get_self, getitem, getattr.
    simpl.
    repeat match goal with
    | |- context [match ?x with _ => _ end] =>
        lazymatch x with
        | context [match _ with _ => _ end] => fail
        | _ => destruct x; simpl
        end
    end; reflexivity.
  - unfold FastRNNCell.getVars, bind, lift, ret, get_self, getitem, getattr.
    simpl.
    repeat match goal with
    | |- context [match ?x with _ => _ end] =>
        lazymatch x with
        | context [match _ with _ => _ end] => fail
        | _ => destruct x; simpl
        end
    end; reflexivity.
Qed.

Ltac run_failed Hs :=
  unfold bind, lift, ret, get_self; simpl;
  repeat first
    [ rewrite matmul_ok by (simpl; first [reflexivity | exact Hs])
    | rewrite matmul_raise by (simpl; exact Hs)
    | erewrite bcast2_raise by (simpl; eassumption) ];
    simpl.

Lemma FastRNN_getVars_after_failure h u wRank uRank al be name env inputs state :
  let self := FastRNNCell.__init__ h u wRank uRank al be name in
  is_ok (snd (FastRNNCell.call env inputs state self)) = false ->
  snd (FastRNNCell.getVars (fst (FastRNNCell.call env inputs state self)))
  = Raise AttributeError.
Proof.
  intros self Hbad.
  assert (Hcase : dim1 state <> h \/
                  (dim1 state = h /\
                   bdim (dim0 inputs) (dim0 state) = Raise ValueError)).
  { destruct (Nat.eq_dec (dim1 state) h) as [Hs|Hs]; [|left; exact Hs].
    destruct (bdim_cases (dim0 inputs) (dim0 state))
      as [(d & Hd & Hc) | (Hd & Hc)]; [|right; split; assumption].
    exfalso.
    destruct (FastRNN_call_ok_iff env inputs state self) as (Hiff & _).
    rewrite (proj2 Hiff) in Hbad; [discriminate|].
    split; [exact Hs|exact Hc]. }
  clear Hbad. subst self.
  unfold FastRNNCell.call, FastRNNCell.__init__, FastRNNCell.set, tadd.
  destruct Hcase as [Hs | (Hs & Hd)].
  - destruct wRank, uRank; run_failed Hs; reflexivity.
  - destruct wRank, uRank; run_failed Hs; reflexivity.
Qed.

Lemma FastGRNN_getVars_after_failure h g u wRank uRank ze nu name env inputs state :
  let self := FastGRNNCell.__init__ h g u wRank uRank ze nu name in
  is_ok (snd (FastGRNNCell.call env inputs state self)) = false ->
  snd (FastGRNNCell.getVars (fst (FastGRNNCell.call env inputs state self)))
  = Raise AttributeError.
Proof.
  intros self Hbad.
  assert (Hcase : dim1 state <> h \/
                  (dim1 state = h /\
                   bdim (dim0 inputs) (dim0 state) = Raise ValueError)).
  { destruct (Nat.eq_dec (dim1 state) h) as [Hs|Hs]; [|left; exact Hs].
    destruct (bdim_cases (dim0 inputs) (dim0 state))
      as [(d & Hd & Hc) | (Hd & Hc)]; [|right; split; assumption].
    exfalso.
    destruct (FastGRNN_call_ok_iff env inputs state self) as (Hiff & _).
    rewrite (proj2 Hiff) in Hbad; [discriminate|].
    split; [exact Hs|exact Hc]. }
  clear Hbad. subst self.
  unfold FastGRNNCell.call, FastGRNNCell.__init__, FastGRNNCell.set, tadd.
  destruct Hcase as [Hs | (Hs & Hd)].
  - destruct wRank, uRank; run_failed Hs; reflexivity.
  - destruct wRank, uRank; run_failed Hs; reflexivity.
Qed.

Lemma FastGRNN_getVars_unbound h g u wRank uRank ze nu name :
  snd (FastGRNNCell.getVars (FastGRNNCell.__init__ h g u wRank uRank ze nu name)) =
  Raise AttributeError.
Proof. destruct wRank, uRank; reflexivity. Qed.

(** X4 *)
Theorem getVars_returns_iff_stepped :
  (forall h g u wRank uRank ze nu name env inputs state,
      let self := FastGRNNCell.__init__ h g u wRank uRank ze nu name in
      let stepped := fst (FastGRNNCell.call env inputs state self) in
      snd (FastGRNNCell.getVars self) = Raise AttributeError /\
      is_ok (snd (FastGRNNCell.getVars stepped)) =
        is_ok (snd (FastGRNNCell.call env inputs state self)) /\
      (is_ok (snd (FastGRNNCell.call env inputs state self)) = false ->
       snd (FastGRNNCell.getVars stepped) = Raise AttributeError) /\
      fst (FastGRNNCell.getVars stepped) = stepped) /\
  (forall h u wRank uRank al be name env inputs state,
      let self := FastRNNCell.__init__ h u wRank uRank al be name in
      let stepped := fst (FastRNNCell.call env inputs state self) in
      snd (FastRNNCell.getVars self) = Raise AttributeError /\
      is_ok (snd (FastRNNCell.getVars stepped)) =
        is_ok (snd (FastRNNCell.call env inputs state self)) /\
      (is_ok (snd (FastRNNCell.call env inputs state self)) = false ->
       snd (FastRNNCell.getVars stepped) = Raise AttributeError) /\
      fst (FastRNNCell.getVars stepped) = stepped).
Proof.
  split.
  - intros h g u wRank uRank ze nu name env inputs state self stepped.
    split; [apply FastGRNN_getVars_unbound|].
    split; [|split;
      [apply FastGRNN_getVars_after_failure | apply getVars_keeps_cell]].
    subst stepped self.
    destruct (snd (FastGRNNCell.call env inputs state
                     (FastGRNNCell.__init__ h g u wRank uRank ze nu name)))
      as [out|e] eqn:E.
    + rewrite (FastGRNN_call_state _ _ _ _ _ E).
      rewrite FastGRNN_getVars_bound. reflexivity.
    + rewrite FastGRNN_getVars_after_failure; [reflexivity|].
      rewrite E. reflexivity.
  - intros h u wRank uRank al be name env inputs state self stepped.
    split; [apply FastRNN_getVars_unbound|].
    split; [|split;
      [apply FastRNN_getVars_after_failure | apply getVars_keeps_cell]].
    subst stepped self.
    destruct (snd (FastRNNCell.call env inputs state
                     (FastRNNCell.__init__ h u wRank uRank al be name)))
      as [out|e] eqn:E.
    + rewrite (FastRNN_call_state _ _ _ _ _ E).
      rewrite FastRNN_getVars_bound. reflexivity.
    + rewrite FastRNN_getVars_after_failure; [reflexivity|].
      rewrite E. reflexivity.
Qed.

Lemma getVars_returns_iff_stepped_witness :
  snd (FastRNNCell.getVars
         (fst (FastRNNCell.call (fun _ _ _ => 0) (zeros 3 4) (zeros 3 5)
                 (FastRNNCell.__init__ 2 "tanh" None (Some 1%nat) (-3) 3 "FastRNN"))))
  = Raise AttributeError.
Proof.
  apply (proj2 getVars_returns_iff_stepped 2%nat "tanh" None (Some 1%nat) (-3) 3
           "FastRNN" (fun _ _ _ => 0) (zeros 3 4) (zeros 3 5)).
  reflexivity.
Defined.

(** *** Steps in sequence *)

Lemma FastGRNN_bound_twice h g u wRank uRank ze nu name env x1 x2 :
  let self := FastGRNNCell.__init__ h g u wRank uRank ze nu name in
  dim1 x2 = dim1 x1 ->
  snd (FastGRNNCell.getVars (FastGRNN_bound env (FastGRNN_bound env self x1) x2)) =
  snd (FastGRNNCell.getVars (FastGRNN_bound env self x1)).
Proof.
  intros self H. subst self.
  unfold FastGRNN_bound, FastGRNNStep.scope, FastGRNNCell.__init__.
  destruct wRank, uRank; simpl; rewrite H; reflexivity.
Qed.

Lemma FastRNN_bound_twice h u wRank uRank al be name env x1 x2 :
  let self := FastRNNCell.__init__ h u wRank uRank al be name in
  dim1 x2 = dim1 x1 ->
  snd (FastRNNCell.getVars (FastRNN_bound env (FastRNN_bound env self x1) x2)) =
  snd (FastRNNCell.getVars (FastRNN_bound env self x1)).
Proof.
  intros self H. subst self.
  unfold FastRNN_bound, FastRNNStep.scope, FastRNNCell.__init__.
  destruct wRank, uRank; simpl; rewrite H; reflexivity.
Qed.

(** X5 *)
Theorem second_step_keeps_parameters :
  (forall h g u wRank uRank ze nu name env x1 s1 x2 s2 out1 out2,
      let self := FastGRNNCell.__init__ h g u wRank uRank ze nu name in
      let once := fst (FastGRNNCell.call env x1 s1 self) in
      let twice := fst (FastGRNNCell.call env x2 s2 once) in
      snd (FastGRNNCell.call env x1 s1 self) = Ok out1 ->
      snd (FastGRNNCell.call env x2 s2 once) = Ok out2 ->
      dim1 x2 = dim1 x1 ->
      snd (FastGRNNCell.getVars twice) = snd (FastGRNNCell.getVars once) /\
      FastGRNNCell.num_weight_matrices twice = FastGRNNCell.num_weight_matrices self) /\
  (forall h u wRank uRank al be name env x1 s1 x2 s2 out1 out2,
      let self := FastRNNCell.__init__ h u wRank uRank al be name in
      let once := fst (FastRNNCell.call env x1 s1 self) in
      let twice := fst (FastRNNCell.call env x2 s2 once) in
      snd (FastRNNCell.call env x1 s1 self) = Ok out1 ->
      snd (FastRNNCell.call env x2 s2 once) = Ok out2 ->
      dim1 x2 = dim1 x1 ->
      snd (FastRNNCell.getVars twice) = snd (FastRNNCell.getVars once) /\
      FastRNNCell.num_weight_matrices twice = FastRNNCell.num_weight_matrices self).
Proof.
  split.
  - intros h g u wRank uRank ze nu name env x1 s1 x2 s2 out1 out2
      self once twice H1 H2 Hd.
    subst twice. rewrite (FastGRNN_call_state _ _ _ _ _ H2).
    subst once. rewrite (FastGRNN_call_state _ _ _ _ _ H1).
    subst self. split; [apply FastGRNN_bound_twice; exact Hd | reflexivity].
  - intros h u wRank uRank al be name env x1 s1 x2 s2 out1 out2
      self once twice H1 H2 Hd.
    subst twice. rewrite (FastRNN_call_state _ _ _ _ _ H2).
    subst once. rewrite (FastRNN_call_state _ _ _ _ _ H1).
    subst self. split; [apply FastRNN_bound_twice; exact Hd | reflexivity].
Qed.

Lemma second_step_keeps_parameters_witness :
  let self := FastRNNCell.__init__ 2 "tanh" (Some 1%nat) None (-3) 3 "FastRNN" in
  let once := fst (FastRNNCell.call (fun _ _ _ => 0) (zeros 3 4) (zeros 3 2) self) in
  let twice := fst (FastRNNCell.call (fun _ _ _ => 0) (zeros 3 4) (zeros 3 2) once) in
  snd (FastRNNCell.getVars twice) = snd (FastRNNCell.getVars once).
Proof.
  intros self once twice.
  destruct (FastRNN_call_ok (fun _ _ _ => 0) self (zeros 3 4) (zeros 3 2)
              eq_refl eq_refl) as (h1 & H1).
  assert (Hh : FastRNNCell._hidden_size once = 2%nat).
  { subst once. rewrite (FastRNN_call_state _ _ _ _ _ H1). reflexivity. }
  destruct (FastRNN_call_ok (fun _ _ _ => 0) once (zeros 3 4) (zeros 3 2)
              eq_refl (eq_sym Hh)) as (h2 & H2).
  exact (proj1 (proj2 second_step_keeps_parameters 2%nat "tanh" (Some 1%nat) None
                  (-3) 3 "FastRNN" (fun _ _ _ => 0) (zeros 3 4) (zeros 3 2)
                  (zeros 3 4) (zeros 3 2) (h1, h1) (h2, h2) H1 H2 eq_refl)).
Defined.

(** X6 *)
Theorem new_state_feeds_next_step :
  forall env x1 x2 state batch inputDim,
    shape x1 = (batch, inputDim) ->
    shape x2 = (batch, inputDim) ->
    (forall self,
        shape state = (batch, FastGRNNCell._hidden_size self) ->
        exists h1 h2,
          snd (FastGRNNCell.call env x1 state self) = Ok (h1, h1) /\
          snd (FastGRNNCell.call env x2 h1
                 (fst (FastGRNNCell.call env x1 state self))) = Ok (h2, h2) /\
          shape h1 = shape state /\ shape h2 = shape state) /\
    (forall self,
        shape state = (batch, FastRNNCell._hidden_size self) ->
        exists h1 h2,
          snd (FastRNNCell.call env x1 state self) = Ok (h1, h1) /\
          snd (FastRNNCell.call env x2 h1
                 (fst (FastRNNCell.call env x1 state self))) = Ok (h2, h2) /\
          shape h1 = shape state /\ shape h2 = shape state).
Proof.
  intros env x1 x2 state batch inputDim Hx1 Hx2.
  apply shape_inv in Hx1, Hx2.
  destruct Hx1 as (Hx10 & _), Hx2 as (Hx20 & _).
  split; intros self Hs; pose proof Hs as Hs'; apply shape_inv in Hs';
    destruct Hs' as (Hs0 & Hs1).
  - destruct (FastGRNN_step_spec env self x1 state batch Hx10 Hs0 Hs1)
      as (w & u & pre & pg & pu & h1 & _ & _ & _ & _ & _ & E1 & _ & _ & S1 & _).
    assert (C1 : snd (FastGRNNCell.call env x1 state self) = Ok (h1, h1)).
    { rewrite FastGRNN_call_output, E1. reflexivity. }
    rewrite (FastGRNN_call_state _ _ _ _ _ C1).
    pose proof S1 as S1'. apply shape_inv in S1'. destruct S1' as (D0 & D1).
    destruct (FastGRNN_step_spec env (FastGRNN_bound env self x1) x2 h1 batch
                Hx20 D0 D1)
      as (w' & u' & pre' & pg' & pu' & h2 &
          _ & _ & _ & _ & _ & E2 & _ & _ & S2 & _).
    exists h1, h2. split; [exact C1|].
    split; [rewrite FastGRNN_call_output, E2; reflexivity|].
    split; [rewrite S1, Hs; reflexivity | rewrite S2, Hs; reflexivity].
  - destruct (FastRNN_step_spec env self x1 state batch Hx10 Hs0 Hs1)
      as (w & u & pre & pu & h1 & _ & _ & _ & _ & E1 & _ & S1 & _).
    assert (C1 : snd (FastRNNCell.call env x1 state self) = Ok (h1, h1)).
    { rewrite FastRNN_call_output, E1. reflexivity. }
    rewrite (FastRNN_call_state _ _ _ _ _ C1).
    pose proof S1 as S1'. apply shape_inv in S1'. destruct S1' as (D0 & D1).
    destruct (FastRNN_step_spec env (FastRNN_bound env self x1) x2 h1 batch
                Hx20 D0 D1)
      as (w' & u' & pre' & pu' & h2 & _ & _ & _ & _ & E2 & _ & S2 & _).
    exists h1, h2. split; [exact C1|].
    split; [rewrite FastRNN_call_output, E2; reflexivity|].
    split; [rewrite S1, Hs; reflexivity | rewrite S2, Hs; reflexivity].
Qed.

Lemma new_state_feeds_next_step_witness :
  exists h1 h2,
    snd (FastGRNNCell.call (fun _ _ _ => 0) (zeros 3 4) (zeros 3 2)
           (FastGRNNCell.__init__ 2 "sigmoid" "tanh" None None 1 (-4) "FastGRNN"))
    = Ok (h1, h1) /\
    snd (FastGRNNCell.call (fun _ _ _ => 0) (zeros 3 4) h1
           (fst (FastGRNNCell.call (fun _ _ _ => 0) (zeros 3 4) (zeros 3 2)
                   (FastGRNNCell.__init__ 2 "sigmoid" "tanh" None None 1 (-4)
                      "FastGRNN"))))
    = Ok (h2, h2) /\
    shape h2 = (3, 2)%nat.
Proof.
  destruct (proj1 (new_state_feeds_next_step (fun _ _ _ => 0) (zeros 3 4) (zeros 3 4)
                     (zeros 3 2) 3%nat 4%nat eq_refl eq_refl)
              (FastGRNNCell.__init__ 2 "sigmoid" "tanh" None None 1 (-4) "FastGRNN")
              eq_refl)
    as (h1 & h2 & E1 & E2 & _ & S2).
  exists h1, h2. repeat split; assumption.
Defined.

(** *** The size of the parameters *)

(** X7 *)
Theorem parameter_count_after_step :
  (forall h g u wRank uRank ze nu name env inputs state out,
      let self := FastGRNNCell.__init__ h g u wRank uRank ze nu name in
      let n := dim1 inputs in
      snd (FastGRNNCell.call env inputs state self) = Ok out ->
      exists Vars,
        snd (FastGRNNCell.getVars (fst (FastGRNNCell.call env inputs state self)))
        = Ok Vars /\
        parameter_count Vars =
        (match wRank with None => n * h | Some r => n * r + r * h end +
         match uRank with None => h * h | Some r => h * r + r * h end +
         2 * h + 2)%nat) /\
  (forall h u wRank uRank al be name env inputs state out,
      let self := FastRNNCell.__init__ h u wRank uRank al be name in
      let n := dim1 inputs in
      snd (FastRNNCell.call env inputs state self) = Ok out ->
      exists Vars,
        snd (FastRNNCell.getVars (fst (FastRNNCell.call env inputs state self)))
        = Ok Vars /\
        parameter_count Vars =
        (match wRank with None => n * h | Some r => n * r + r * h end +
         match uRank with None => h * h | Some r => h * r + r * h end +
         h + 2)%nat).
Proof.
  split.
  - intros h g u wRank uRank ze nu name env inputs state out self n H.
    rewrite (FastGRNN_call_state _ _ _ _ _ H).
    subst self. rewrite FastGRNN_getVars_bound. simpl snd.
    eexists; split; [reflexivity|].
    destruct wRank, uRank; unfold parameter_count, numel; simpl; lia.
  - intros h u wRank uRank al be name env inputs state out self n H.
    rewrite (FastRNN_call_state _ _ _ _ _ H).
    subst self. rewrite FastRNN_getVars_bound. simpl snd.
    eexists; split; [reflexivity|].
    destruct wRank, uRank; unfold parameter_count, numel; simpl; lia.
Qed.

Lemma parameter_count_after_step_witness :
  exists Vars,
    snd (FastGRNNCell.getVars
           (fst (FastGRNNCell.call (fun _ _ _ => 0) (zeros 3 4) (zeros 3 2)
                   (FastGRNNCell.__init__ 2 "sigmoid" "tanh" (Some 1%nat) None
                      1 (-4) "FastGRNN"))))
    = Ok Vars /\
    parameter_count Vars = 16%nat.
Proof.
  destruct (FastGRNN_call_ok (fun _ _ _ => 0)
              (FastGRNNCell.__init__ 2 "sigmoid" "tanh" (Some 1%nat) None 1 (-4)
                 "FastGRNN")
              (zeros 3 4) (zeros 3 2) eq_refl eq_refl) as (new_h & Hok).
  exact (proj1 parameter_count_after_step 2%nat "sigmoid" "tanh" (Some 1%nat) None
           1 (-4) "FastGRNN" (fun _ _ _ => 0) (zeros 3 4) (zeros 3 2)
           (new_h, new_h) Hok).
Defined.

(** *** The names of the variables *)

Lemma append_inj_l (s a b : string) : s ++ a = s ++ b -> a = b.
Proof.
  induction s as [|c s IH]; simpl; intros H; [exact H|].
  inversion H. auto.
Qed.

Lemma scoped_names_differ (sc a b : string) :
  a <> b -> sc ++ "/" ++ a <> sc ++ "/" ++ b.
Proof.
  intros Hab H. apply append_inj_l in H. simpl in H. inversion H. contradiction.
Qed.

Lemma NoDup_scoped (sc : string) (l : list string) :
  NoDup l -> NoDup (map (fun p => sc ++ "/" ++ p) l).
Proof.
  induction 1 as [|p l Hp Hl IH]; simpl; constructor; [|exact IH].
  intros Hin. apply in_map_iff in Hin. destruct Hin as (q & Hq & Hin).
  apply append_inj_l in Hq. simpl in Hq. inversion Hq; subst. contradiction.
Qed.

Ltac solve_nodup sc l :=
  apply (NoDup_scoped sc l);
  repeat constructor; simpl; intuition discriminate.

(** X8 *)
Theorem getVars_names_distinct :
  (forall h g u wRank uRank ze nu name env inputs state out,
      let self := FastGRNNCell.__init__ h g u wRank uRank ze nu name in
      snd (FastGRNNCell.call env inputs state self) = Ok out ->
      exists Vars,
        snd (FastGRNNCell.getVars (fst (FastGRNNCell.call env inputs state self)))
        = Ok Vars /\
        NoDup (map var_name Vars) /\
        Forall (fun v => exists p, var_name v = (name ++ "/FastGRNNcell") ++ "/" ++ p)
               Vars) /\
  (forall h u wRank uRank al be name env inputs state out,
      let self := FastRNNCell.__init__ h u wRank uRank al be name in
      snd (FastRNNCell.call env inputs state self) = Ok out ->
      exists Vars,
        snd (FastRNNCell.getVars (fst (FastRNNCell.call env inputs state self)))
        = Ok Vars /\
        NoDup (map var_name Vars) /\
        Forall (fun v => exists p, var_name v = (name ++ "/FastRNNcell") ++ "/" ++ p)
               Vars).
Proof.
  split.
  - intros h g u wRank uRank ze nu name env inputs state out self H.
    rewrite (FastGRNN_call_state _ _ _ _ _ H).
    subst self. rewrite FastGRNN_getVars_bound. simpl snd.
    eexists; split; [reflexivity|].
    unfold scoped_var.
    destruct wRank, uRank;
      (split; [|repeat constructor; eexists; reflexivity]).
    + solve_nodup (name ++ "/FastGRNNcell")
        ["W1"; "W2"; "U1"; "U2"; "B_g"; "B_h"; "zeta"; "nu"].
    + solve_nodup (name ++ "/FastGRNNcell")
        ["W1"; "W2"; "U"; "B_g"; "B_h"; "zeta"; "nu"].
    + solve_nodup (name ++ "/FastGRNNcell")
        ["W"; "U1"; "U2"; "B_g"; "B_h"; "zeta"; "nu"].
    + solve_nodup (name ++ "/FastGRNNcell")
        ["W"; "U"; "B_g"; "B_h"; "zeta"; "nu"].
  - intros h u wRank uRank al be name env inputs state out self H.
    rewrite (FastRNN_call_state _ _ _ _ _ H).
    subst self. rewrite FastRNN_getVars_bound. simpl snd.
    eexists; split; [reflexivity|].
    unfold scoped_var.
    destruct wRank, uRank;
      (split; [|repeat constructor; eexists; reflexivity]).
    + solve_nodup (name ++ "/FastRNNcell")
        ["W1"; "W2"; "U1"; "U2"; "B_h"; "alpha"; "beta"].
    + solve_nodup (name ++ "/FastRNNcell")
        ["W1"; "W2"; "U"; "B_h"; "alpha"; "beta"].
    + solve_nodup (name ++ "/FastRNNcell")
        ["W"; "U1"; "U2"; "B_h"; "alpha"; "beta"].
    + solve_nodup (name ++ "/FastRNNcell")
        ["W"; "U"; "B_h"; "alpha"; "beta"].
Qed.

Lemma getVars_names_distinct_witness :
  exists Vars,
    snd (FastRNNCell.getVars
           (fst (FastRNNCell.call (fun _ _ _ => 0) (zeros 3 4) (zeros 3 2)
                   (FastRNNCell.__init__ 2 "tanh" None None (-3) 3 "FastRNN"))))
    = Ok Vars /\
    NoDup (map var_name Vars).
Proof.
  destruct (FastRNN_call_ok (fun _ _ _ => 0)
              (FastRNNCell.__init__ 2 "tanh" None None (-3) 3 "FastRNN")
              (zeros 3 4) (zeros 3 2) eq_refl eq_refl) as (new_h & Hok).
  destruct (proj2 getVars_names_distinct 2%nat "tanh" None None (-3) 3 "FastRNN"
              (fun _ _ _ => 0) (zeros 3 4) (zeros 3 2) (new_h, new_h) Hok)
    as (Vars & HV & HN & _).
  exists Vars. split; assumption.
Defined.

(** *** How far a step can move the state *)

Lemma Rabs_bound x b : Rabs x <= b -> - b <= x <= b.
Proof. unfold Rabs. destruct (Rcase_abs x); lra. Qed.

(** X9 *)
Theorem step_growth_bounded :
  forall env inputs state batch inputDim B,
    shape inputs = (batch, inputDim) ->
    (forall i j, (i < dim0 state)%nat -> (j < dim1 state)%nat ->
       Rabs (val state i j) <= B) ->
    (forall self,
        shape state = (batch, FastRNNCell._hidden_size self) ->
        FastRNNCell._update_non_linearity self <> "relu" ->
        exists new_h,
          snd (FastRNNCell.call env inputs state self) = Ok (new_h, new_h) /\
          forall i j, (i < dim0 new_h)%nat -> (j < dim1 new_h)%nat ->
            Rabs (val new_h i j) <= B + 1) /\
    (forall self,
        shape state = (batch, FastGRNNCell._hidden_size self) ->
        FastGRNNCell._update_non_linearity self <> "relu" ->
        FastGRNNCell._gate_non_linearity self = "sigmoid" \/
        FastGRNNCell._gate_non_linearity self = "quantSigm" ->
        exists new_h,
          snd (FastGRNNCell.call env inputs state self) = Ok (new_h, new_h) /\
          forall i j, (i < dim0 new_h)%nat -> (j < dim1 new_h)%nat ->
            Rabs (val new_h i j) <= Rmax B 1 + 1).
Proof.
  intros env inputs state batch inputDim B Hi HB.
  apply shape_inv in Hi. destruct Hi as (Hi0 & _).
  split.
  - intros self Hs Hnl. apply shape_inv in Hs. destruct Hs as (Hs0 & Hs1).
    destruct (FastRNN_step_spec env self inputs state batch Hi0 Hs0 Hs1)
      as (w & u & pre & pu & new_h & _ & _ & _ & _ & E & _ & S & V).
    exists new_h. rewrite FastRNN_call_output, E. split; [reflexivity|].
    apply shape_inv in S. destruct S as (S0 & S1).
    intros i j Hi Hj. rewrite S0 in Hi. rewrite S1 in Hj.
    destruct (V i j Hi Hj) as (Hc & Hv). rewrite Hv, Hc.
    pose proof (unit_non_linearity_bounded
                  (FastRNNCell._update_non_linearity self)
                  (val w i j + val u i j +
                   env (FastRNNStep.scope self ++ "/" ++ "B_h") O j) Hnl) as Hcb.
    pose proof (sigmoid_range (env (FastRNNStep.scope self ++ "/" ++ "beta") O O)).
    pose proof (sigmoid_range (env (FastRNNStep.scope self ++ "/" ++ "alpha") O O)).
    assert (Hsb : Rabs (val state i j) <= B)
      by (apply HB; congruence).
    apply Rabs_le. apply Rabs_bound in Hsb. nra.
  - intros self Hs Hnl Hg. apply shape_inv in Hs. destruct Hs as (Hs0 & Hs1).
    destruct (FastGRNN_step_spec env self inputs state batch Hi0 Hs0 Hs1)
      as (w & u & pre & pg & pu & new_h &
          _ & _ & _ & _ & _ & E & _ & _ & S & V).
    exists new_h. rewrite FastGRNN_call_output, E. split; [reflexivity|].
    apply shape_inv in S. destruct S as (S0 & S1).
    intros i j Hi Hj. rewrite S0 in Hi. rewrite S1 in Hj.
    destruct (V i j Hi Hj) as (Hz & Hc & Hv). rewrite Hv.
    pose proof (unit_non_linearity_bounded
                  (FastGRNNCell._update_non_linearity self)
                  (val w i j + val u i j +
                   env (FastGRNNStep.scope self ++ "/" ++ "B_h") O j) Hnl) as Hcb.
    rewrite <- Hc in Hcb.
    assert (Hzb : 0 <= val (gen_non_linearity pg
                     (FastGRNNCell._gate_non_linearity self)) i j <= 1).
    { destruct (gen_non_linearity_range_aux pg
                  (FastGRNNCell._gate_non_linearity self) i j Hg). lra. }
    pose proof (sigmoid_range (env (FastGRNNStep.scope self ++ "/" ++ "zeta") O O)).
    pose proof (sigmoid_range (env (FastGRNNStep.scope self ++ "/" ++ "nu") O O)).
    assert (Hsb : Rabs (val state i j) <= B)
      by (apply HB; congruence).
    pose proof (Rmax_l B 1) as HM1. pose proof (Rmax_r B 1) as HM2.
    apply Rabs_bound in Hsb.
    set (z := val (gen_non_linearity pg (FastGRNNCell._gate_non_linearity self)) i j)
      in *.
    set (c := val (gen_non_linearity pu (FastGRNNCell._update_non_linearity self)) i j)
      in *.
    set (sz := sigmoid (env (FastGRNNStep.scope self ++ "/" ++ "zeta") O O)) in *.
    set (sn := sigmoid (env (FastGRNNStep.scope self ++ "/" ++ "nu") O O)) in *.
    set (M := Rmax B 1) in *.
    assert (A1 : - (z * M) <= z * val state i j <= z * M) by nra.
    assert (A2 : 0 <= sz * (1 - z) + sn <= (1 - z) + 1) by nra.
    assert (A3 : - (sz * (1 - z) + sn) <= (sz * (1 - z) + sn) * c
                 <= sz * (1 - z) + sn) by nra.
    assert (A4 : 1 - z <= (1 - z) * M) by nra.
    apply Rabs_le. nra.
Qed.

Lemma step_growth_bounded_witness :
  exists new_h,
    snd (FastRNNCell.call (fun _ _ _ => 1) (zeros 3 4) (zeros 3 2)
           (FastRNNCell.__init__ 2 "tanh" None None (-3) 3 "FastRNN"))
    = Ok (new_h, new_h) /\
    forall i j, (i < dim0 new_h)%nat -> (j < dim1 new_h)%nat ->
      Rabs (val new_h i j) <= 0 + 1.
Proof.
  apply (proj1 (step_growth_bounded (fun _ _ _ => 1) (zeros 3 4) (zeros 3 2)
                  3%nat 4%nat 0 eq_refl
                  (fun i j _ _ => eq_ind_r (fun r => r <= 0) (Rle_refl 0) Rabs_R0))
           (FastRNNCell.__init__ 2 "tanh" None None (-3) 3 "FastRNN")).
  - reflexivity.
  - discriminate.
Defined.

(** *** Assigning to the variables of a restored wrapper *)

Lemma existsb_eqb_In (n : string) (l : list string) :
  In n l -> existsb (String.eqb n) l = true.
Proof.
  intros H. apply existsb_exists. exists n. split; [exact H|apply String.eqb_refl].
Qed.

Lemma existsb_eqb_not_In (n : string) (l : list string) :
  ~ In n l -> existsb (String.eqb n) l = false.
Proof.
  intros H. destruct (existsb (String.eqb n) l) eqn:E; [|reflexivity].
  apply existsb_exists in E. destruct E as (x & Hx & Heq).
  apply String.eqb_eq in Heq. subst. contradiction.
Qed.

Ltac in_list := simpl; repeat first [left; reflexivity | right].

Ltac graph_has Hg g :=
  repeat match goal with
  | |- context [existsb (String.eqb ?n) (tensor_names g)] =>
      rewrite (existsb_eqb_In n (tensor_names g)) by (apply Hg; in_list)
  end.

Ltac take l := destruct l as [|? l]; [try (simpl in *; lia)|].

Ltac unfold_assign :=
  unfold get_tensor_by_name, name_lookup_graph, assert_not_None, assert, modify,
    bind, ret, lift, get_self.

Lemma EMI_FastRNN_assign g w u ops l :
  let names := EMI_FastRNN_names w u in
  let self := EMI_FastRNN.mk w u ops in
  incl names (tensor_names g) ->
  (List.length names <= List.length l)%nat ->
  EMI_FastRNN.addBaseAssignOps (Some g) (Some l) self =
  (EMI_FastRNN.mk w u (ops ++ assign_all names l), Ok tt).
Proof.
  intros names self Hg Hlen. subst names self.
  unfold EMI_FastRNN.addBaseAssignOps, EMI_FastRNN.extend_assignOps.
  unfold_assign.
  destruct w, u; graph_has Hg g; simpl in Hlen.
  - do 7 take l. simpl. rewrite <- ?app_assoc. reflexivity.
  - do 6 take l. simpl. rewrite <- ?app_assoc. reflexivity.
  - do 6 take l. simpl. rewrite <- ?app_assoc. reflexivity.
  - do 5 take l. simpl. rewrite <- ?app_assoc. reflexivity.
Qed.

Ltac short l :=
  destruct l as [|? l]; [simpl; reflexivity|]; simpl in *.

Lemma EMI_FastRNN_assign_short g w u ops l :
  let names := EMI_FastRNN_names w u in
  incl names (tensor_names g) ->
  (List.length l < List.length names)%nat ->
  snd (EMI_FastRNN.addBaseAssignOps (Some g) (Some l) (EMI_FastRNN.mk w u ops)) =
  Raise IndexError.
Proof.
  intros names Hg Hlen. subst names.
  unfold EMI_FastRNN.addBaseAssignOps, EMI_FastRNN.extend_assignOps.
  unfold_assign.
  destruct w, u; graph_has Hg g; simpl in Hlen.
  - do 7 short l. lia.
  - do 6 short l. lia.
  - do 6 short l. lia.
  - do 5 short l. lia.
Qed.

Lemma EMI_FastGRNN_assign g w u ops l :
  let names := EMI_FastGRNN_names w u in
  let self := EMI_FastGRNN.mk w u ops in
  incl names (tensor_names g) ->
  (List.length names <= List.length l)%nat ->
  EMI_FastGRNN.addBaseAssignOps (Some g) (Some l) self =
  (EMI_FastGRNN.mk w u (ops ++ assign_all names l), Ok tt).
Proof.
  intros names self Hg Hlen. subst names self.
  unfold EMI_FastGRNN.addBaseAssignOps, EMI_FastGRNN.extend_assignOps.
  unfold_assign.
  destruct w, u; graph_has Hg g; simpl in Hlen.
  - do 8 take l. simpl. rewrite <- ?app_assoc. reflexivity.
  - do 7 take l. simpl. rewrite <- ?app_assoc. reflexivity.
  - do 7 take l. simpl. rewrite <- ?app_assoc. reflexivity.
  - do 6 take l. simpl. rewrite <- ?app_assoc. reflexivity.
Qed.

Lemma EMI_FastGRNN_assign_short g w u ops l :
  let names := EMI_FastGRNN_names w u in
  incl names (tensor_names g) ->
  (List.length l < List.length names)%nat ->
  snd (EMI_FastGRNN.addBaseAssignOps (Some g) (Some l) (EMI_FastGRNN.mk w u ops)) =
  Raise IndexError.
Proof.
  intros names Hg Hlen. subst names.
  unfold EMI_FastGRNN.addBaseAssignOps, EMI_FastGRNN.extend_assignOps.
  unfold_assign.
  destruct w, u; graph_has Hg g; simpl in Hlen.
  - do 8 short l. lia.
  - do 7 short l. lia.
  - do 7 short l. lia.
  - do 6 short l. lia.
Qed.

Lemma EMI_names_length w u :
  List.length (EMI_FastRNN_names w u) = EMI_FastRNN.varList_length (EMI_FastRNN.mk w u []) /\
  List.length (EMI_FastGRNN_names w u) = EMI_FastGRNN.varList_length (EMI_FastGRNN.mk w u []).
Proof. destruct w, u; split; reflexivity. Qed.

(** *** Restoring a wrapper from a graph *)

Ltac unfold_restore :=
  unfold EMI_RNN.restore_prelude, EMI_RNN.assert_varList_empty,
    EMI_RNN.set_keep_prob, EMI_RNN.set_output, EMI_RNN.set_varList,
    EMI_RNN.extend_varList, EMI_RNN.set_graphCreated, EMI_RNN.set_graph,
    EMI_RNN.set_assignOps, tfGraph.get_tensor_by_name,
    assert, modify, bind, ret, lift, get_self.

Ltac graph_has' Hkp Hout Hg g :=
  repeat match goal with
  | |- context [existsb (String.eqb ?n) (tensor_names g)] =>
      rewrite (existsb_eqb_In n (tensor_names g))
        by first [ exact Hout | apply Hkp; reflexivity | apply Hg; in_list ]
  end.

Lemma EMI_FastRNN_restore g self :
  let sc := EMI_FastRNN_graph._scope in
  EMI_RNN.graphCreated self = false ->
  EMI_RNN.graph self <> None ->
  EMI_RNN.varList self = [] ->
  (EMI_RNN.useDropout self = true -> In (sc ++ "keep-prob:0") (tensor_names g)) ->
  In (sc ++ "bag-output:0") (tensor_names g) ->
  incl (EMI_FastRNN_names (EMI_RNN.wRank self) (EMI_RNN.uRank self))
       (tensor_names g) ->
  EMI_FastRNN_graph._restoreBaseGraph (Some g) self =
  (EMI_RNN.mk false (EMI_RNN.graph self) (EMI_RNN.useDropout self)
     (if EMI_RNN.useDropout self then Some (sc ++ "keep-prob:0")
      else EMI_RNN.keep_prob self)
     (EMI_FastRNN_names (EMI_RNN.wRank self) (EMI_RNN.uRank self))
     (Some (sc ++ "bag-output:0")) (EMI_RNN.assignOps self)
     (EMI_RNN.wRank self) (EMI_RNN.uRank self),
   Ok tt).
Proof.
  destruct self as [gc gr dr kp vl out ops w u]. simpl.
  intros -> Hgr -> Hkp Hout Hg.
  destruct gr as [gr|]; [|contradiction].
  unfold EMI_FastRNN_graph._restoreBaseGraph. unfold_restore.
  destruct dr, w, u; simpl EMI_RNN.useDropout; simpl EMI_RNN.wRank;
    simpl EMI_RNN.uRank; cbv beta iota;
    graph_has' Hkp Hout Hg g; reflexivity.
Qed.

Lemma EMI_FastGRNN_restore g self :
  let sc := EMI_FastGRNN_graph._scope in
  EMI_RNN.graphCreated self = false ->
  EMI_RNN.graph self <> None ->
  EMI_RNN.varList self = [] ->
  (EMI_RNN.useDropout self = true -> In (sc ++ "keep-prob:0") (tensor_names g)) ->
  In (sc ++ "bag-output:0") (tensor_names g) ->
  incl (EMI_FastGRNN_names (EMI_RNN.wRank self) (EMI_RNN.uRank self))
       (tensor_names g) ->
  EMI_FastGRNN_graph._restoreBaseGraph (Some g) self =
  (EMI_RNN.mk false (EMI_RNN.graph self) (EMI_RNN.useDropout self)
     (if EMI_RNN.useDropout self then Some (sc ++ "keep-prob:0")
      else EMI_RNN.keep_prob self)
     (EMI_FastGRNN_names (EMI_RNN.wRank self) (EMI_RNN.uRank self))
     (Some (sc ++ "bag-output:0")) (EMI_RNN.assignOps self)
     (EMI_RNN.wRank self) (EMI_RNN.uRank self),
   Ok tt).
Proof.
  destruct self as [gc gr dr kp vl out ops w u]. simpl.
  intros -> Hgr -> Hkp Hout Hg.
  destruct gr as [gr|]; [|contradiction].
  unfold EMI_FastGRNN_graph._restoreBaseGraph. unfold_restore.
  destruct dr, w, u; simpl EMI_RNN.useDropout; simpl EMI_RNN.wRank;
    simpl EMI_RNN.uRank; cbv beta iota;
    graph_has' Hkp Hout Hg g; reflexivity.
Qed.

Ltac prove_fixed_restore self restore :=
  destruct self as [gc gr dr kp vl out ops w u]; simpl;
  intros -> Hgr -> Hkp Hout Hg;
  destruct gr as [gr|]; [|contradiction];
  unfold restore; unfold_restore;
  destruct dr; simpl EMI_RNN.useDropout; cbv beta iota;
  match goal with
  | Hg : incl _ (tensor_names ?g) |- _ => graph_has' Hkp Hout Hg g
  end; reflexivity.

Lemma EMI_BasicLSTM_restore g self :
  let sc := EMI_BasicLSTM_graph._scope in
  let names := ["rnn/EMI-LSTM-Cell/kernel:0"; "rnn/EMI-LSTM-Cell/bias:0"] in
  EMI_RNN.graphCreated self = false ->
  EMI_RNN.graph self <> None ->
  EMI_RNN.varList self = [] ->
  (EMI_RNN.useDropout self = true -> In (sc ++ "keep-prob:0") (tensor_names g)) ->
  In (sc ++ "bag-output:0") (tensor_names g) ->
  incl names (tensor_names g) ->
  EMI_BasicLSTM_graph._restoreBaseGraph (Some g) self =
  (EMI_RNN.mk false (EMI_RNN.graph self) (EMI_RNN.useDropout self)
     (if EMI_RNN.useDropout self then Some (sc ++ "keep-prob:0")
      else EMI_RNN.keep_prob self)
     names (Some (sc ++ "bag-output:0")) (EMI_RNN.assignOps self)
     (EMI_RNN.wRank self) (EMI_RNN.uRank self),
   Ok tt).
Proof. prove_fixed_restore self EMI_BasicLSTM_graph._restoreBaseGraph. Qed.

Lemma EMI_GRU_restore g self :
  let sc := EMI_GRU_graph._scope in
  let names := ["rnn/EMI-GRU-Cell/gates/kernel:0"; "rnn/EMI-GRU-Cell/gates/bias:0";
                "rnn/EMI-GRU-Cell/candidate/kernel:0";
                "rnn/EMI-GRU-Cell/candidate/bias:0"] in
  EMI_RNN.graphCreated self = false ->
  EMI_RNN.graph self <> None ->
  EMI_RNN.varList self = [] ->
  (EMI_RNN.useDropout self = true -> In (sc ++ "keep-prob:0") (tensor_names g)) ->
  In (sc ++ "bag-output:0") (tensor_names g) ->
  incl names (tensor_names g) ->
  EMI_GRU_graph._restoreBaseGraph (Some g) self =
  (EMI_RNN.mk false (EMI_RNN.graph self) (EMI_RNN.useDropout self)
     (if EMI_RNN.useDropout self then Some (sc ++ "keep-prob:0")
      else EMI_RNN.keep_prob self)
     names (Some (sc ++ "bag-output:0")) (EMI_RNN.assignOps self)
     (EMI_RNN.wRank self) (EMI_RNN.uRank self),
   Ok tt).
Proof. prove_fixed_restore self EMI_GRU_graph._restoreBaseGraph. Qed.

Lemma EMI_UGRNN_restore g self :
  let sc := EMI_UGRNN_graph._scope in
  let names := ["rnn/ugrnn_cell/kernel:0"; "rnn/ugrnn_cell/bias:0"] in
  EMI_RNN.graphCreated self = false ->
  EMI_RNN.graph self <> None ->
  EMI_RNN.varList self = [] ->
  (EMI_RNN.useDropout self = true -> In (sc ++ "keep-prob:0") (tensor_names g)) ->
  In (sc ++ "bag-output:0") (tensor_names g) ->
  incl names (tensor_names g) ->
  EMI_UGRNN_graph._restoreBaseGraph (Some g) self =
  (EMI_RNN.mk false (EMI_RNN.graph self) (EMI_RNN.useDropout self)
     (if EMI_RNN.useDropout self then Some (sc ++ "keep-prob:0")
      else EMI_RNN.keep_prob self)
     names (Some (sc ++ "bag-output:0")) (EMI_RNN.assignOps self)
     (EMI_RNN.wRank self) (EMI_RNN.uRank self),
   Ok tt).
Proof. prove_fixed_restore self EMI_UGRNN_graph._restoreBaseGraph. Qed.

Lemma assign_all_refs names (l : list Tensor) :
  List.length l = List.length names ->
  map assign_ref (assign_all names l) = names /\
  map assign_value (assign_all names l) = l.
Proof.
  revert l. induction names as [|n names IH]; intros [|v l] H;
    simpl in *; try discriminate; [split; reflexivity|].
  injection H as H. destruct (IH l H) as (H1 & H2).
  split; f_equal; assumption.
Qed.

(** X10 *)
Theorem addBaseAssignOps_reads_a_prefix :
  (forall g w u ops l,
      let names := EMI_FastRNN_names w u in
      incl names (tensor_names g) ->
      List.length names = EMI_FastRNN.varList_length (EMI_FastRNN.mk w u ops) /\
      ((List.length names <= List.length l)%nat ->
       EMI_FastRNN.addBaseAssignOps (Some g) (Some l) (EMI_FastRNN.mk w u ops) =
       (EMI_FastRNN.mk w u (ops ++ assign_all names l), Ok tt)) /\
      ((List.length l < List.length names)%nat ->
       snd (EMI_FastRNN.addBaseAssignOps (Some g) (Some l) (EMI_FastRNN.mk w u ops))
       = Raise IndexError)) /\
  (forall g w u ops l,
      let names := EMI_FastGRNN_names w u in
      incl names (tensor_names g) ->
      List.length names = EMI_FastGRNN.varList_length (EMI_FastGRNN.mk w u ops) /\
      ((List.length names <= List.length l)%nat ->
       EMI_FastGRNN.addBaseAssignOps (Some g) (Some l) (EMI_FastGRNN.mk w u ops) =
       (EMI_FastGRNN.mk w u (ops ++ assign_all names l), Ok tt)) /\
      ((List.length l < List.length names)%nat ->
       snd (EMI_FastGRNN.addBaseAssignOps (Some g) (Some l) (EMI_FastGRNN.mk w u ops))
       = Raise IndexError)).
Proof.
  split; intros g w u ops l names Hg.
  - split; [destruct w, u; reflexivity|]. split.
    + apply EMI_FastRNN_assign; exact Hg.
    + apply EMI_FastRNN_assign_short; exact Hg.
  - split; [destruct w, u; reflexivity|]. split.
    + apply EMI_FastGRNN_assign; exact Hg.
    + apply EMI_FastGRNN_assign_short; exact Hg.
Qed.

Lemma full_graph_has_FastRNN_names w u :
  incl (EMI_FastRNN_names w u) (tensor_names full_graph).
Proof.
  destruct w, u; intros x Hx; simpl in Hx;
    repeat (destruct Hx as [<-|Hx]; [in_list|]); contradiction.
Qed.

Lemma addBaseAssignOps_reads_a_prefix_witness :
  snd (EMI_FastRNN.addBaseAssignOps (Some full_graph)
         (Some [zeros 1 1; zeros 1 1; zeros 1 1])
         (EMI_FastRNN.mk None None [])) = Raise IndexError.
Proof.
  apply (proj2 (proj2 (proj1 addBaseAssignOps_reads_a_prefix full_graph None None []
                         [zeros 1 1; zeros 1 1; zeros 1 1]
                         (full_graph_has_FastRNN_names None None)))).
  simpl. lia.
Defined.

(** X11 *)
Theorem restored_order_is_assign_order :
  (forall g self,
      let sc := EMI_FastRNN_graph._scope in
      let w := EMI_RNN.wRank self in
      let u := EMI_RNN.uRank self in
      let restored := fst (EMI_FastRNN_graph._restoreBaseGraph (Some g) self) in
      let ready := fst (EMI_RNN.set_graphCreated true restored) in
      EMI_RNN.graphCreated self = false ->
      EMI_RNN.graph self <> None ->
      EMI_RNN.varList self = [] ->
      (EMI_RNN.useDropout self = true -> In (sc ++ "keep-prob:0") (tensor_names g)) ->
      In (sc ++ "bag-output:0") (tensor_names g) ->
      incl (EMI_FastRNN_names w u) (tensor_names g) ->
      snd (EMI_FastRNN_graph._restoreBaseGraph (Some g) self) = Ok tt /\
      exists names,
        EMI_FastRNN_graph.getHyperParams ready = (ready, Ok names) /\
        forall l ops, List.length l = List.length names ->
          exists new_ops,
            EMI_FastRNN.addBaseAssignOps (Some g) (Some l) (EMI_FastRNN.mk w u ops)
            = (EMI_FastRNN.mk w u (ops ++ new_ops), Ok tt) /\
            map assign_ref new_ops = names /\
            map assign_value new_ops = l) /\
  (forall g self,
      let sc := EMI_FastGRNN_graph._scope in
      let w := EMI_RNN.wRank self in
      let u := EMI_RNN.uRank self in
      let restored := fst (EMI_FastGRNN_graph._restoreBaseGraph (Some g) self) in
      let ready := fst (EMI_RNN.set_graphCreated true restored) in
      EMI_RNN.graphCreated self = false ->
      EMI_RNN.graph self <> None ->
      EMI_RNN.varList self = [] ->
      (EMI_RNN.useDropout self = true -> In (sc ++ "keep-prob:0") (tensor_names g)) ->
      In (sc ++ "bag-output:0") (tensor_names g) ->
      incl (EMI_FastGRNN_names w u) (tensor_names g) ->
      snd (EMI_FastGRNN_graph._restoreBaseGraph (Some g) self) = Ok tt /\
      exists names,
        EMI_FastGRNN_graph.getHyperParams ready = (ready, Ok names) /\
        forall l ops, List.length l = List.length names ->
          exists new_ops,
            EMI_FastGRNN.addBaseAssignOps (Some g) (Some l) (EMI_FastGRNN.mk w u ops)
            = (EMI_FastGRNN.mk w u (ops ++ new_ops), Ok tt) /\
            map assign_ref new_ops = names /\
            map assign_value new_ops = l).
Proof.
  split.
  - intros g self sc w u restored ready H1 H2 H3 H4 H5 H6.
    subst ready restored.
    rewrite (EMI_FastRNN_restore g self H1 H2 H3 H4 H5 H6).
    split; [reflexivity|].
    exists (EMI_FastRNN_names w u). split; [reflexivity|].
    intros l ops Hl. exists (assign_all (EMI_FastRNN_names w u) l).
    split; [apply EMI_FastRNN_assign; [exact H6|lia]|].
    apply assign_all_refs. exact Hl.
  - intros g self sc w u restored ready H1 H2 H3 H4 H5 H6.
    subst ready restored.
    rewrite (EMI_FastGRNN_restore g self H1 H2 H3 H4 H5 H6).
    split; [reflexivity|].
    exists (EMI_FastGRNN_names w u). split; [reflexivity|].
    intros l ops Hl. exists (assign_all (EMI_FastGRNN_names w u) l).
    split; [apply EMI_FastGRNN_assign; [exact H6|lia]|].
    apply assign_all_refs. exact Hl.
Qed.

Lemma checkpoint_graph_has_FastRNN_names w u :
  incl (EMI_FastRNN_names w u) (tensor_names checkpoint_graph).
Proof.
  destruct w, u; intros x Hx; simpl in Hx;
    repeat (destruct Hx as [<-|Hx]; [in_list|]); contradiction.
Qed.

Lemma restored_order_is_assign_order_witness :
  snd (EMI_FastRNN_graph._restoreBaseGraph (Some checkpoint_graph)
         (EMI_fresh (Some checkpoint_graph) true (Some 2%nat) None)) = Ok tt.
Proof.
  apply (proj1 restored_order_is_assign_order checkpoint_graph
           (EMI_fresh (Some checkpoint_graph) true (Some 2%nat) None)).
  - reflexivity.
  - discriminate.
  - reflexivity.
  - intros _. in_list.
  - in_list.
  - apply checkpoint_graph_has_FastRNN_names.
Defined.

Lemma EMI_wrappers_restore e g self :
  In e EMI_wrappers -> restorable e g self ->
  EMI_RNN.graphCreated self = false ->
  EMI_RNN.graph self <> None ->
  EMI_RNN.varList self = [] ->
  w_restoreBaseGraph e (Some g) self = (restored_state e self, Ok tt).
Proof.
  intros He (Hkp & Hout & Hg) H1 H2 H3. simpl in He.
  destruct He as [<-|[<-|[<-|[<-|[<-|[]]]]]]; simpl in *.
  - apply EMI_BasicLSTM_restore; assumption.
  - apply EMI_GRU_restore; assumption.
  - apply EMI_FastRNN_restore; assumption.
  - apply EMI_UGRNN_restore; assumption.
  - apply EMI_FastGRNN_restore; assumption.
Qed.

Lemma EMI_wrappers_restore_nonempty e g self :
  In e EMI_wrappers -> restorable e g self ->
  EMI_RNN.graphCreated self = false ->
  EMI_RNN.graph self <> None ->
  EMI_RNN.varList self <> [] ->
  snd (w_restoreBaseGraph e (Some g) self) = Raise AssertionError.
Proof.
  intros He (Hkp & Hout & Hg) H1 H2 H3. simpl in He.
  destruct self as [gc gr dr kp vl out ops w u]. simpl in *. subst gc.
  destruct gr as [gr|]; [|contradiction].
  destruct vl as [|v vl]; [contradiction|].
  destruct He as [<-|[<-|[<-|[<-|[<-|[]]]]]]; simpl in *.
  - unfold EMI_BasicLSTM_graph._restoreBaseGraph. unfold_restore.
    destruct dr; simpl EMI_RNN.useDropout; cbv beta iota;
      graph_has' Hkp Hout Hg g; reflexivity.
  - unfold EMI_GRU_graph._restoreBaseGraph. unfold_restore.
    destruct dr; simpl EMI_RNN.useDropout; cbv beta iota;
      graph_has' Hkp Hout Hg g; reflexivity.
  - unfold EMI_FastRNN_graph._restoreBaseGraph. unfold_restore.
    destruct dr; simpl EMI_RNN.useDropout; cbv beta iota;
      graph_has' Hkp Hout Hg g; reflexivity.
  - unfold EMI_UGRNN_graph._restoreBaseGraph. unfold_restore.
    destruct dr; simpl EMI_RNN.useDropout; cbv beta iota;
      graph_has' Hkp Hout Hg g; reflexivity.
  - unfold EMI_FastGRNN_graph._restoreBaseGraph. unfold_restore.
    destruct dr; simpl EMI_RNN.useDropout; cbv beta iota;
      graph_has' Hkp Hout Hg g; reflexivity.
Qed.

Lemma EMI_wrappers_names_nonempty e w u :
  In e EMI_wrappers -> w_names e w u <> [].
Proof.
  intros He. simpl in He.
  destruct He as [<-|[<-|[<-|[<-|[<-|[]]]]]]; simpl;
    try discriminate; destruct w, u; discriminate.
Qed.

Lemma EMI_wrappers_getHyperParams_not_created e self :
  In e EMI_wrappers -> EMI_RNN.graphCreated self = false ->
  w_getHyperParams e self = (self, Raise AssertionError).
Proof.
  intros He Hgc. simpl in He.
  destruct self as [gc gr dr kp vl out ops w u]. simpl in Hgc. subst gc.
  destruct He as [<-|[<-|[<-|[<-|[<-|[]]]]]]; reflexivity.
Qed.

(** X12 *)
Theorem restoreBaseGraph_needs_empty_varList :
  forall e g self,
    In e EMI_wrappers ->
    restorable e g self ->
    EMI_RNN.graphCreated self = false ->
    EMI_RNN.graph self <> None ->
    (EMI_RNN.varList self = [] ->
     w_restoreBaseGraph e (Some g) self = (restored_state e self, Ok tt) /\
     snd (w_restoreBaseGraph e (Some g) (restored_state e self))
     = Raise AssertionError /\
     w_getHyperParams e (restored_state e self)
     = (restored_state e self, Raise AssertionError)) /\
    (EMI_RNN.varList self <> [] ->
     snd (w_restoreBaseGraph e (Some g) self) = Raise AssertionError).
Proof.
  intros e g self He Hr H1 H2. split.
  - intros H3. split; [apply EMI_wrappers_restore; assumption|]. split.
    + apply EMI_wrappers_restore_nonempty; try assumption; try reflexivity.
      simpl. apply EMI_wrappers_names_nonempty. exact He.
    + apply EMI_wrappers_getHyperParams_not_created; [exact He|reflexivity].
  - intros H3. apply EMI_wrappers_restore_nonempty; assumption.
Qed.

Lemma checkpoint_graph_restorable e dr w u :
  In e EMI_wrappers ->
  restorable e checkpoint_graph (EMI_fresh (Some checkpoint_graph) dr w u).
Proof.
  intros He. simpl in He.
  destruct He as [<-|[<-|[<-|[<-|[<-|[]]]]]];
    (split; [intros _; in_list|split; [in_list|]]); simpl;
    try (destruct w, u); intros x Hx; simpl in Hx;
    repeat (destruct Hx as [<-|Hx]; [in_list|]); contradiction.
Qed.

Lemma restoreBaseGraph_needs_empty_varList_witness :
  snd (EMI_GRU_graph._restoreBaseGraph (Some checkpoint_graph)
         (fst (EMI_GRU_graph._restoreBaseGraph (Some checkpoint_graph)
                 (EMI_fresh (Some checkpoint_graph) false None None))))
  = Raise AssertionError.
Proof.
  pose proof (restoreBaseGraph_needs_empty_varList
                (mk_wrapper EMI_GRU_graph._restoreBaseGraph
                   EMI_GRU_graph.getHyperParams EMI_GRU_graph._scope
                   (fun _ _ => ["rnn/EMI-GRU-Cell/gates/kernel:0";
                                "rnn/EMI-GRU-Cell/gates/bias:0";
                                "rnn/EMI-GRU-Cell/candidate/kernel:0";
                                "rnn/EMI-GRU-Cell/candidate/bias:0"]))
                checkpoint_graph (EMI_fresh (Some checkpoint_graph) false None None))
    as H.
  simpl w_restoreBaseGraph in H.
  destruct H as ((E1 & E2 & _) & _).
  - in_list.
  - apply checkpoint_graph_restorable. in_list.
  - reflexivity.
  - discriminate.
  - reflexivity.
  - rewrite E1. exact E2.
Defined.

(** X13 *)
Theorem restoreFromGraph_resets :
  forall e ext g self,
    In e EMI_wrappers ->
    restorable e g self ->
    let reset := EMI_RNN.mk false (Some g) (EMI_RNN.useDropout self)
                   (EMI_RNN.keep_prob self) [] None []
                   (EMI_RNN.wRank self) (EMI_RNN.uRank self) in
    EMI_RNN.restoreFromGraph (EMI_RNN.mk_methods (w_restoreBaseGraph e) ext)
      (Some g) self =
    (ext (Some g) ;;;
     s <- get_self ;;
     assert (EMI_RNN.graphCreated s)) (restored_state e reset).
Proof.
  intros e ext g self He Hr reset.
  unfold EMI_RNN.restoreFromGraph, EMI_RNN.set_graphCreated, EMI_RNN.set_varList,
    EMI_RNN.set_output, EMI_RNN.set_assignOps, EMI_RNN.set_graph, modify.
  unfold bind at 1 2 3 4 5 6 7. unfold get_self at 1.
  cbn [EMI_RNN.graphCreated EMI_RNN.graph EMI_RNN.useDropout EMI_RNN.keep_prob
       EMI_RNN.varList EMI_RNN.output EMI_RNN.assignOps EMI_RNN.wRank
       EMI_RNN.uRank EMI_RNN._restoreBaseGraph EMI_RNN._restoreExtendedGraph].
  fold reset.
  rewrite (EMI_wrappers_restore e g reset He);
    first [reflexivity | exact Hr | discriminate].
Qed.

Lemma restoreFromGraph_resets_witness :
  let e := mk_wrapper EMI_FastRNN_graph._restoreBaseGraph
             EMI_FastRNN_graph.getHyperParams EMI_FastRNN_graph._scope
             EMI_FastRNN_names in
  let used := EMI_RNN.mk true None false None ["stale"] (Some "stale")
                [assign "stale" (zeros 1 1)] None None in
  EMI_RNN.restoreFromGraph
    (EMI_RNN.mk_methods EMI_FastRNN_graph._restoreBaseGraph
       (fun _ => EMI_RNN.set_graphCreated true))
    (Some checkpoint_graph) used =
  (EMI_RNN.mk true (Some checkpoint_graph) false None
     (EMI_FastRNN_names None None) (Some "EMI/FastRNN/bag-output:0") []
     None None,
   Ok tt).
Proof.
  intros e used.
  eapply eq_trans.
  - apply (restoreFromGraph_resets e (fun _ => EMI_RNN.set_graphCreated true)
             checkpoint_graph used).
    + in_list.
    + apply (checkpoint_graph_restorable e false None None). in_list.
  - reflexivity.
Defined.

(** *** The name [graph] in [addBaseAssignOps] *)

(** X14 *)
Theorem addBaseAssignOps_needs_global_graph :
  forall (initVarList : option (list Tensor)),
    (forall self,
        fst (EMI_BasicLSTM.addBaseAssignOps None initVarList self) = self /\
        (snd (EMI_BasicLSTM.addBaseAssignOps None initVarList self)
         = Raise AssertionError \/
         snd (EMI_BasicLSTM.addBaseAssignOps None initVarList self)
         = Raise NameError)) /\
    (forall self,
        fst (EMI_GRU.addBaseAssignOps None initVarList self) = self /\
        (snd (EMI_GRU.addBaseAssignOps None initVarList self)
         = Raise AssertionError \/
         snd (EMI_GRU.addBaseAssignOps None initVarList self)
         = Raise NameError)) /\
    (forall self,
        fst (EMI_UGRNN.addBaseAssignOps None initVarList self) = self /\
        (snd (EMI_UGRNN.addBaseAssignOps None initVarList self)
         = Raise AssertionError \/
         snd (EMI_UGRNN.addBaseAssignOps None initVarList self)
         = Raise NameError)) /\
    (forall self,
        fst (EMI_FastRNN.addBaseAssignOps None initVarList self) = self /\
        (snd (EMI_FastRNN.addBaseAssignOps None initVarList self)
         = Raise AssertionError \/
         snd (EMI_FastRNN.addBaseAssignOps None initVarList self)
         = Raise NameError)) /\
    (forall self,
        fst (EMI_FastGRNN.addBaseAssignOps None initVarList self) = self /\
        (snd (EMI_FastGRNN.addBaseAssignOps None initVarList self)
         = Raise AssertionError \/
         snd (EMI_FastGRNN.addBaseAssignOps None initVarList self)
         = Raise NameError)).
Proof.
  intros [l|].
  - repeat split;
      try (destruct l as [|a [|b [|c l]]]; simpl; auto; fail).
    + destruct self as [[w|] [u|] ops]; reflexivity.
    + destruct self as [[w|] [u|] ops]; right; reflexivity.
    + destruct self as [[w|] [u|] ops]; reflexivity.
    + destruct self as [[w|] [u|] ops]; right; reflexivity.
  - repeat split; left; reflexivity.
Qed.

(** X15 *)
Theorem two_tensor_wrappers_assign :
  forall g (l : list Tensor) ops,
    (In "rnn/EMI-LSTM-Cell/kernel:0" (tensor_names g) ->
     In "rnn/EMI-LSTM-Cell/bias:0" (tensor_names g) ->
     (forall kernel bias, l = [kernel; bias] ->
        EMI_BasicLSTM.addBaseAssignOps (Some g) (Some l) (EMI_BasicLSTM.mk ops) =
        (EMI_BasicLSTM.mk
           (ops ++ [assign "rnn/EMI-LSTM-Cell/kernel:0" kernel;
                    assign "rnn/EMI-LSTM-Cell/bias:0" bias]),
         Ok tt)) /\
     (List.length l <> 2%nat ->
        EMI_BasicLSTM.addBaseAssignOps (Some g) (Some l) (EMI_BasicLSTM.mk ops) =
        (EMI_BasicLSTM.mk ops, Raise AssertionError))) /\
    (In "rnn/ugrnn_cell/kernel:0" (tensor_names g) ->
     In "rnn/ugrnn_cell/bias:0" (tensor_names g) ->
     (forall kernel bias, l = [kernel; bias] ->
        EMI_UGRNN.addBaseAssignOps (Some g) (Some l) (EMI_UGRNN.mk ops) =
        (EMI_UGRNN.mk
           (ops ++ [assign "rnn/ugrnn_cell/kernel:0" kernel;
                    assign "rnn/ugrnn_cell/bias:0" bias]),
         Ok tt)) /\
     (List.length l <> 2%nat ->
        EMI_UGRNN.addBaseAssignOps (Some g) (Some l) (EMI_UGRNN.mk ops) =
        (EMI_UGRNN.mk ops, Raise AssertionError))).
Proof.
  intros g l ops. split; intros Hk Hb.
  - split.
    + intros kernel bias ->.
      unfold EMI_BasicLSTM.addBaseAssignOps, EMI_BasicLSTM.extend_assignOps.
      unfold_assign.
      rewrite !existsb_eqb_In by assumption. reflexivity.
    + intros Hl. destruct l as [|a [|b [|c l]]]; try reflexivity.
      simpl in Hl. contradiction.
  - split.
    + intros kernel bias ->.
      unfold EMI_UGRNN.addBaseAssignOps, EMI_UGRNN.extend_assignOps.
      unfold_assign.
      rewrite !existsb_eqb_In by assumption. reflexivity.
    + intros Hl. destruct l as [|a [|b [|c l]]]; try reflexivity.
      simpl in Hl. contradiction.
Qed.

Lemma two_tensor_wrappers_assign_witness :
  EMI_UGRNN.addBaseAssignOps (Some full_graph) (Some [zeros 4 8; zeros 1 8])
    (EMI_UGRNN.mk []) =
  (EMI_UGRNN.mk [assign "rnn/ugrnn_cell/kernel:0" (zeros 4 8);
                 assign "rnn/ugrnn_cell/bias:0" (zeros 1 8)],
   Ok tt).
Proof.
  apply (proj1 (proj2 (two_tensor_wrappers_assign full_graph
                         [zeros 4 8; zeros 1 8] [])
                  ltac:(in_list) ltac:(in_list)) (zeros 4 8) (zeros 1 8) eq_refl).
Defined.
